(** * The messaging domain service of it-messaging-service

    A shallow embedding of [internal/services] (the messaging service, the
    cache service and the event publisher), of the PostgreSQL repositories
    and of the HTTP handlers that call them, followed by the properties of
    the ownership checks, of the cache-aside read path and of the event
    emission.

    The service is written against three interfaces (repositories, cache,
    event publisher).  Each method call of such a collaborator is a node of
    a program tree; the tree is run against implementations of the
    interfaces, threading their state and recording the calls that were
    made together with what they answered. *)

From Stdlib Require Import ZArith Lia Ascii.
From stdpp Require Import base option list sorting gmap strings.

Local Open Scope string_scope.
Local Open Scope Z_scope.

(** ** Go values *)

(** A Go [error] is compared through its text ([err.Error()]). *)
Definition error := string.

(** [fmt.Errorf(prefix + ": %w", err)]. *)
Definition Errorf_w (prefix : string) (err : error) : error :=
  prefix +:+ ": " +:+ err.

(** A [(T, error)] result of which exactly one component is set; this is
    what every repository under [internal/repositories] returns. *)
Inductive result (T : Type) : Type :=
| Ok (t : T)
| Err (e : error).
Arguments Ok {T} t.
Arguments Err {T} e.

Definition is_Ok {T} (r : result T) : Prop :=
  match r with Ok _ => True | Err _ => False end.

(** [time.Time], as nanoseconds since the epoch; [time.Duration]. *)
Definition Time := Z.
Definition Duration := Z.
Definition Minute : Duration := 60 * 1000000000.

(** ** [internal/domain] *)

Definition ConversationStatus := string.
Definition ConversationStatusActive : ConversationStatus := "active".
Definition ConversationStatusClosed : ConversationStatus := "closed".
Definition ConversationStatusArchived : ConversationStatus := "archived".

Definition Channel := string.
Definition ChannelWhatsApp : Channel := "whatsapp".
Definition ChannelWeb : Channel := "web".
Definition ChannelMessenger : Channel := "messenger".
Definition ChannelInstagram : Channel := "instagram".

Definition SenderType := string.
Definition SenderTypeUser : SenderType := "user".
Definition SenderTypeBot : SenderType := "bot".
Definition SenderTypeSystem : SenderType := "system".

Definition ContentType := string.
Definition ContentTypeText : ContentType := "text".
Definition ContentTypeImage : ContentType := "image".
Definition ContentTypeVideo : ContentType := "video".
Definition ContentTypeAudio : ContentType := "audio".
Definition ContentTypeFile : ContentType := "file".

Definition AttachmentType := string.
Definition AttachmentTypeImage : AttachmentType := "image".
Definition AttachmentTypeVideo : AttachmentType := "video".
Definition AttachmentTypeFile : AttachmentType := "file".
Definition AttachmentTypeAudio : AttachmentType := "audio".

(** The values an [interface{}] of a decoded JSON document can hold;
    arrays and objects nested inside the bag are kept as their JSON text. *)
Inductive JSONValue : Type :=
| JNull
| JBool (b : bool)
| JNumber (n : Z)
| JString (s : string)
| JNested (raw : string).

(** [type JSONB map[string]interface{}] *)
Abbreviation JSONB := (gmap string JSONValue).

Module Attachment.
Record Attachment : Type := mk {
  ID : string;
  MessageID : string;
  URL : string;
  Type_ : AttachmentType;
  Size : Z;
  Filename : string;
  CreatedAt : Time
}.
End Attachment.
Abbreviation Attachment := Attachment.Attachment.

Module Message.
Record Message : Type := mk {
  ID : string;
  ConversationID : string;
  SenderType : SenderType;
  SenderID : string;
  Content : string;
  ContentType : ContentType;
  Metadata : JSONB;
  Timestamp : Time;
  Attachments : list Attachment
}.

(** [message.Attachments = attachments] *)
Definition set_Attachments (m : Message) (l : list Attachment) : Message :=
  mk (ID m) (ConversationID m) (SenderType m) (SenderID m) (Content m)
     (ContentType m) (Metadata m) (Timestamp m) l.
End Message.
Abbreviation Message := Message.Message.

Module Conversation.
Record Conversation : Type := mk {
  ID : string;
  UserID : string;
  Channel : Channel;
  Status : ConversationStatus;
  CreatedAt : Time;
  UpdatedAt : Time;
  Messages : list Message
}.

(** [conversation.Status = status; conversation.UpdatedAt = now] *)
Definition set_Status_UpdatedAt (c : Conversation)
    (status : ConversationStatus) (now : Time) : Conversation :=
  mk (ID c) (UserID c) (Channel c) status (CreatedAt c) now (Messages c).
End Conversation.
Abbreviation Conversation := Conversation.Conversation.

Module MessageEvent.
Record MessageEvent : Type := mk {
  Type_ : string;
  ConversationID : string;
  Message : Message;
  Timestamp : Time
}.
End MessageEvent.
Abbreviation MessageEvent := MessageEvent.MessageEvent.

Module ConversationFilters.
Record ConversationFilters : Type := mk {
  Channel : Channel;
  Status : ConversationStatus;
  Limit : Z;
  Offset : Z
}.
End ConversationFilters.
Abbreviation ConversationFilters := ConversationFilters.ConversationFilters.

Module PaginationParams.
Record PaginationParams : Type := mk {
  Limit : Z;
  Offset : Z;
  SortBy : string;
  Order : string
}.
End PaginationParams.
Abbreviation PaginationParams := PaginationParams.PaginationParams.

(** ** [internal/services]: requests *)

Module SendMessageRequest.
Record SendMessageRequest : Type := mk {
  ConversationID : string;
  SenderType : SenderType;
  SenderID : string;
  Content : string;
  ContentType : ContentType;
  Metadata : JSONB
}.
End SendMessageRequest.
Abbreviation SendMessageRequest := SendMessageRequest.SendMessageRequest.

Module CreateAttachmentRequest.
Record CreateAttachmentRequest : Type := mk {
  URL : string;
  Type_ : AttachmentType;
  Size : Z;
  Filename : string
}.
End CreateAttachmentRequest.
Abbreviation CreateAttachmentRequest := CreateAttachmentRequest.CreateAttachmentRequest.

(** ** The collaborators of the messaging service

    One constructor per interface method that the service or the handlers
    call; the index is the Go return type. *)

(** [domain.ConversationRepository] *)
Inductive ConversationRepositoryE : Type -> Type :=
| ConversationRepository_Create (conversation : Conversation)
    : ConversationRepositoryE (option error)
| ConversationRepository_GetByID (id : string)
    : ConversationRepositoryE (result Conversation)
| ConversationRepository_GetByUserID (userID : string) (filters : ConversationFilters)
    : ConversationRepositoryE (result (list Conversation))
| ConversationRepository_Update (conversation : Conversation)
    : ConversationRepositoryE (option error).

(** [domain.MessageRepository] *)
Inductive MessageRepositoryE : Type -> Type :=
| MessageRepository_Create (message : Message)
    : MessageRepositoryE (option error)
| MessageRepository_GetByID (id : string)
    : MessageRepositoryE (result Message)
| MessageRepository_GetByConversationID (conversationID : string)
    (pagination : PaginationParams)
    : MessageRepositoryE (result (list Message)).

(** [domain.AttachmentRepository] *)
Inductive AttachmentRepositoryE : Type -> Type :=
| AttachmentRepository_Create (attachment : Attachment)
    : AttachmentRepositoryE (option error)
| AttachmentRepository_GetByID (id : string)
    : AttachmentRepositoryE (result Attachment)
| AttachmentRepository_GetByMessageID (messageID : string)
    : AttachmentRepositoryE (result (list Attachment)).

(** [services.CacheService].  The two getters return a Go pair whose
    components the service tests separately ([err == nil && cached != nil]),
    so the pair is kept. *)
Inductive CacheServiceE : Type -> Type :=
| CacheService_GetConversation (id : string)
    : CacheServiceE (option Conversation * option error)
| CacheService_SetConversation (conversation : Conversation)
    : CacheServiceE (option error)
| CacheService_DeleteConversation (id : string)
    : CacheServiceE (option error)
| CacheService_GetMessages (conversationID : string)
    : CacheServiceE (option (list Message) * option error)
| CacheService_SetMessages (conversationID : string) (messages : list Message)
    : CacheServiceE (option error)
| CacheService_DeleteMessages (conversationID : string)
    : CacheServiceE (option error).

(** [services.EventPublisher] *)
Inductive EventPublisherE : Type -> Type :=
| EventPublisher_PublishMessageEvent (event : MessageEvent)
    : EventPublisherE (option error).

(** [uuid.New().String()], [time.Now()] and the two logger methods the
    service and the handlers use (the structured fields of [Info] are not
    kept, nor are the lines the collaborators log on their own). *)
Inductive RuntimeE : Type -> Type :=
| uuid_New : RuntimeE string
| time_Now : RuntimeE Time
| logger_Error (msg : string) (err : error) : RuntimeE unit
| logger_Info (msg : string) : RuntimeE unit.

Inductive Call : Type -> Type :=
| conversationRepo {X} (e : ConversationRepositoryE X) : Call X
| messageRepo {X} (e : MessageRepositoryE X) : Call X
| attachmentRepo {X} (e : AttachmentRepositoryE X) : Call X
| cacheService {X} (e : CacheServiceE X) : Call X
| eventPublisher {X} (e : EventPublisherE X) : Call X
| runtime {X} (e : RuntimeE X) : Call X.

(** ** Programs over the collaborators *)

Inductive Prog (R : Type) : Type :=
| Ret (r : R)
| Vis {X : Type} (c : Call X) (k : X -> Prog R).
Arguments Ret {R} r.
Arguments Vis {R X} c k.

Fixpoint bind {A B : Type} (p : Prog A) (f : A -> Prog B) : Prog B :=
  match p with
  | Ret a => f a
  | Vis c k => Vis c (fun x => bind (k x) f)
  end.

Definition call {X : Type} (c : Call X) : Prog X := Vis c Ret.

#[global] Instance Prog_ret : MRet Prog := @Ret.
#[global] Instance Prog_bind : MBind Prog := fun A B f p => bind p f.

(** One recorded call: the method with its arguments, and its answer. *)
Inductive Event : Type :=
| Ev {X : Type} (c : Call X) (x : X).

(** An implementation of all collaborators over a state [W]. *)
Definition Handler (W : Type) : Type := forall X : Type, Call X -> W -> X * W.

(** The outcome of a run: the returned value, the final state of the
    collaborators and the calls in the order they were made. *)
Record Outcome (R W : Type) : Type := mkOutcome {
  returned : R;
  final : W;
  trace : list Event
}.
Arguments mkOutcome {R W}.
Arguments returned {R W}.
Arguments final {R W}.
Arguments trace {R W}.

(** Put one more call in front of what an outcome recorded. *)
Definition observe {R W : Type} (ev : Event) (o : Outcome R W) : Outcome R W :=
  mkOutcome (returned o) (final o) (ev :: trace o).
Arguments observe : simpl never.

Fixpoint run {W R : Type} (h : Handler W) (p : Prog R) (w : W) : Outcome R W :=
  match p with
  | Ret r => mkOutcome r w []
  | Vis c k =>
      let xw := h _ c w in
      observe (Ev c xw.1) (run h (k xw.1) xw.2)
  end.

(** ** [internal/services]: the messaging service *)

(** The two optional collaborators of [messagingService]: the fields
    [cacheService] and [eventPublisher] are tested against [nil] before
    each use.  ([main] always passes a Redis-backed or a no-op value.) *)
Record messagingService : Type := {
  has_cacheService : bool;
  has_eventPublisher : bool
}.

Definition CreateConversation (s : messagingService) (userID : string)
    (channel : Channel) : Prog (result Conversation) :=
  id ← call (runtime uuid_New);
  createdAt ← call (runtime time_Now);
  updatedAt ← call (runtime time_Now);
  let conversation :=
    Conversation.mk id userID channel ConversationStatusActive createdAt updatedAt [] in
  e ← call (conversationRepo (ConversationRepository_Create conversation));
  match e with
  | Some err =>
      _ ← call (runtime (logger_Error "Failed to create conversation" err));
      mret (Err (Errorf_w "failed to create conversation" err))
  | None =>
      _ ← call (runtime (logger_Info "Conversation created"));
      mret (Ok conversation)
  end.

Definition GetConversation (s : messagingService) (id userID : string)
    : Prog (result Conversation) :=
  let from_store : Prog (result Conversation) :=
    r ← call (conversationRepo (ConversationRepository_GetByID id));
    match r with
    | Err err => mret (Err (Errorf_w "failed to get conversation" err))
    | Ok conversation =>
        (* Verify user ownership *)
        if decide (Conversation.UserID conversation = userID) then
          (* Cache the result *)
          if has_cacheService s then
            _ ← call (cacheService (CacheService_SetConversation conversation));
            mret (Ok conversation)
          else mret (Ok conversation)
        else mret (Err "conversation not found or access denied")
    end in
  (* Check cache first *)
  if has_cacheService s then
    r ← call (cacheService (CacheService_GetConversation id));
    match r with
    | (Some cached, None) =>
        (* Verify user ownership *)
        if decide (Conversation.UserID cached = userID) then mret (Ok cached)
        else from_store
    | _ => from_store
    end
  else from_store.

Definition GetConversations (s : messagingService) (userID : string)
    (filters : ConversationFilters) : Prog (result (list Conversation)) :=
  r ← call (conversationRepo (ConversationRepository_GetByUserID userID filters));
  match r with
  | Err err => mret (Err (Errorf_w "failed to get conversations" err))
  | Ok conversations => mret (Ok conversations)
  end.

Definition UpdateConversationStatus (s : messagingService) (id : string)
    (status : ConversationStatus) (userID : string) : Prog (option error) :=
  r ← GetConversation s id userID;
  match r with
  | Err err => mret (Some err)
  | Ok conversation =>
      now ← call (runtime time_Now);
      let conversation := Conversation.set_Status_UpdatedAt conversation status now in
      e ← call (conversationRepo (ConversationRepository_Update conversation));
      match e with
      | Some err => mret (Some (Errorf_w "failed to update conversation" err))
      | None =>
          (* Invalidate cache *)
          _ ← (if has_cacheService s then
                 _ ← call (cacheService (CacheService_DeleteConversation id));
                 mret tt
               else mret tt);
          _ ← call (runtime (logger_Info "Conversation status updated"));
          mret None
      end
  end.

Definition SendMessage (s : messagingService) (req : SendMessageRequest)
    : Prog (result Message) :=
  (* Verify conversation exists and user has access *)
  r ← GetConversation s (SendMessageRequest.ConversationID req)
        (SendMessageRequest.SenderID req);
  match r with
  | Err err => mret (Err err)
  | Ok _ =>
      id ← call (runtime uuid_New);
      timestamp ← call (runtime time_Now);
      let message :=
        Message.mk id
          (SendMessageRequest.ConversationID req)
          (SendMessageRequest.SenderType req)
          (SendMessageRequest.SenderID req)
          (SendMessageRequest.Content req)
          (SendMessageRequest.ContentType req)
          (SendMessageRequest.Metadata req)
          timestamp [] in
      e ← call (messageRepo (MessageRepository_Create message));
      match e with
      | Some err =>
          _ ← call (runtime (logger_Error "Failed to create message" err));
          mret (Err (Errorf_w "failed to create message" err))
      | None =>
          (* Publish message event *)
          _ ← (if has_eventPublisher s then
                 now ← call (runtime time_Now);
                 let event :=
                   MessageEvent.mk "message.received"
                     (Message.ConversationID message) message now in
                 e ← call (eventPublisher (EventPublisher_PublishMessageEvent event));
                 match e with
                 | Some err =>
                     call (runtime (logger_Error "Failed to publish message event" err))
                 | None => mret tt
                 end
               else mret tt);
          _ ← call (runtime (logger_Info "Message sent"));
          mret (Ok message)
      end
  end.

(** The loop of [GetMessages]: [for i := range messages], which skips
    ([continue]) the message whose attachments cannot be loaded. *)
Fixpoint loadAttachments (messages : list Message) : Prog (list Message) :=
  match messages with
  | [] => mret []
  | m :: rest =>
      r ← call (attachmentRepo (AttachmentRepository_GetByMessageID (Message.ID m)));
      m' ← match r with
           | Err err =>
               _ ← call (runtime (logger_Error "Failed to load attachments for message" err));
               mret m
           | Ok attachments => mret (Message.set_Attachments m attachments)
           end;
      rest' ← loadAttachments rest;
      mret (m' :: rest')
  end.

Definition GetMessages (s : messagingService) (conversationID userID : string)
    (pagination : PaginationParams) : Prog (result (list Message)) :=
  (* Verify conversation access *)
  r ← GetConversation s conversationID userID;
  match r with
  | Err err => mret (Err err)
  | Ok _ =>
      r ← call (messageRepo (MessageRepository_GetByConversationID conversationID pagination));
      match r with
      | Err err => mret (Err (Errorf_w "failed to get messages" err))
      | Ok messages =>
          (* Load attachments for each message *)
          messages ← loadAttachments messages;
          mret (Ok messages)
      end
  end.

Definition GetMessage (s : messagingService) (messageID userID : string)
    : Prog (result Message) :=
  r ← call (messageRepo (MessageRepository_GetByID messageID));
  match r with
  | Err err => mret (Err (Errorf_w "failed to get message" err))
  | Ok message =>
      (* Verify user has access to the conversation *)
      r ← GetConversation s (Message.ConversationID message) userID;
      match r with
      | Err err => mret (Err err)
      | Ok _ =>
          (* Load attachments *)
          r ← call (attachmentRepo (AttachmentRepository_GetByMessageID messageID));
          match r with
          | Err err =>
              _ ← call (runtime (logger_Error "Failed to load attachments for message" err));
              mret (Ok message)
          | Ok attachments => mret (Ok (Message.set_Attachments message attachments))
          end
      end
  end.

Definition CreateAttachment (s : messagingService) (messageID : string)
    (req : CreateAttachmentRequest) : Prog (result Attachment) :=
  id ← call (runtime uuid_New);
  createdAt ← call (runtime time_Now);
  let attachment :=
    Attachment.mk id messageID
      (CreateAttachmentRequest.URL req)
      (CreateAttachmentRequest.Type_ req)
      (CreateAttachmentRequest.Size req)
      (CreateAttachmentRequest.Filename req)
      createdAt in
  e ← call (attachmentRepo (AttachmentRepository_Create attachment));
  match e with
  | Some err =>
      _ ← call (runtime (logger_Error "Failed to create attachment" err));
      mret (Err (Errorf_w "failed to create attachment" err))
  | None =>
      _ ← call (runtime (logger_Info "Attachment created"));
      mret (Ok attachment)
  end.

Definition GetAttachment (s : messagingService) (attachmentID userID : string)
    : Prog (result Attachment) :=
  r ← call (attachmentRepo (AttachmentRepository_GetByID attachmentID));
  match r with
  | Err err => mret (Err (Errorf_w "failed to get attachment" err))
  | Ok attachment =>
      (* Verify user has access to the message/conversation *)
      r ← GetMessage s (Attachment.MessageID attachment) userID;
      match r with
      | Err err => mret (Err err)
      | Ok _ => mret (Ok attachment)
      end
  end.

(** ** Implementations of the collaborators *)

(** An implementation of one interface over its own state. *)
Definition Impl (E : Type -> Type) (S : Type) : Type :=
  forall X : Type, E X -> S -> X * S.

(** The three repositories are built over one database handle. *)
Record Repositories (S : Type) : Type := {
  conversationRepo_impl : Impl ConversationRepositoryE S;
  messageRepo_impl : Impl MessageRepositoryE S;
  attachmentRepo_impl : Impl AttachmentRepositoryE S
}.
Arguments conversationRepo_impl {S}.
Arguments messageRepo_impl {S}.
Arguments attachmentRepo_impl {S}.

Inductive LogLine : Type :=
| LogError (msg : string) (err : error)
| LogInfo (msg : string).

(** What the process itself provides: the identifiers [uuid.New] draws,
    the readings of the wall clock, and the log. *)
Record Runtime : Type := {
  uuids : nat -> string;
  uuid_calls : nat;
  clock : nat -> Time;
  clock_calls : nat;
  log : list LogLine
}.

Definition runtime_impl : Impl RuntimeE Runtime :=
  fun X e =>
    match e in RuntimeE X return Runtime -> X * Runtime with
    | uuid_New => fun r =>
        (uuids r (uuid_calls r),
         {| uuids := uuids r; uuid_calls := S (uuid_calls r);
            clock := clock r; clock_calls := clock_calls r; log := log r |})
    | time_Now => fun r =>
        (clock r (clock_calls r),
         {| uuids := uuids r; uuid_calls := uuid_calls r;
            clock := clock r; clock_calls := S (clock_calls r); log := log r |})
    | logger_Error msg err => fun r =>
        (tt,
         {| uuids := uuids r; uuid_calls := uuid_calls r;
            clock := clock r; clock_calls := clock_calls r;
            log := (log r ++ [LogError msg err])%list |})
    | logger_Info msg => fun r =>
        (tt,
         {| uuids := uuids r; uuid_calls := uuid_calls r;
            clock := clock r; clock_calls := clock_calls r;
            log := (log r ++ [LogInfo msg])%list |})
    end.

(** The state the service runs against: the database behind the
    repositories, the cache, the event sink and the runtime. *)
Record World (S C P : Type) : Type := mkWorld {
  db : S;
  cache : C;
  pubsub : P;
  rt : Runtime
}.
Arguments mkWorld {S C P}.
Arguments db {S C P}.
Arguments cache {S C P}.
Arguments pubsub {S C P}.
Arguments rt {S C P}.

(** [NewMessagingService(conversationRepo, messageRepo, attachmentRepo,
    eventPublisher, cacheService, logger)]: every call goes to the
    collaborator it names and touches that collaborator's state only. *)
Definition collaborators {S C P : Type} (repos : Repositories S)
    (cacheImpl : Impl CacheServiceE C) (publisherImpl : Impl EventPublisherE P)
    : Handler (World S C P) :=
  fun X c =>
    match c in Call X return World S C P -> X * World S C P with
    | conversationRepo e => fun w =>
        let xs := conversationRepo_impl repos _ e (db w) in
        (xs.1, mkWorld xs.2 (cache w) (pubsub w) (rt w))
    | messageRepo e => fun w =>
        let xs := messageRepo_impl repos _ e (db w) in
        (xs.1, mkWorld xs.2 (cache w) (pubsub w) (rt w))
    | attachmentRepo e => fun w =>
        let xs := attachmentRepo_impl repos _ e (db w) in
        (xs.1, mkWorld xs.2 (cache w) (pubsub w) (rt w))
    | cacheService e => fun w =>
        let xs := cacheImpl _ e (cache w) in
        (xs.1, mkWorld (db w) xs.2 (pubsub w) (rt w))
    | eventPublisher e => fun w =>
        let xs := publisherImpl _ e (pubsub w) in
        (xs.1, mkWorld (db w) (cache w) xs.2 (rt w))
    | runtime e => fun w =>
        let xs := runtime_impl _ e (rt w) in
        (xs.1, mkWorld (db w) (cache w) (pubsub w) xs.2)
    end.

(** *** [noOpCacheService] and [noOpEventPublisher] *)

Definition noOpCacheService {C : Type} : Impl CacheServiceE C :=
  fun X e =>
    match e in CacheServiceE X return C -> X * C with
    | CacheService_GetConversation _ => fun c => ((None, Some "cache disabled"), c)
    | CacheService_SetConversation _ => fun c => (None, c)
    | CacheService_DeleteConversation _ => fun c => (None, c)
    | CacheService_GetMessages _ => fun c => ((None, Some "cache disabled"), c)
    | CacheService_SetMessages _ _ => fun c => (None, c)
    | CacheService_DeleteMessages _ => fun c => (None, c)
    end.

Definition noOpEventPublisher {P : Type} : Impl EventPublisherE P :=
  fun X e =>
    match e in EventPublisherE X return P -> X * P with
    | EventPublisher_PublishMessageEvent _ => fun p => (None, p)
    end.

(** *** [redisCacheService] and [redisEventPublisher] *)

(** The JSON documents the service stores under Redis keys.  Marshalling a
    value and unmarshalling it into the same type gives the value back;
    unmarshalling into another type is an error. *)
Inductive JSONDoc : Type :=
| doc_Conversation (c : Conversation)
| doc_Messages (l : list Message).

Record RedisEntry : Type := {
  data : JSONDoc;
  expiration : Duration
}.

(** A Redis client: the keys it holds, and for the n-th command whether
    the server can be reached (an error when it cannot). *)
Record Redis : Type := {
  redis_keys : gmap string RedisEntry;
  redis_faults : nat -> option error;
  redis_commands : nat
}.

Definition redis_fault (r : Redis) : option error :=
  redis_faults r (redis_commands r).

(** The client after one command that left the keys as [keys]. *)
Definition redis_after (r : Redis) (keys : gmap string RedisEntry) : Redis :=
  {| redis_keys := keys; redis_faults := redis_faults r;
     redis_commands := S (redis_commands r) |}.

Definition conversation_key (id : string) : string := "conversation:" +:+ id.
Definition messages_key (conversationID : string) : string := "messages:" +:+ conversationID.

(** [NewRedisCacheService]: [expiration: 30 * time.Minute]. *)
Definition redisCacheService_expiration : Duration := 30 * Minute.

Definition redisCacheService_GetConversation (id : string) (r : Redis)
    : (option Conversation * option error) * Redis :=
  let key := conversation_key id in
  match redis_fault r with
  | Some err => ((None, Some err), redis_after r (redis_keys r))
  | None =>
      match redis_keys r !! key with
      | None => ((None, Some "conversation not found in cache"), redis_after r (redis_keys r))
      | Some entry =>
          match data entry with
          | doc_Conversation conversation =>
              ((Some conversation, None), redis_after r (redis_keys r))
          | doc_Messages _ =>
              ((None, Some "json: cannot unmarshal array into Go value of type domain.Conversation"),
               redis_after r (redis_keys r))
          end
      end
  end.

Definition redisCacheService_SetConversation (conversation : Conversation) (r : Redis)
    : option error * Redis :=
  let key := conversation_key (Conversation.ID conversation) in
  match redis_fault r with
  | Some err => (Some err, redis_after r (redis_keys r))
  | None =>
      (None,
       redis_after r
         (<[key := {| data := doc_Conversation conversation;
                      expiration := redisCacheService_expiration |}]> (redis_keys r)))
  end.

Definition redisCacheService_DeleteConversation (id : string) (r : Redis)
    : option error * Redis :=
  let key := conversation_key id in
  match redis_fault r with
  | Some err => (Some err, redis_after r (redis_keys r))
  | None => (None, redis_after r (delete key (redis_keys r)))
  end.

Definition redisCacheService_GetMessages (conversationID : string) (r : Redis)
    : (option (list Message) * option error) * Redis :=
  let key := messages_key conversationID in
  match redis_fault r with
  | Some err => ((None, Some err), redis_after r (redis_keys r))
  | None =>
      match redis_keys r !! key with
      | None => ((None, Some "messages not found in cache"), redis_after r (redis_keys r))
      | Some entry =>
          match data entry with
          | doc_Messages messages => ((Some messages, None), redis_after r (redis_keys r))
          | doc_Conversation _ =>
              ((None, Some "json: cannot unmarshal object into Go value of type []domain.Message"),
               redis_after r (redis_keys r))
          end
      end
  end.

Definition redisCacheService_SetMessages (conversationID : string)
    (messages : list Message) (r : Redis) : option error * Redis :=
  let key := messages_key conversationID in
  (* Cache messages for shorter time *)
  let expiration := 10 * Minute in
  match redis_fault r with
  | Some err => (Some err, redis_after r (redis_keys r))
  | None =>
      (None,
       redis_after r
         (<[key := {| data := doc_Messages messages; expiration := expiration |}]>
            (redis_keys r)))
  end.

Definition redisCacheService_DeleteMessages (conversationID : string) (r : Redis)
    : option error * Redis :=
  let key := messages_key conversationID in
  match redis_fault r with
  | Some err => (Some err, redis_after r (redis_keys r))
  | None => (None, redis_after r (delete key (redis_keys r)))
  end.

Definition redisCacheService : Impl CacheServiceE Redis :=
  fun X e =>
    match e in CacheServiceE X return Redis -> X * Redis with
    | CacheService_GetConversation id => redisCacheService_GetConversation id
    | CacheService_SetConversation c => redisCacheService_SetConversation c
    | CacheService_DeleteConversation id => redisCacheService_DeleteConversation id
    | CacheService_GetMessages id => redisCacheService_GetMessages id
    | CacheService_SetMessages id l => redisCacheService_SetMessages id l
    | CacheService_DeleteMessages id => redisCacheService_DeleteMessages id
    end.

(** The pub/sub side of a Redis client: what reached each topic. *)
Record PubSub : Type := {
  published : list (string * MessageEvent);
  pubsub_faults : nat -> option error;
  pubsub_commands : nat
}.

Definition redisEventPublisher (topic : string) : Impl EventPublisherE PubSub :=
  fun X e =>
    match e in EventPublisherE X return PubSub -> X * PubSub with
    | EventPublisher_PublishMessageEvent event => fun p =>
        match pubsub_faults p (pubsub_commands p) with
        | Some err =>
            (Some err,
             {| published := published p; pubsub_faults := pubsub_faults p;
                pubsub_commands := S (pubsub_commands p) |})
        | None =>
            (None,
             {| published := published p ++ [(topic, event)];
                pubsub_faults := pubsub_faults p;
                pubsub_commands := S (pubsub_commands p) |})
        end
    end.

(** ** [internal/repositories]: the PostgreSQL repositories

    The tables are those of the schema script; a row has the columns of its
    table.  Identifiers are taken to be well-formed UUIDs and the VARCHAR
    length limits are not represented. *)

Module conversations.
Record row : Type := mk {
  id : string;
  user_id : string;
  channel : string;
  status : string;
  created_at : Time;
  updated_at : Time
}.
End conversations.

Module messages.
Record row : Type := mk {
  id : string;
  conversation_id : string;
  sender_type : string;
  sender_id : string;
  content : string;
  content_type : string;
  metadata : JSONB;
  timestamp : Time
}.
End messages.

Module attachments.
Record row : Type := mk {
  id : string;
  message_id : string;
  url : string;
  type_ : string;
  size : Z;
  filename : string;
  created_at : Time
}.
End attachments.

(** A database connection: the three tables, for the n-th statement
    whether it fails at the driver (connection lost, timeout, ...), and the
    reading of [NOW()] during it. *)
Record Database : Type := {
  conversations_rows : list conversations.row;
  messages_rows : list messages.row;
  attachments_rows : list attachments.row;
  db_faults : nat -> option error;
  db_now : nat -> Time;
  db_statements : nat
}.

Definition db_fault (d : Database) : option error :=
  db_faults d (db_statements d).

Definition db_NOW (d : Database) : Time := db_now d (db_statements d).

(** The connection after one statement that left the tables as given. *)
Definition db_after (d : Database) (cs : list conversations.row)
    (ms : list messages.row) (ats : list attachments.row) : Database :=
  {| conversations_rows := cs; messages_rows := ms; attachments_rows := ats;
     db_faults := db_faults d; db_now := db_now d;
     db_statements := S (db_statements d) |}.

(** The connection after one statement that changed no table. *)
Definition db_read (d : Database) : Database :=
  db_after d (conversations_rows d) (messages_rows d) (attachments_rows d).

(** [LIMIT] and [OFFSET], each appended to the query only when positive. *)
Definition limit_offset {A : Type} (limit offset : Z) (rows : list A) : list A :=
  let rows := if decide (0 < offset) then drop (Z.to_nat offset) rows else rows in
  if decide (0 < limit) then take (Z.to_nat limit) rows else rows.

(** The three orders the queries ask for. *)
Definition conversations_order (a b : conversations.row) : Prop :=
  conversations.updated_at b <= conversations.updated_at a.
Definition messages_order (a b : messages.row) : Prop :=
  messages.timestamp b <= messages.timestamp a.
Definition attachments_order (a b : attachments.row) : Prop :=
  attachments.created_at a <= attachments.created_at b.

#[global] Instance conversations_order_dec a b : Decision (conversations_order a b) :=
  decide (conversations.updated_at b <= conversations.updated_at a).
#[global] Instance messages_order_dec a b : Decision (messages_order a b) :=
  decide (messages.timestamp b <= messages.timestamp a).
#[global] Instance attachments_order_dec a b : Decision (attachments_order a b) :=
  decide (attachments.created_at a <= attachments.created_at b).

(** The CHECK constraints of the schema. *)
Definition channel_check (c : string) : bool :=
  bool_decide (c ∈ ["whatsapp"; "web"; "messenger"; "instagram"]).
Definition status_check (s : string) : bool :=
  bool_decide (s ∈ ["active"; "closed"; "archived"]).
Definition sender_type_check (s : string) : bool :=
  bool_decide (s ∈ ["user"; "bot"; "system"]).
Definition content_type_check (s : string) : bool :=
  bool_decide (s ∈ ["text"; "image"; "video"; "audio"; "file"]).
Definition attachment_type_check (s : string) : bool :=
  bool_decide (s ∈ ["image"; "video"; "file"; "audio"]).

Definition pq_unique_violation : error :=
  "pq: duplicate key value violates unique constraint".
Definition pq_check_violation : error :=
  "pq: new row violates check constraint".
Definition pq_foreign_key_violation : error :=
  "pq: insert or update on table violates foreign key constraint".

(** *** [postgresConversationRepository] *)

Definition select_conversation (d : Database) (id : string)
    : option conversations.row :=
  List.find (fun r => bool_decide (conversations.id r = id)) (conversations_rows d).

(** [Scan] into a fresh [domain.Conversation]: [Messages] stays nil. *)
Definition scan_conversation (r : conversations.row) : Conversation :=
  Conversation.mk (conversations.id r) (conversations.user_id r)
    (conversations.channel r) (conversations.status r)
    (conversations.created_at r) (conversations.updated_at r) [].

Definition postgresConversationRepository_Create (conversation : Conversation)
    (d : Database) : option error * Database :=
  match db_fault d with
  | Some err => (Some (Errorf_w "failed to create conversation" err), db_read d)
  | None =>
      let new :=
        conversations.mk (Conversation.ID conversation)
          (Conversation.UserID conversation) (Conversation.Channel conversation)
          (Conversation.Status conversation) (Conversation.CreatedAt conversation)
          (Conversation.UpdatedAt conversation) in
      match select_conversation d (Conversation.ID conversation) with
      | Some _ =>
          (Some (Errorf_w "failed to create conversation" pq_unique_violation), db_read d)
      | None =>
          if channel_check (Conversation.Channel conversation)
             && status_check (Conversation.Status conversation)
          then (None,
                db_after d (conversations_rows d ++ [new])
                  (messages_rows d) (attachments_rows d))
          else (Some (Errorf_w "failed to create conversation" pq_check_violation),
                db_read d)
      end
  end.

Definition postgresConversationRepository_GetByID (id : string) (d : Database)
    : result Conversation * Database :=
  match db_fault d with
  | Some err => (Err (Errorf_w "failed to get conversation" err), db_read d)
  | None =>
      match select_conversation d id with
      | None => (Err "conversation not found", db_read d)
      | Some r => (Ok (scan_conversation r), db_read d)
      end
  end.

Definition postgresConversationRepository_GetByUserID (userID : string)
    (filters : ConversationFilters) (d : Database)
    : result (list Conversation) * Database :=
  match db_fault d with
  | Some err => (Err (Errorf_w "failed to get conversations" err), db_read d)
  | None =>
      let selected :=
        List.filter
          (fun r =>
             bool_decide (conversations.user_id r = userID)
             && (bool_decide (ConversationFilters.Channel filters = "")
                 || bool_decide (conversations.channel r = ConversationFilters.Channel filters))
             && (bool_decide (ConversationFilters.Status filters = "")
                 || bool_decide (conversations.status r = ConversationFilters.Status filters)))
          (conversations_rows d) in
      (* ORDER BY updated_at DESC *)
      let ordered :=
        merge_sort conversations_order selected in
      (Ok (scan_conversation <$>
             limit_offset (ConversationFilters.Limit filters)
               (ConversationFilters.Offset filters) ordered),
       db_read d)
  end.

(** [UPDATE conversations SET user_id, channel, status, updated_at WHERE id];
    the trigger [update_conversations_updated_at] then overwrites
    [updated_at] with [NOW()]. *)
Definition postgresConversationRepository_Update (conversation : Conversation)
    (d : Database) : option error * Database :=
  match db_fault d with
  | Some err => (Some (Errorf_w "failed to update conversation" err), db_read d)
  | None =>
      match select_conversation d (Conversation.ID conversation) with
      | None => (Some "conversation not found", db_read d)
      | Some _ =>
          if channel_check (Conversation.Channel conversation)
             && status_check (Conversation.Status conversation)
          then
            let update (r : conversations.row) : conversations.row :=
              if bool_decide (conversations.id r = Conversation.ID conversation)
              then conversations.mk (conversations.id r)
                     (Conversation.UserID conversation)
                     (Conversation.Channel conversation)
                     (Conversation.Status conversation)
                     (conversations.created_at r) (db_NOW d)
              else r in
            (None,
             db_after d (update <$> conversations_rows d)
               (messages_rows d) (attachments_rows d))
          else (Some (Errorf_w "failed to update conversation" pq_check_violation),
                db_read d)
      end
  end.

Definition postgresConversationRepository : Impl ConversationRepositoryE Database :=
  fun X e =>
    match e in ConversationRepositoryE X return Database -> X * Database with
    | ConversationRepository_Create c => postgresConversationRepository_Create c
    | ConversationRepository_GetByID id => postgresConversationRepository_GetByID id
    | ConversationRepository_GetByUserID u f => postgresConversationRepository_GetByUserID u f
    | ConversationRepository_Update c => postgresConversationRepository_Update c
    end.

(** *** [postgresMessageRepository] *)

Definition select_message (d : Database) (id : string) : option messages.row :=
  List.find (fun r => bool_decide (messages.id r = id)) (messages_rows d).

(** [Scan] into a fresh [domain.Message]: [Attachments] stays nil. *)
Definition scan_message (r : messages.row) : Message :=
  Message.mk (messages.id r) (messages.conversation_id r) (messages.sender_type r)
    (messages.sender_id r) (messages.content r) (messages.content_type r)
    (messages.metadata r) (messages.timestamp r) [].

Definition postgresMessageRepository_Create (message : Message) (d : Database)
    : option error * Database :=
  match db_fault d with
  | Some err => (Some (Errorf_w "failed to create message" err), db_read d)
  | None =>
      let new :=
        messages.mk (Message.ID message) (Message.ConversationID message)
          (Message.SenderType message) (Message.SenderID message)
          (Message.Content message) (Message.ContentType message)
          (Message.Metadata message) (Message.Timestamp message) in
      match select_message d (Message.ID message),
            select_conversation d (Message.ConversationID message) with
      | Some _, _ =>
          (Some (Errorf_w "failed to create message" pq_unique_violation), db_read d)
      | None, None =>
          (Some (Errorf_w "failed to create message" pq_foreign_key_violation), db_read d)
      | None, Some _ =>
          if sender_type_check (Message.SenderType message)
             && content_type_check (Message.ContentType message)
          then (None,
                db_after d (conversations_rows d) (messages_rows d ++ [new])
                  (attachments_rows d))
          else (Some (Errorf_w "failed to create message" pq_check_violation), db_read d)
      end
  end.

Definition postgresMessageRepository_GetByID (id : string) (d : Database)
    : result Message * Database :=
  match db_fault d with
  | Some err => (Err (Errorf_w "failed to get message" err), db_read d)
  | None =>
      match select_message d id with
      | None => (Err "message not found", db_read d)
      | Some r => (Ok (scan_message r), db_read d)
      end
  end.

Definition postgresMessageRepository_GetByConversationID (conversationID : string)
    (pagination : PaginationParams) (d : Database)
    : result (list Message) * Database :=
  match db_fault d with
  | Some err => (Err (Errorf_w "failed to get messages" err), db_read d)
  | None =>
      let selected :=
        List.filter (fun r => bool_decide (messages.conversation_id r = conversationID))
          (messages_rows d) in
      (* ORDER BY timestamp DESC *)
      let ordered :=
        merge_sort messages_order selected in
      (Ok (scan_message <$>
             limit_offset (PaginationParams.Limit pagination)
               (PaginationParams.Offset pagination) ordered),
       db_read d)
  end.

Definition postgresMessageRepository : Impl MessageRepositoryE Database :=
  fun X e =>
    match e in MessageRepositoryE X return Database -> X * Database with
    | MessageRepository_Create m => postgresMessageRepository_Create m
    | MessageRepository_GetByID id => postgresMessageRepository_GetByID id
    | MessageRepository_GetByConversationID id p =>
        postgresMessageRepository_GetByConversationID id p
    end.

(** *** [postgresAttachmentRepository] *)

Definition select_attachment (d : Database) (id : string) : option attachments.row :=
  List.find (fun r => bool_decide (attachments.id r = id)) (attachments_rows d).

Definition scan_attachment (r : attachments.row) : Attachment :=
  Attachment.mk (attachments.id r) (attachments.message_id r) (attachments.url r)
    (attachments.type_ r) (attachments.size r) (attachments.filename r)
    (attachments.created_at r).

Definition postgresAttachmentRepository_Create (attachment : Attachment)
    (d : Database) : option error * Database :=
  match db_fault d with
  | Some err => (Some (Errorf_w "failed to create attachment" err), db_read d)
  | None =>
      let new :=
        attachments.mk (Attachment.ID attachment) (Attachment.MessageID attachment)
          (Attachment.URL attachment) (Attachment.Type_ attachment)
          (Attachment.Size attachment) (Attachment.Filename attachment)
          (Attachment.CreatedAt attachment) in
      match select_attachment d (Attachment.ID attachment),
            select_message d (Attachment.MessageID attachment) with
      | Some _, _ =>
          (Some (Errorf_w "failed to create attachment" pq_unique_violation), db_read d)
      | None, None =>
          (Some (Errorf_w "failed to create attachment" pq_foreign_key_violation),
           db_read d)
      | None, Some _ =>
          if attachment_type_check (Attachment.Type_ attachment)
          then (None,
                db_after d (conversations_rows d) (messages_rows d)
                  (attachments_rows d ++ [new]))
          else (Some (Errorf_w "failed to create attachment" pq_check_violation),
                db_read d)
      end
  end.

Definition postgresAttachmentRepository_GetByID (id : string) (d : Database)
    : result Attachment * Database :=
  match db_fault d with
  | Some err => (Err (Errorf_w "failed to get attachment" err), db_read d)
  | None =>
      match select_attachment d id with
      | None => (Err "attachment not found", db_read d)
      | Some r => (Ok (scan_attachment r), db_read d)
      end
  end.

Definition postgresAttachmentRepository_GetByMessageID (messageID : string)
    (d : Database) : result (list Attachment) * Database :=
  match db_fault d with
  | Some err => (Err (Errorf_w "failed to get attachments" err), db_read d)
  | None =>
      let selected :=
        List.filter (fun r => bool_decide (attachments.message_id r = messageID))
          (attachments_rows d) in
      (* ORDER BY created_at ASC *)
      let ordered :=
        merge_sort attachments_order selected in
      (Ok (scan_attachment <$> ordered), db_read d)
  end.

Definition postgresAttachmentRepository : Impl AttachmentRepositoryE Database :=
  fun X e =>
    match e in AttachmentRepositoryE X return Database -> X * Database with
    | AttachmentRepository_Create a => postgresAttachmentRepository_Create a
    | AttachmentRepository_GetByID id => postgresAttachmentRepository_GetByID id
    | AttachmentRepository_GetByMessageID id => postgresAttachmentRepository_GetByMessageID id
    end.

Definition postgres : Repositories Database := {|
  conversationRepo_impl := postgresConversationRepository;
  messageRepo_impl := postgresMessageRepository;
  attachmentRepo_impl := postgresAttachmentRepository
|}.

(** *** The no-op repositories, used when no database is configured *)

Definition noOpRepositories {S : Type} : Repositories S := {|
  conversationRepo_impl := fun X e =>
    match e in ConversationRepositoryE X return S -> X * S with
    | ConversationRepository_Create _ => fun d => (Some "database not available", d)
    | ConversationRepository_GetByID _ => fun d => (Err "database not available", d)
    | ConversationRepository_GetByUserID _ _ => fun d => (Err "database not available", d)
    | ConversationRepository_Update _ => fun d => (Some "database not available", d)
    end;
  messageRepo_impl := fun X e =>
    match e in MessageRepositoryE X return S -> X * S with
    | MessageRepository_Create _ => fun d => (Some "database not available", d)
    | MessageRepository_GetByID _ => fun d => (Err "database not available", d)
    | MessageRepository_GetByConversationID _ _ => fun d => (Err "database not available", d)
    end;
  attachmentRepo_impl := fun X e =>
    match e in AttachmentRepositoryE X return S -> X * S with
    | AttachmentRepository_Create _ => fun d => (Some "database not available", d)
    | AttachmentRepository_GetByID _ => fun d => (Err "database not available", d)
    | AttachmentRepository_GetByMessageID _ => fun d => (Err "database not available", d)
    end
|}.

(** ** What a trace shows *)

(** The conversations handed to [CacheService.SetConversation]. *)
Definition cache_sets (t : list Event) : list Conversation :=
  omap (fun ev =>
    match ev with
    | Ev (cacheService (CacheService_SetConversation c)) _ => Some c
    | _ => None
    end) t.

(** The ids handed to [CacheService.DeleteConversation], each with the
    error the cache answered ([None] when the deletion went through). *)
Definition cache_deletes (t : list Event) : list (string * option error) :=
  omap (fun ev =>
    match ev with
    | Ev c x =>
        match c in Call X return X -> option (string * option error) with
        | cacheService e =>
            match e in CacheServiceE X return X -> option (string * option error) with
            | CacheService_DeleteConversation id => fun r => Some (id, r)
            | _ => fun _ => None
            end
        | _ => fun _ => None
        end x
    end) t.

(** The calls of [GetMessages], [SetMessages] and [DeleteMessages] of the
    cache, each with the conversation id whose key it addresses. *)
Definition message_page_cache_calls (t : list Event) : list string :=
  omap (fun ev =>
    match ev with
    | Ev (cacheService (CacheService_GetMessages id)) _ => Some id
    | Ev (cacheService (CacheService_SetMessages id _)) _ => Some id
    | Ev (cacheService (CacheService_DeleteMessages id)) _ => Some id
    | _ => None
    end) t.

(** The ids looked up through [ConversationRepository.GetByID]. *)
Definition conversation_reads (t : list Event) : list string :=
  omap (fun ev =>
    match ev with
    | Ev (conversationRepo (ConversationRepository_GetByID id)) _ => Some id
    | _ => None
    end) t.

(** The messages handed to [MessageRepository.Create], each with the
    error the repository answered ([None] when the row was written). *)
Definition message_writes (t : list Event) : list (Message * option error) :=
  omap (fun ev =>
    match ev with
    | Ev c x =>
        match c in Call X return X -> option (Message * option error) with
        | messageRepo e =>
            match e in MessageRepositoryE X return X -> option (Message * option error) with
            | MessageRepository_Create m => fun r => Some (m, r)
            | _ => fun _ => None
            end
        | _ => fun _ => None
        end x
    end) t.

(** The page queries [MessageRepository.GetByConversationID]. *)
Definition message_page_reads (t : list Event) : list (string * PaginationParams) :=
  omap (fun ev =>
    match ev with
    | Ev (messageRepo (MessageRepository_GetByConversationID id p)) _ => Some (id, p)
    | _ => None
    end) t.

(** The calls of the message and attachment repositories. *)
Definition is_message_or_attachment_call (ev : Event) : bool :=
  match ev with
  | Ev (messageRepo _) _ | Ev (attachmentRepo _) _ => true
  | _ => false
  end.

(** The events handed to [EventPublisher.PublishMessageEvent], each with
    the error the publisher answered. *)
Definition publishes (t : list Event) : list (MessageEvent * option error) :=
  omap (fun ev =>
    match ev with
    | Ev c x =>
        match c in Call X return X -> option (MessageEvent * option error) with
        | eventPublisher e =>
            match e in EventPublisherE X return X -> option (MessageEvent * option error) with
            | EventPublisher_PublishMessageEvent event => fun r => Some (event, r)
            end
        | _ => fun _ => None
        end x
    end) t.

(** The answers to [AttachmentRepository.GetByMessageID], in call order. *)
Definition attachment_loads (t : list Event)
    : list (string * result (list Attachment)) :=
  omap (fun ev =>
    match ev with
    | Ev c x =>
        match c in Call X return X -> option (string * result (list Attachment)) with
        | attachmentRepo e =>
            match e in AttachmentRepositoryE X
                  return X -> option (string * result (list Attachment)) with
            | AttachmentRepository_GetByMessageID id => fun r => Some (id, r)
            | _ => fun _ => None
            end
        | _ => fun _ => None
        end x
    end) t.

(** The lines the service logged through [logger.Error]. *)
Definition logged_errors (t : list Event) : list (string * error) :=
  omap (fun ev =>
    match ev with
    | Ev (runtime (logger_Error msg err)) _ => Some (msg, err)
    | _ => None
    end) t.

(** [type MessagingService interface]: the operations of the domain
    service, indexed by what they return, and their dispatch on
    [*messagingService]. *)
Inductive MessagingService : Type -> Type :=
| MessagingService_CreateConversation (userID : string) (channel : Channel)
    : MessagingService (result Conversation)
| MessagingService_GetConversation (id userID : string)
    : MessagingService (result Conversation)
| MessagingService_GetConversations (userID : string) (filters : ConversationFilters)
    : MessagingService (result (list Conversation))
| MessagingService_UpdateConversationStatus (id : string)
    (status : ConversationStatus) (userID : string)
    : MessagingService (option error)
| MessagingService_SendMessage (req : SendMessageRequest)
    : MessagingService (result Message)
| MessagingService_GetMessages (conversationID userID : string)
    (pagination : PaginationParams)
    : MessagingService (result (list Message))
| MessagingService_GetMessage (messageID userID : string)
    : MessagingService (result Message)
| MessagingService_CreateAttachment (messageID : string) (req : CreateAttachmentRequest)
    : MessagingService (result Attachment)
| MessagingService_GetAttachment (attachmentID userID : string)
    : MessagingService (result Attachment).

Definition dispatch (s : messagingService) {R : Type} (op : MessagingService R) : Prog R :=
  match op in MessagingService R return Prog R with
  | MessagingService_CreateConversation u c => CreateConversation s u c
  | MessagingService_GetConversation id u => GetConversation s id u
  | MessagingService_GetConversations u f => GetConversations s u f
  | MessagingService_UpdateConversationStatus id st u => UpdateConversationStatus s id st u
  | MessagingService_SendMessage req => SendMessage s req
  | MessagingService_GetMessages id u p => GetMessages s id u p
  | MessagingService_GetMessage id u => GetMessage s id u
  | MessagingService_CreateAttachment id req => CreateAttachment s id req
  | MessagingService_GetAttachment id u => GetAttachment s id u
  end.

(** ** [internal/handlers]: the HTTP handlers *)

(** What a handler reads from its [*gin.Context]: the request (headers are
    read by the JWT manager only), the [:id] path parameter, and the JSON
    body as decoded into [services.SendMessageRequest], fields absent from
    the body being left at their zero value. *)
Record Context : Type := {
  Authorization : string;
  Param_id : string;
  Body : result SendMessageRequest
}.

Record Claims : Type := { Claims_UserID : string }.

(** [*auth.JWTManager]: the two methods the handlers call.  The package
    [internal/auth] is not part of these sources, so the manager is a
    parameter of the handlers; [ExtractTokenFromHeader] is given what it
    reads of the request, the [Authorization] header. *)
Record JWTManager : Type := {
  ExtractTokenFromHeader : string -> result string;
  ValidateToken : string -> result Claims
}.

Record MessagingHandler : Type := {
  handler_messagingService : messagingService;
  handler_jwtManager : JWTManager
}.

Inductive ResponseData : Type :=
| data_nil
| data_Conversation (c : Conversation)
| data_Message (m : Message).

(** [domain.APIResponse] *)
Record APIResponse : Type := {
  Code : string;
  Message_ : string;
  Data : ResponseData
}.

(** What [c.JSON(statusCode, response)] sends. *)
Record Response : Type := {
  statusCode : Z;
  json : APIResponse
}.

Definition StatusOK : Z := 200.
Definition StatusCreated : Z := 201.
Definition StatusBadRequest : Z := 400.
Definition StatusUnauthorized : Z := 401.
Definition StatusNotFound : Z := 404.
Definition StatusInternalServerError : Z := 500.

Definition respondWithError (statusCode : Z) (code message : string) : Response :=
  {| statusCode := statusCode;
     json := {| Code := code; Message_ := message; Data := data_nil |} |}.

Definition respondWithSuccess (statusCode : Z) (message : string)
    (data : ResponseData) : Response :=
  {| statusCode := statusCode;
     json := {| Code := "SUCCESS"; Message_ := message; Data := data |} |}.

Definition getUserIDFromContext (h : MessagingHandler) (c : Context) : string :=
  match ExtractTokenFromHeader (handler_jwtManager h) (Authorization c) with
  | Err _ => ""
  | Ok token =>
      match ValidateToken (handler_jwtManager h) token with
      | Err _ => ""
      | Ok claims => Claims_UserID claims
      end
  end.

(** The fields of [SendMessageRequest] tagged [binding:"required"], under
    their Go names. *)
Definition SendMessageRequest_required (req : SendMessageRequest)
    : list (string * string) :=
  [("ConversationID", SendMessageRequest.ConversationID req);
   ("SenderType", SendMessageRequest.SenderType req);
   ("SenderID", SendMessageRequest.SenderID req);
   ("Content", SendMessageRequest.Content req);
   ("ContentType", SendMessageRequest.ContentType req)].

(** The text of the validator's error for one missing field. *)
Definition required_error (field : string) : string :=
  "Key: 'SendMessageRequest." +:+ field +:+ "' Error:Field validation for '"
  +:+ field +:+ "' failed on the 'required' tag".

(** [c.ShouldBindJSON(&req)]: decoding, then the [required] validation,
    which rejects a field left at its zero value. *)
Definition ShouldBindJSON (c : Context) : result SendMessageRequest :=
  match Body c with
  | Err err => Err err
  | Ok req =>
      match List.filter (fun f => bool_decide (f.2 = "")) (SendMessageRequest_required req) with
      | [] => Ok req
      | missing =>
          Err (String.concat (String "010"%char EmptyString) ((fun f => required_error f.1) <$> missing))
      end
  end.

Definition MessagingHandler_GetConversation (h : MessagingHandler) (c : Context)
    : Prog Response :=
  let userID := getUserIDFromContext h c in
  if decide (userID = "") then
    mret (respondWithError StatusUnauthorized "UNAUTHORIZED" "Invalid token")
  else
    let conversationID := Param_id c in
    if decide (conversationID = "") then
      mret (respondWithError StatusBadRequest "INVALID_REQUEST" "Conversation ID is required")
    else
      r ← GetConversation (handler_messagingService h) conversationID userID;
      match r with
      | Err err =>
          _ ← call (runtime (logger_Error "Failed to get conversation" err));
          mret (respondWithError StatusNotFound "NOT_FOUND" "Conversation not found")
      | Ok conversation =>
          mret (respondWithSuccess StatusOK "Conversation retrieved successfully"
                  (data_Conversation conversation))
      end.

Definition MessagingHandler_SendMessage (h : MessagingHandler) (c : Context)
    : Prog Response :=
  let userID := getUserIDFromContext h c in
  if decide (userID = "") then
    mret (respondWithError StatusUnauthorized "UNAUTHORIZED" "Invalid token")
  else
    let conversationID := Param_id c in
    if decide (conversationID = "") then
      mret (respondWithError StatusBadRequest "INVALID_REQUEST" "Conversation ID is required")
    else
      match ShouldBindJSON c with
      | Err err => mret (respondWithError StatusBadRequest "INVALID_REQUEST" err)
      | Ok req =>
          (* Set conversation ID and sender ID from context *)
          let req :=
            SendMessageRequest.mk conversationID
              (SendMessageRequest.SenderType req) userID
              (SendMessageRequest.Content req)
              (SendMessageRequest.ContentType req)
              (SendMessageRequest.Metadata req) in
          r ← SendMessage (handler_messagingService h) req;
          match r with
          | Err err =>
              _ ← call (runtime (logger_Error "Failed to send message" err));
              mret (respondWithError StatusInternalServerError "INTERNAL_ERROR"
                      "Failed to send message")
          | Ok message =>
              mret (respondWithSuccess StatusCreated "Message sent successfully"
                      (data_Message message))
          end
      end.

(** ** What the collaborators hold, as the service can see it *)

(** The record [CacheService.GetConversation] gives for [id] when the
    service consults it: a usable hit is a non-nil record with a nil error;
    any error, or a nil record, counts as a miss. *)
Definition cache_hit {C : Type} (s : messagingService)
    (cacheImpl : Impl CacheServiceE C) (c : C) (id : string) : option Conversation :=
  if has_cacheService s then
    match (cacheImpl _ (CacheService_GetConversation id) c).1 with
    | (Some cached, None) => Some cached
    | _ => None
    end
  else None.

(** The answer of [ConversationRepository.GetByID] for [id]. *)
Definition store_read {S : Type} (repos : Repositories S) (d : S) (id : string)
    : result Conversation :=
  (conversationRepo_impl repos _ (ConversationRepository_GetByID id) d).1.

(** The rows of the three tables. *)
Definition tables (d : Database)
    : list conversations.row * list messages.row * list attachments.row :=
  (conversations_rows d, messages_rows d, attachments_rows d).


(** The store holds a conversation [id] that belongs to [userID]. *)
Definition owner_in_store (d : Database) (id userID : string) : Prop :=
  exists r, select_conversation d id = Some r /\ conversations.user_id r = userID.

(** The cache is a subset of the store's truth about identity and
    ownership: a record served for [id] carries that id, and the store
    holds that conversation for the same user. *)
Definition cache_agrees {C P : Type} (s : messagingService)
    (cacheImpl : Impl CacheServiceE C) (w : World Database C P) : Prop :=
  forall id c,
    cache_hit s cacheImpl (cache w) id = Some c ->
    Conversation.ID c = id /\ owner_in_store (db w) id (Conversation.UserID c).

(** What the loop of [GetMessages] makes of one message, given the answer
    to the query for its attachments. *)
Definition with_loaded (m : Message) (load : string * result (list Attachment))
    : Message :=
  match load.2 with
  | Ok attachments => Message.set_Attachments m attachments
  | Err _ => m
  end.

(** ** The cache as a subset of the store's truth *)

(** Every conversation record kept in Redis sits under the key of its own
    id and belongs, in the store, to the user it names. *)
Definition cache_sound {P : Type} (w : World Database Redis P) : Prop :=
  forall id entry c,
    redis_keys (cache w) !! conversation_key id = Some entry ->
    data entry = doc_Conversation c ->
    Conversation.ID c = id /\ owner_in_store (db w) id (Conversation.UserID c).

(** The two calls through which a conversation record leaves the service
    (to the store by [Update], to the cache by [SetConversation]) carry a
    record whose owner is the one the store knows. *)
Definition respects_ownership {P X : Type} (w : World Database Redis P)
    (c : Call X) : Prop :=
  match c with
  | conversationRepo (ConversationRepository_Update conv)
  | cacheService (CacheService_SetConversation conv) =>
      owner_in_store (db w) (Conversation.ID conv) (Conversation.UserID conv)
  | _ => True
  end.

(** Every call of a run respects ownership in the state it is made in. *)
Fixpoint ownership_respected {P R : Type} (h : Handler (World Database Redis P))
    (p : Prog R) (w : World Database Redis P) : Prop :=
  match p with
  | Ret _ => True
  | Vis c k =>
      respects_ownership w c /\ ownership_respected h (k (h _ c w).1) (h _ c w).2
  end.

(** Two outcomes that differ in the state of the cache at most. *)
Definition same_but_cache {R S C P : Type} (o o' : Outcome R (World S C P)) : Prop :=
  returned o = returned o' /\ db (final o) = db (final o')
  /\ pubsub (final o) = pubsub (final o') /\ rt (final o) = rt (final o').

(** * The rest of the code around the service

    The repository methods the service does not call, the constraints of
    the schema as a property of the tables, the remaining HTTP handlers,
    the configuration and the wiring of [main], and the file service. *)

From stdpp Require Import pretty.

Local Open Scope string_scope.
Local Open Scope Z_scope.

(** ** [internal/repositories]: the methods the service does not call *)

(** [DELETE FROM conversations WHERE id = $1].  The foreign keys of
    [messages] and of [attachments] are declared [ON DELETE CASCADE], so the
    messages of the conversation go with it, and their attachments. *)
Definition postgresConversationRepository_Delete (id : string) (d : Database)
    : option error * Database :=
  match db_fault d with
  | Some err => (Some (Errorf_w "failed to delete conversation" err), db_read d)
  | None =>
      match select_conversation d id with
      | None => (Some "conversation not found", db_read d)
      | Some _ =>
          let cascaded :=
            messages.id <$>
              List.filter (fun m => bool_decide (messages.conversation_id m = id))
                (messages_rows d) in
          (None,
           db_after d
             (List.filter (fun r => negb (bool_decide (conversations.id r = id)))
                (conversations_rows d))
             (List.filter (fun m => negb (bool_decide (messages.conversation_id m = id)))
                (messages_rows d))
             (List.filter (fun a => negb (bool_decide (attachments.message_id a ∈ cascaded)))
                (attachments_rows d)))
      end
  end.

(** [UPDATE messages SET conversation_id, sender_type, sender_id, content,
    content_type, metadata, timestamp WHERE id].  With no row of that id
    nothing is checked and no row is affected; otherwise the new row has to
    pass the CHECK constraints and then the foreign key. *)
Definition postgresMessageRepository_Update (message : Message) (d : Database)
    : option error * Database :=
  match db_fault d with
  | Some err => (Some (Errorf_w "failed to update message" err), db_read d)
  | None =>
      match select_message d (Message.ID message) with
      | None => (Some "message not found", db_read d)
      | Some _ =>
          if sender_type_check (Message.SenderType message)
             && content_type_check (Message.ContentType message)
          then
            match select_conversation d (Message.ConversationID message) with
            | None =>
                (Some (Errorf_w "failed to update message" pq_foreign_key_violation),
                 db_read d)
            | Some _ =>
                let update (r : messages.row) : messages.row :=
                  if bool_decide (messages.id r = Message.ID message)
                  then messages.mk (messages.id r) (Message.ConversationID message)
                         (Message.SenderType message) (Message.SenderID message)
                         (Message.Content message) (Message.ContentType message)
                         (Message.Metadata message) (Message.Timestamp message)
                  else r in
                (None,
                 db_after d (conversations_rows d) (update <$> messages_rows d)
                   (attachments_rows d))
            end
          else (Some (Errorf_w "failed to update message" pq_check_violation), db_read d)
      end
  end.

(** [DELETE FROM messages WHERE id = $1], cascading to the attachments. *)
Definition postgresMessageRepository_Delete (id : string) (d : Database)
    : option error * Database :=
  match db_fault d with
  | Some err => (Some (Errorf_w "failed to delete message" err), db_read d)
  | None =>
      match select_message d id with
      | None => (Some "message not found", db_read d)
      | Some _ =>
          (None,
           db_after d (conversations_rows d)
             (List.filter (fun m => negb (bool_decide (messages.id m = id)))
                (messages_rows d))
             (List.filter (fun a => negb (bool_decide (attachments.message_id a = id)))
                (attachments_rows d)))
      end
  end.

(** [DELETE FROM attachments WHERE id = $1]. *)
Definition postgresAttachmentRepository_Delete (id : string) (d : Database)
    : option error * Database :=
  match db_fault d with
  | Some err => (Some (Errorf_w "failed to delete attachment" err), db_read d)
  | None =>
      match select_attachment d id with
      | None => (Some "attachment not found", db_read d)
      | Some _ =>
          (None,
           db_after d (conversations_rows d) (messages_rows d)
             (List.filter (fun a => negb (bool_decide (attachments.id a = id)))
                (attachments_rows d)))
      end
  end.

(** The statements the repositories can send, those of the three
    interfaces above and the four the service never issues. *)
Inductive Statement : Type :=
| through_conversationRepo {X : Type} (e : ConversationRepositoryE X)
| through_messageRepo {X : Type} (e : MessageRepositoryE X)
| through_attachmentRepo {X : Type} (e : AttachmentRepositoryE X)
| ConversationRepository_Delete (id : string)
| MessageRepository_Update (message : Message)
| MessageRepository_Delete (id : string)
| AttachmentRepository_Delete (id : string).

(** The connection after a statement went through the PostgreSQL
    repositories. *)
Definition execute (st : Statement) (d : Database) : Database :=
  match st with
  | through_conversationRepo e => (postgresConversationRepository _ e d).2
  | through_messageRepo e => (postgresMessageRepository _ e d).2
  | through_attachmentRepo e => (postgresAttachmentRepository _ e d).2
  | ConversationRepository_Delete id => (postgresConversationRepository_Delete id d).2
  | MessageRepository_Update m => (postgresMessageRepository_Update m d).2
  | MessageRepository_Delete id => (postgresMessageRepository_Delete id d).2
  | AttachmentRepository_Delete id => (postgresAttachmentRepository_Delete id d).2
  end.

(** ** The constraints of the schema, as a property of the tables

    Primary keys are unique, the values of the enumerated columns pass
    their CHECK, and every message and attachment has its parent row. *)
Record db_consistent (d : Database) : Prop := {
  conversations_pkey : NoDup (conversations.id <$> conversations_rows d);
  messages_pkey : NoDup (messages.id <$> messages_rows d);
  attachments_pkey : NoDup (attachments.id <$> attachments_rows d);
  conversations_checks :
    Forall (fun r => channel_check (conversations.channel r) = true
                     /\ status_check (conversations.status r) = true)
      (conversations_rows d);
  messages_checks :
    Forall (fun m => sender_type_check (messages.sender_type m) = true
                     /\ content_type_check (messages.content_type m) = true)
      (messages_rows d);
  attachments_checks :
    Forall (fun a => attachment_type_check (attachments.type_ a) = true)
      (attachments_rows d);
  messages_conversation_id_fkey :
    Forall (fun m => messages.conversation_id m ∈ conversations.id <$> conversations_rows d)
      (messages_rows d);
  attachments_message_id_fkey :
    Forall (fun a => attachments.message_id a ∈ messages.id <$> messages_rows d)
      (attachments_rows d)
}.

(** An operation of the service ended in an error. *)
Definition failed {R : Type} (op : MessagingService R) (r : R) : Prop :=
  match op in MessagingService R return R -> Prop with
  | MessagingService_UpdateConversationStatus _ _ _ => fun r => r <> None
  | MessagingService_CreateConversation _ _
  | MessagingService_GetConversation _ _ => fun r => ~ is_Ok r
  | MessagingService_GetConversations _ _ => fun r => ~ is_Ok r
  | MessagingService_SendMessage _ => fun r => ~ is_Ok r
  | MessagingService_GetMessages _ _ _ => fun r => ~ is_Ok r
  | MessagingService_GetMessage _ _ => fun r => ~ is_Ok r
  | MessagingService_CreateAttachment _ _
  | MessagingService_GetAttachment _ _ => fun r => ~ is_Ok r
  end r.

(** The calls that reach a repository. *)
Definition is_repository_call (ev : Event) : bool :=
  match ev with
  | Ev (conversationRepo _) _ | Ev (messageRepo _) _ | Ev (attachmentRepo _) _ => true
  | _ => false
  end.

(** The calls that reach the cache. *)
Definition is_cache_call (ev : Event) : bool :=
  match ev with
  | Ev (cacheService _) _ => true
  | _ => false
  end.


(** ** [strconv] *)

Definition digit (a : ascii) : option Z :=
  let n := Z.of_nat (nat_of_ascii a) in
  if decide (48 <= n <= 57) then Some (n - 48) else None.

Fixpoint digits (s : string) (acc : Z) : option Z :=
  match s with
  | EmptyString => Some acc
  | String a rest =>
      match digit a with
      | Some v => digits rest (10 * acc + v)
      | None => None
      end
  end.

(** [strconv.ParseInt(s, 10, 64)]: an optional sign, then decimal digits,
    at least one, the value within [int64].  Only the value is kept; the
    callers test the error against nil and drop it. *)
Definition strconv_ParseInt (s : string) : option Z :=
  let signed : bool * string :=
    match s with
    | String "-" rest => (true, rest)
    | String "+" rest => (false, rest)
    | _ => (false, s)
    end in
  match signed.2 with
  | EmptyString => None
  | _ =>
      match digits signed.2 0 with
      | None => None
      | Some n =>
          let v := if signed.1 then - n else n in
          if decide (- 2 ^ 63 <= v < 2 ^ 63) then Some v else None
      end
  end.

(** [strconv.Atoi], on a platform whose [int] has 64 bits. *)
Definition strconv_Atoi (s : string) : option Z := strconv_ParseInt s.

(** [strconv.ParseBool] *)
Definition strconv_ParseBool (s : string) : option bool :=
  if bool_decide (s ∈ ["1"; "t"; "T"; "TRUE"; "true"; "True"]) then Some true
  else if bool_decide (s ∈ ["0"; "f"; "F"; "FALSE"; "false"; "False"]) then Some false
  else None.

(** ** [internal/config] *)

Module DatabaseConfig.
Record DatabaseConfig : Type := mk {
  Host : string;
  Port : string;
  User : string;
  Password : string;
  Name : string;
  SSLMode : string
}.
End DatabaseConfig.

Module RedisConfig.
Record RedisConfig : Type := mk {
  Host : string;
  Port : string;
  Password : string;
  DB : Z;
  Enabled : bool
}.
End RedisConfig.

Module JWTConfig.
Record JWTConfig : Type := mk {
  SecretKey : string;
  Issuer : string;
  ExpiryHours : Z
}.
End JWTConfig.

Module FileStorageConfig.
Record FileStorageConfig : Type := mk {
  Provider : string;
  BucketName : string;
  LocalPath : string;
  MaxFileSize : Z
}.
End FileStorageConfig.
Abbreviation FileStorageConfig := FileStorageConfig.FileStorageConfig.

Module EventsConfig.
Record EventsConfig : Type := mk {
  Provider : string;
  Topic : string;
  WebhookURL : string
}.
End EventsConfig.

Module VaultConfig.
Record VaultConfig : Type := mk {
  Address : string;
  Token : string;
  Path : string
}.
End VaultConfig.

Module ExternalAPIConfig.
Record ExternalAPIConfig : Type := mk {
  BaseURL : string;
  APIKey : string;
  Timeout : Z
}.
End ExternalAPIConfig.

Module Config.
Record Config : Type := mk {
  Environment : string;
  Port : string;
  LogLevel : string;
  VaultConfig : VaultConfig.VaultConfig;
  Database : DatabaseConfig.DatabaseConfig;
  ExternalAPI : ExternalAPIConfig.ExternalAPIConfig;
  Redis : RedisConfig.RedisConfig;
  JWT : JWTConfig.JWTConfig;
  FileStorage : FileStorageConfig;
  Events : EventsConfig.EventsConfig
}.
End Config.
Abbreviation Config := Config.Config.

(** The environment of the process, after [godotenv.Load] has added the
    variables of the [.env] file: [os.Getenv], which gives the empty string
    for a variable that is not set. *)
Definition Environ := string -> string.

Definition getEnv (env : Environ) (key defaultValue : string) : string :=
  if decide (env key <> "") then env key else defaultValue.

Definition getEnvAsInt (env : Environ) (key : string) (defaultValue : Z) : Z :=
  if decide (env key <> "") then
    match strconv_Atoi (env key) with
    | Some intValue => intValue
    | None => defaultValue
    end
  else defaultValue.

Definition getEnvAsInt64 (env : Environ) (key : string) (defaultValue : Z) : Z :=
  if decide (env key <> "") then
    match strconv_ParseInt (env key) with
    | Some intValue => intValue
    | None => defaultValue
    end
  else defaultValue.

Definition getEnvAsBool (env : Environ) (key : string) (defaultValue : bool) : bool :=
  if decide (env key <> "") then
    match strconv_ParseBool (env key) with
    | Some boolValue => boolValue
    | None => defaultValue
    end
  else defaultValue.

Definition Load (env : Environ) : Config :=
  Config.mk
    (getEnv env "ENVIRONMENT" "development")
    (getEnv env "PORT" "8080")
    (getEnv env "LOG_LEVEL" "info")
    (VaultConfig.mk
       (getEnv env "VAULT_ADDR" "http://localhost:8200")
       (getEnv env "VAULT_TOKEN" "")
       (getEnv env "VAULT_PATH" "secret/microservice"))
    (DatabaseConfig.mk
       (getEnv env "DB_HOST" "localhost")
       (getEnv env "DB_PORT" "5432")
       (getEnv env "DB_USER" "postgres")
       (getEnv env "DB_PASSWORD" "")
       (getEnv env "DB_NAME" "messaging_service")
       (getEnv env "DB_SSL_MODE" "disable"))
    (ExternalAPIConfig.mk
       (getEnv env "EXTERNAL_API_URL" "https://api.example.com")
       (getEnv env "EXTERNAL_API_KEY" "")
       (getEnvAsInt env "EXTERNAL_API_TIMEOUT" 30))
    (RedisConfig.mk
       (getEnv env "REDIS_HOST" "localhost")
       (getEnv env "REDIS_PORT" "6379")
       (getEnv env "REDIS_PASSWORD" "")
       (getEnvAsInt env "REDIS_DB" 0)
       (getEnvAsBool env "REDIS_ENABLED" true))
    (JWTConfig.mk
       (getEnv env "JWT_SECRET" "your-secret-key")
       (getEnv env "JWT_ISSUER" "messaging-service")
       (getEnvAsInt env "JWT_EXPIRY_HOURS" 24))
    (FileStorageConfig.mk
       (getEnv env "FILE_STORAGE_PROVIDER" "local")
       (getEnv env "FILE_STORAGE_BUCKET" "messaging-attachments")
       (getEnv env "FILE_STORAGE_LOCAL_PATH" "./uploads")
       (getEnvAsInt64 env "FILE_STORAGE_MAX_SIZE" (10 * 1024 * 1024)))
    (EventsConfig.mk
       (getEnv env "EVENTS_PROVIDER" "redis")
       (getEnv env "EVENTS_TOPIC" "message.events")
       (getEnv env "EVENTS_WEBHOOK_URL" "")).

(** ** [main]: which collaborators the service is built over *)

(** What [main] finds when it starts: whether [initDatabase] could open and
    ping the database, and whether the ping of [initRedis] went through. *)
Record Startup : Type := {
  database_reachable : bool;
  redis_reachable : bool
}.

(** [db != nil] *)
Definition main_db (cfg : Config) (up : Startup) : bool :=
  if decide (DatabaseConfig.Host (Config.Database cfg) <> ""
             /\ DatabaseConfig.Password (Config.Database cfg) <> "")
  then database_reachable up
  else false.

(** [redisClient != nil] *)
Definition main_redisClient (cfg : Config) (up : Startup) : bool :=
  if RedisConfig.Enabled (Config.Redis cfg) then redis_reachable up else false.

Definition main_repositories (cfg : Config) (up : Startup) : Repositories Database :=
  if main_db cfg up then postgres else noOpRepositories.

Definition main_cacheService (cfg : Config) (up : Startup) : Impl CacheServiceE Redis :=
  if main_redisClient cfg up then redisCacheService else noOpCacheService.

Definition main_eventPublisher (cfg : Config) (up : Startup)
    : Impl EventPublisherE PubSub :=
  if main_redisClient cfg up
     && bool_decide (EventsConfig.Provider (Config.Events cfg) = "redis")
  then redisEventPublisher (EventsConfig.Topic (Config.Events cfg))
  else noOpEventPublisher.

(** [NewMessagingService] is always given a cache and a publisher, no-op
    ones when Redis is not used, so neither field is nil. *)
Definition main_messagingService : messagingService :=
  {| has_cacheService := true; has_eventPublisher := true |}.

Definition main_collaborators (cfg : Config) (up : Startup)
    : Handler (World Database Redis PubSub) :=
  collaborators (main_repositories cfg up) (main_cacheService cfg up)
    (main_eventPublisher cfg up).

(** ** [internal/handlers]: the other routes *)

Module CreateConversationRequest.
Record CreateConversationRequest : Type := mk {
  Channel : Channel
}.
End CreateConversationRequest.
Abbreviation CreateConversationRequest :=
  CreateConversationRequest.CreateConversationRequest.

Module UpdateConversationRequest.
Record UpdateConversationRequest : Type := mk {
  Status : ConversationStatus
}.
End UpdateConversationRequest.
Abbreviation UpdateConversationRequest :=
  UpdateConversationRequest.UpdateConversationRequest.

Module UploadResponse.
Record UploadResponse : Type := mk {
  URL : string;
  Filename : string;
  Size : Z;
  Type_ : AttachmentType
}.
End UploadResponse.
Abbreviation UploadResponse := UploadResponse.UploadResponse.

(** [*multipart.FileHeader], the two fields the upload handler reads. *)
Module FileHeader.
Record FileHeader : Type := mk {
  Filename : string;
  Size : Z
}.
End FileHeader.
Abbreviation FileHeader := FileHeader.FileHeader.

(** The bytes an [io.Reader] has to give. *)
Definition Reader := string.

(** What the other handlers read from their [*gin.Context], next to the
    header and the path parameter: the query string ([c.Query] gives the
    empty string for an absent key), the JSON body as decoded into the
    request type of the route, and the multipart file of the form. *)
Record Request : Type := {
  context : Context;
  Query : string -> string;
  Body_CreateConversationRequest : result CreateConversationRequest;
  Body_UpdateConversationRequest : result UpdateConversationRequest;
  FormFile : result (Reader * FileHeader)
}.

(** [c.JSON(statusCode, domain.APIResponse{Code, Message, Data})] where
    [Data] is nil or a value of the one type the route answers with. *)
Module typed.
Record Response (D : Type) : Type := mk {
  statusCode : Z;
  Code : string;
  Message : string;
  Data : option D
}.
Arguments mk {D}.
Arguments statusCode {D}.
Arguments Code {D}.
Arguments Message {D}.
Arguments Data {D}.

Definition respondWithError {D : Type} (statusCode : Z) (code message : string)
    : Response D :=
  mk statusCode code message None.

Definition respondWithSuccess {D : Type} (statusCode : Z) (message : string)
    (data : option D) : Response D :=
  mk statusCode "SUCCESS" message data.
End typed.

Definition parseIntQuery (r : Request) (key : string) (defaultValue : Z) : Z :=
  if decide (Query r key <> "") then
    match strconv_Atoi (Query r key) with
    | Some intValue => intValue
    | None => defaultValue
    end
  else defaultValue.

(** The validator's error for the one required field of a request type. *)
Definition required_error_in (type field : string) : string :=
  "Key: '" +:+ type +:+ "." +:+ field +:+ "' Error:Field validation for '"
  +:+ field +:+ "' failed on the 'required' tag".

(** [c.ShouldBindJSON(&req)] for [CreateConversationRequest]. *)
Definition ShouldBindJSON_CreateConversationRequest (r : Request)
    : result CreateConversationRequest :=
  match Body_CreateConversationRequest r with
  | Err err => Err err
  | Ok req =>
      if decide (CreateConversationRequest.Channel req = "")
      then Err (required_error_in "CreateConversationRequest" "Channel")
      else Ok req
  end.

(** [c.ShouldBindJSON(&req)] for [UpdateConversationRequest]. *)
Definition ShouldBindJSON_UpdateConversationRequest (r : Request)
    : result UpdateConversationRequest :=
  match Body_UpdateConversationRequest r with
  | Err err => Err err
  | Ok req =>
      if decide (UpdateConversationRequest.Status req = "")
      then Err (required_error_in "UpdateConversationRequest" "Status")
      else Ok req
  end.

Definition MessagingHandler_GetConversations (h : MessagingHandler) (r : Request)
    : Prog (typed.Response (list Conversation)) :=
  let userID := getUserIDFromContext h (context r) in
  if decide (userID = "") then
    mret (typed.respondWithError StatusUnauthorized "UNAUTHORIZED" "Invalid token")
  else
    (* Parse filters *)
    let filters :=
      ConversationFilters.mk (Query r "channel") (Query r "status")
        (parseIntQuery r "limit" 20) (parseIntQuery r "offset" 0) in
    x ← GetConversations (handler_messagingService h) userID filters;
    match x with
    | Err err =>
        _ ← call (runtime (logger_Error "Failed to get conversations" err));
        mret (typed.respondWithError StatusInternalServerError "INTERNAL_ERROR"
                "Failed to get conversations")
    | Ok conversations =>
        mret (typed.respondWithSuccess StatusOK "Conversations retrieved successfully"
                (Some conversations))
    end.

Definition MessagingHandler_CreateConversation (h : MessagingHandler) (r : Request)
    : Prog (typed.Response Conversation) :=
  let userID := getUserIDFromContext h (context r) in
  if decide (userID = "") then
    mret (typed.respondWithError StatusUnauthorized "UNAUTHORIZED" "Invalid token")
  else
    match ShouldBindJSON_CreateConversationRequest r with
    | Err err => mret (typed.respondWithError StatusBadRequest "INVALID_REQUEST" err)
    | Ok req =>
        x ← CreateConversation (handler_messagingService h) userID
              (CreateConversationRequest.Channel req);
        match x with
        | Err err =>
            _ ← call (runtime (logger_Error "Failed to create conversation" err));
            mret (typed.respondWithError StatusInternalServerError "INTERNAL_ERROR"
                    "Failed to create conversation")
        | Ok conversation =>
            mret (typed.respondWithSuccess StatusCreated "Conversation created successfully"
                    (Some conversation))
        end
    end.

Definition MessagingHandler_UpdateConversation (h : MessagingHandler) (r : Request)
    : Prog (typed.Response unit) :=
  let userID := getUserIDFromContext h (context r) in
  if decide (userID = "") then
    mret (typed.respondWithError StatusUnauthorized "UNAUTHORIZED" "Invalid token")
  else
    let conversationID := Param_id (context r) in
    if decide (conversationID = "") then
      mret (typed.respondWithError StatusBadRequest "INVALID_REQUEST"
              "Conversation ID is required")
    else
      match ShouldBindJSON_UpdateConversationRequest r with
      | Err err => mret (typed.respondWithError StatusBadRequest "INVALID_REQUEST" err)
      | Ok req =>
          e ← UpdateConversationStatus (handler_messagingService h) conversationID
                (UpdateConversationRequest.Status req) userID;
          match e with
          | Some err =>
              _ ← call (runtime (logger_Error "Failed to update conversation" err));
              mret (typed.respondWithError StatusInternalServerError "INTERNAL_ERROR"
                      "Failed to update conversation")
          | None =>
              mret (typed.respondWithSuccess StatusOK "Conversation updated successfully"
                      None)
          end
      end.

Definition MessagingHandler_GetMessages (h : MessagingHandler) (r : Request)
    : Prog (typed.Response (list Message)) :=
  let userID := getUserIDFromContext h (context r) in
  if decide (userID = "") then
    mret (typed.respondWithError StatusUnauthorized "UNAUTHORIZED" "Invalid token")
  else
    let conversationID := Param_id (context r) in
    if decide (conversationID = "") then
      mret (typed.respondWithError StatusBadRequest "INVALID_REQUEST"
              "Conversation ID is required")
    else
      let pagination :=
        PaginationParams.mk (parseIntQuery r "limit" 50) (parseIntQuery r "offset" 0)
          "timestamp" "DESC" in
      x ← GetMessages (handler_messagingService h) conversationID userID pagination;
      match x with
      | Err err =>
          _ ← call (runtime (logger_Error "Failed to get messages" err));
          mret (typed.respondWithError StatusInternalServerError "INTERNAL_ERROR"
                  "Failed to get messages")
      | Ok messages =>
          mret (typed.respondWithSuccess StatusOK "Messages retrieved successfully"
                  (Some messages))
      end.

Definition MessagingHandler_GetMessage (h : MessagingHandler) (r : Request)
    : Prog (typed.Response Message) :=
  let userID := getUserIDFromContext h (context r) in
  if decide (userID = "") then
    mret (typed.respondWithError StatusUnauthorized "UNAUTHORIZED" "Invalid token")
  else
    let messageID := Param_id (context r) in
    if decide (messageID = "") then
      mret (typed.respondWithError StatusBadRequest "INVALID_REQUEST"
              "Message ID is required")
    else
      x ← GetMessage (handler_messagingService h) messageID userID;
      match x with
      | Err err =>
          _ ← call (runtime (logger_Error "Failed to get message" err));
          mret (typed.respondWithError StatusNotFound "NOT_FOUND" "Message not found")
      | Ok message =>
          mret (typed.respondWithSuccess StatusOK "Message retrieved successfully"
                  (Some message))
      end.

Definition MessagingHandler_GetAttachment (h : MessagingHandler) (r : Request)
    : Prog (typed.Response Attachment) :=
  let userID := getUserIDFromContext h (context r) in
  if decide (userID = "") then
    mret (typed.respondWithError StatusUnauthorized "UNAUTHORIZED" "Invalid token")
  else
    let attachmentID := Param_id (context r) in
    if decide (attachmentID = "") then
      mret (typed.respondWithError StatusBadRequest "INVALID_REQUEST"
              "Attachment ID is required")
    else
      x ← GetAttachment (handler_messagingService h) attachmentID userID;
      match x with
      | Err err =>
          _ ← call (runtime (logger_Error "Failed to get attachment" err));
          mret (typed.respondWithError StatusNotFound "NOT_FOUND" "Attachment not found")
      | Ok attachment =>
          mret (typed.respondWithSuccess StatusOK "Attachment retrieved successfully"
                  (Some attachment))
      end.

(** The routes of the messaging handler that reach the domain service,
    each with the type of what it answers with. *)
Inductive Route : Type -> Type :=
| GET_conversations : Route (list Conversation)
| POST_conversations : Route Conversation
| PATCH_conversation : Route unit
| GET_conversation_messages : Route (list Message)
| GET_message : Route Message
| GET_attachment : Route Attachment.

Definition serve (h : MessagingHandler) {D : Type} (route : Route D) (r : Request)
    : Prog (typed.Response D) :=
  match route in Route D return Prog (typed.Response D) with
  | GET_conversations => MessagingHandler_GetConversations h r
  | POST_conversations => MessagingHandler_CreateConversation h r
  | PATCH_conversation => MessagingHandler_UpdateConversation h r
  | GET_conversation_messages => MessagingHandler_GetMessages h r
  | GET_message => MessagingHandler_GetMessage h r
  | GET_attachment => MessagingHandler_GetAttachment h r
  end.

(** ** [internal/services]: the file service *)

Module UploadFileRequest.
Record UploadFileRequest : Type := mk {
  File : Reader;
  Filename : string;
  Size : Z;
  UserID : string
}.
End UploadFileRequest.
Abbreviation UploadFileRequest := UploadFileRequest.UploadFileRequest.

Module UploadFileResponse.
Record UploadFileResponse : Type := mk {
  URL : string;
  Filename : string;
  Size : Z;
  Type_ : AttachmentType
}.
End UploadFileResponse.
Abbreviation UploadFileResponse := UploadFileResponse.UploadFileResponse.

Module FileInfo.
Record FileInfo : Type := mk {
  URL : string;
  Filename : string;
  Size : Z;
  Type_ : AttachmentType;
  Exists : bool
}.
End FileInfo.
Abbreviation FileInfo := FileInfo.FileInfo.

(** An error of package [os], with what [os.IsNotExist] says of it. *)
Record PathError : Type := {
  PathError_Error : error;
  IsNotExist : bool
}.

(** The open files the code closes: the one [os.Create] gave, and the
    multipart file of the request. *)
Inductive FileHandle : Type :=
| os_File (name : string)
| multipart_File.

(** The calls of the file service into [os] and [io]. *)
Inductive OSE : Type -> Type :=
| os_MkdirAll (path : string) (perm : Z) : OSE (option error)
| os_Create (name : string) : OSE (option error)
| io_Copy (dst : string) (src : Reader) : OSE (Z * option error)
| os_Remove (name : string) : OSE (option PathError)
| os_Stat (name : string) : OSE (Z + PathError)
| File_Close (f : FileHandle) : OSE (option error).

Inductive FileCall : Type -> Type :=
| os {X} (e : OSE X) : FileCall X
| process {X} (e : RuntimeE X) : FileCall X.

(** Programs over the file system and the process, as [Prog] is over the
    collaborators of the messaging service. *)
Inductive FileProg (R : Type) : Type :=
| FileRet (r : R)
| FileVis {X : Type} (c : FileCall X) (k : X -> FileProg R).
Arguments FileRet {R} r.
Arguments FileVis {R X} c k.

Fixpoint FileProg_bind_ {A B : Type} (p : FileProg A) (f : A -> FileProg B)
    : FileProg B :=
  match p with
  | FileRet a => f a
  | FileVis c k => FileVis c (fun x => FileProg_bind_ (k x) f)
  end.

Definition file_call {X : Type} (c : FileCall X) : FileProg X := FileVis c FileRet.

#[global] Instance FileProg_ret : MRet FileProg := @FileRet.
#[global] Instance FileProg_bind : MBind FileProg := fun A B f p => FileProg_bind_ p f.

Inductive FileEvent : Type :=
| FileEv {X : Type} (c : FileCall X) (x : X).

Record FileOutcome (R W : Type) : Type := mkFileOutcome {
  file_returned : R;
  file_final : W;
  file_trace : list FileEvent
}.
Arguments mkFileOutcome {R W}.
Arguments file_returned {R W}.
Arguments file_final {R W}.
Arguments file_trace {R W}.

Definition file_observe {R W : Type} (ev : FileEvent) (o : FileOutcome R W)
    : FileOutcome R W :=
  mkFileOutcome (file_returned o) (file_final o) (ev :: file_trace o).
Arguments file_observe : simpl never.

Fixpoint file_run {W R : Type} (h : forall X : Type, FileCall X -> W -> X * W)
    (p : FileProg R) (w : W) : FileOutcome R W :=
  match p with
  | FileRet r => mkFileOutcome r w []
  | FileVis c k =>
      let xw := h _ c w in
      file_observe (FileEv c xw.1) (file_run h (k xw.1) xw.2)
  end.

(** The functions of the Go library the file service computes paths and
    types with: [filepath.Join] of two elements, [filepath.Base],
    [strings.ToLower], [mime.TypeByExtension] (which reads the tables of the
    machine) and [Time.Format]. *)
Record Platform : Type := {
  filepath_Join : string -> string -> string;
  filepath_Base : string -> string;
  strings_ToLower : string -> string;
  mime_TypeByExtension : string -> string;
  Time_Format : Time -> string -> string
}.

(** The suffix from the last dot of the last element of the path on, when
    that element has a dot; what the scan of [filepath.Ext] stops at. *)
Fixpoint last_dot_or_separator (path : string) : option string :=
  match path with
  | EmptyString => None
  | String a rest =>
      match last_dot_or_separator rest with
      | Some ext => Some ext
      | None =>
          if decide (a = "."%char) then Some path
          else if decide (a = "/"%char) then Some ""
          else None
      end
  end.

(** [filepath.Ext] *)
Definition filepath_Ext (path : string) : string :=
  default "" (last_dot_or_separator path).

(** [strings.HasPrefix] *)
Definition strings_HasPrefix (s prefix : string) : bool := String.prefix prefix s.

(** [strings.TrimPrefix] *)
Definition strings_TrimPrefix (s prefix : string) : string :=
  if strings_HasPrefix s prefix
  then String.substring (String.length prefix)
         (String.length s - String.length prefix) s
  else s.

Record localFileService : Type := {
  localFileService_config : FileStorageConfig;
  localFileService_platform : Platform
}.

Definition determineFileType (s : localFileService) (filename : string)
    : AttachmentType :=
  let ext := strings_ToLower (localFileService_platform s) (filepath_Ext filename) in
  let mimeType := mime_TypeByExtension (localFileService_platform s) ext in
  if strings_HasPrefix mimeType "image/" then AttachmentTypeImage
  else if strings_HasPrefix mimeType "video/" then AttachmentTypeVideo
  else if strings_HasPrefix mimeType "audio/" then AttachmentTypeAudio
  else AttachmentTypeFile.

Definition localFileService_UploadFile (s : localFileService) (req : UploadFileRequest)
    : FileProg (result UploadFileResponse) :=
  let config := localFileService_config s in
  let platform := localFileService_platform s in
  (* Validate file size *)
  if decide (UploadFileRequest.Size req > FileStorageConfig.MaxFileSize config) then
    mret (Err ("file size exceeds maximum allowed size of "
               +:+ pretty (FileStorageConfig.MaxFileSize config) +:+ " bytes"))
  else
    (* Generate unique filename *)
    let ext := filepath_Ext (UploadFileRequest.Filename req) in
    id ← file_call (process uuid_New);
    now ← file_call (process time_Now);
    let uniqueFilename :=
      id +:+ "_" +:+ Time_Format platform now "20060102_150405" +:+ ext in
    (* Create user directory *)
    let userDir :=
      filepath_Join platform (FileStorageConfig.LocalPath config)
        (UploadFileRequest.UserID req) in
    e ← file_call (os (os_MkdirAll userDir 493));
    match e with
    | Some err =>
        _ ← file_call (process (logger_Error "Failed to create user directory" err));
        mret (Err (Errorf_w "failed to create upload directory" err))
    | None =>
        (* Full file path *)
        let filePath := filepath_Join platform userDir uniqueFilename in
        (* Create and write file *)
        e ← file_call (os (os_Create filePath));
        match e with
        | Some err =>
            _ ← file_call (process (logger_Error "Failed to create file" err));
            mret (Err (Errorf_w "failed to create file" err))
        | None =>
            (* Copy file content *)
            copied ← file_call (os (io_Copy filePath (UploadFileRequest.File req)));
            match copied.2 with
            | Some err =>
                _ ← file_call (process (logger_Error "Failed to write file content" err));
                (* Clean up partial file *)
                _ ← file_call (os (os_Remove filePath));
                _ ← file_call (os (File_Close (os_File filePath)));
                mret (Err (Errorf_w "failed to write file" err))
            | None =>
                let written := copied.1 in
                (* Determine file type *)
                let fileType := determineFileType s (UploadFileRequest.Filename req) in
                (* Generate URL (relative path for local storage) *)
                let url :=
                  "/uploads/" +:+ UploadFileRequest.UserID req +:+ "/"
                  +:+ uniqueFilename in
                let response :=
                  UploadFileResponse.mk url (UploadFileRequest.Filename req)
                    written fileType in
                _ ← file_call (process (logger_Info "File uploaded successfully"));
                _ ← file_call (os (File_Close (os_File filePath)));
                mret (Ok response)
            end
        end
    end.

Definition localFileService_DeleteFile (s : localFileService) (url : string)
    : FileProg (option error) :=
  (* Convert URL to file path *)
  let filePath :=
    filepath_Join (localFileService_platform s)
      (FileStorageConfig.LocalPath (localFileService_config s))
      (strings_TrimPrefix url "/uploads/") in
  e ← file_call (os (os_Remove filePath));
  match e with
  | Some err =>
      if IsNotExist err then mret (Some "file not found")
      else
        _ ← file_call (process (logger_Error "Failed to delete file" (PathError_Error err)));
        mret (Some (Errorf_w "failed to delete file" (PathError_Error err)))
  | None =>
      _ ← file_call (process (logger_Info "File deleted successfully"));
      mret None
  end.

Definition localFileService_GetFileInfo (s : localFileService) (url : string)
    : FileProg (result FileInfo) :=
  (* Convert URL to file path *)
  let filePath :=
    filepath_Join (localFileService_platform s)
      (FileStorageConfig.LocalPath (localFileService_config s))
      (strings_TrimPrefix url "/uploads/") in
  stat ← file_call (os (os_Stat filePath));
  match stat with
  | inr err =>
      if IsNotExist err then mret (Ok (FileInfo.mk url "" 0 "" false))
      else mret (Err (Errorf_w "failed to get file info" (PathError_Error err)))
  | inl size =>
      (* Extract filename from path *)
      let filename := filepath_Base (localFileService_platform s) filePath in
      (* Determine file type *)
      let fileType := determineFileType s filename in
      mret (Ok (FileInfo.mk url filename size fileType true))
  end.

(** [type FileService interface] *)
Record FileService : Type := {
  UploadFile : UploadFileRequest -> FileProg (result UploadFileResponse);
  DeleteFile : string -> FileProg (option error);
  GetFileInfo : string -> FileProg (result FileInfo)
}.

Definition NewLocalFileService (config : FileStorageConfig) (platform : Platform)
    : FileService :=
  let s := {| localFileService_config := config;
              localFileService_platform := platform |} in
  {| UploadFile := localFileService_UploadFile s;
     DeleteFile := localFileService_DeleteFile s;
     GetFileInfo := localFileService_GetFileInfo s |}.

Definition NewNoOpFileService : FileService :=
  {| UploadFile := fun _ => mret (Err "file storage is disabled");
     DeleteFile := fun _ => mret (Some "file storage is disabled");
     GetFileInfo := fun _ => mret (Err "file storage is disabled") |}.

Definition MessagingHandler_UploadAttachment (h : MessagingHandler)
    (fileService : FileService) (r : Request)
    : FileProg (typed.Response UploadResponse) :=
  let userID := getUserIDFromContext h (context r) in
  if decide (userID = "") then
    mret (typed.respondWithError StatusUnauthorized "UNAUTHORIZED" "Invalid token")
  else
    match FormFile r with
    | Err _ =>
        mret (typed.respondWithError StatusBadRequest "INVALID_REQUEST" "File is required")
    | Ok (file, header) =>
        let uploadReq :=
          UploadFileRequest.mk file (FileHeader.Filename header)
            (FileHeader.Size header) userID in
        x ← UploadFile fileService uploadReq;
        match x with
        | Err err =>
            _ ← file_call (process (logger_Error "Failed to upload file" err));
            _ ← file_call (os (File_Close multipart_File));
            mret (typed.respondWithError StatusInternalServerError "INTERNAL_ERROR"
                    "Failed to upload file")
        | Ok result =>
            let response :=
              UploadResponse.mk (UploadFileResponse.URL result)
                (UploadFileResponse.Filename result)
                (UploadFileResponse.Size result)
                (UploadFileResponse.Type_ result) in
            _ ← file_call (os (File_Close multipart_File));
            mret (typed.respondWithSuccess StatusOK "File uploaded successfully"
                    (Some response))
        end
    end.

(** *** A local disk to run the file service on *)

(** The files by path with their content, and for the n-th call whether
    it fails for a reason of the machine (permissions, full disk, ...). *)
Record Disk : Type := {
  disk_files : gmap string string;
  disk_faults : nat -> option error;
  disk_calls : nat
}.

Definition disk_after (d : Disk) (files : gmap string string) : Disk :=
  {| disk_files := files; disk_faults := disk_faults d;
     disk_calls := S (disk_calls d) |}.

Definition no_such_file : PathError :=
  {| PathError_Error := "no such file or directory"; IsNotExist := true |}.

Definition localDisk : forall X : Type, OSE X -> Disk -> X * Disk :=
  fun X e =>
    match e in OSE X return Disk -> X * Disk with
    | os_MkdirAll _ _ => fun d =>
        (disk_faults d (disk_calls d), disk_after d (disk_files d))
    | os_Create name => fun d =>
        match disk_faults d (disk_calls d) with
        | Some err => (Some err, disk_after d (disk_files d))
        | None => (None, disk_after d (<[name := ""]> (disk_files d)))
        end
    | io_Copy dst src => fun d =>
        match disk_faults d (disk_calls d) with
        | Some err => ((0, Some err), disk_after d (disk_files d))
        | None =>
            ((Z.of_nat (String.length src), None),
             disk_after d (<[dst := src]> (disk_files d)))
        end
    | os_Remove name => fun d =>
        match disk_faults d (disk_calls d) with
        | Some err =>
            (Some {| PathError_Error := err; IsNotExist := false |},
             disk_after d (disk_files d))
        | None =>
            match disk_files d !! name with
            | None => (Some no_such_file, disk_after d (disk_files d))
            | Some _ => (None, disk_after d (delete name (disk_files d)))
            end
        end
    | os_Stat name => fun d =>
        match disk_faults d (disk_calls d) with
        | Some err =>
            (inr {| PathError_Error := err; IsNotExist := false |},
             disk_after d (disk_files d))
        | None =>
            match disk_files d !! name with
            | None => (inr no_such_file, disk_after d (disk_files d))
            | Some content =>
                (inl (Z.of_nat (String.length content)), disk_after d (disk_files d))
            end
        end
    | File_Close _ => fun d => (None, disk_after d (disk_files d))
    end.

(** The machine the file service runs on: its disk and the process. *)
Definition machine : forall X : Type, FileCall X -> Disk * Runtime -> X * (Disk * Runtime) :=
  fun X c =>
    match c in FileCall X return Disk * Runtime -> X * (Disk * Runtime) with
    | os e => fun w => let xs := localDisk _ e w.1 in (xs.1, (xs.2, w.2))
    | process e => fun w => let xs := runtime_impl _ e w.2 in (xs.1, (w.1, xs.2))
    end.

(** The calls into [os] and [io] of a run, without those of the process. *)
Definition os_calls (t : list FileEvent) : list FileEvent :=
  List.filter (fun ev => match ev with FileEv (os _) _ => true | _ => false end) t.

(** The paths handed to [os.Remove]. *)
Definition removals (t : list FileEvent) : list string :=
  omap (fun ev =>
    match ev with
    | FileEv (os (os_Remove name)) _ => Some name
    | _ => None
    end) t.

(** The answers of [io.Copy], each with the path written to. *)
Definition copies (t : list FileEvent) : list (string * (Z * option error)) :=
  omap (fun ev =>
    match ev with
    | FileEv c x =>
        match c in FileCall X return X -> option (string * (Z * option error)) with
        | os e =>
            match e in OSE X return X -> option (string * (Z * option error)) with
            | io_Copy dst _ => fun r => Some (dst, r)
            | _ => fun _ => None
            end
        | _ => fun _ => None
        end x
    end) t.

(** ** What the Redis cache holds, by id *)

(** The conversation a client that can reach the server is given for
    [id]: the document under the key of [id], when it is a conversation. *)
Definition cached_conversation (r : Redis) (id : string) : option Conversation :=
  match redis_keys r !! conversation_key id with
  | Some {| data := doc_Conversation c |} => Some c
  | _ => None
  end.

(** The page of messages held for [conversationID]. *)
Definition cached_messages (r : Redis) (conversationID : string)
    : option (list Message) :=
  match redis_keys r !! messages_key conversationID with
  | Some {| data := doc_Messages l |} => Some l
  | _ => None
  end.

(** What one call of the cache does to the conversation held for [id],
    when the command reaches the server. *)
Definition conversation_after {X : Type} (e : CacheServiceE X) (id : string)
    (before : option Conversation) : option Conversation :=
  match e with
  | CacheService_SetConversation c =>
      if decide (id = Conversation.ID c) then Some c else before
  | CacheService_DeleteConversation id' =>
      if decide (id = id') then None else before
  | _ => before
  end.

(** The same for the page of messages held for [conversationID]. *)
Definition messages_after {X : Type} (e : CacheServiceE X) (conversationID : string)
    (before : option (list Message)) : option (list Message) :=
  match e with
  | CacheService_SetMessages id l =>
      if decide (conversationID = id) then Some l else before
  | CacheService_DeleteMessages id =>
      if decide (conversationID = id) then None else before
  | _ => before
  end.

(** The time to live of the document a call writes. *)
Definition written_expiration {X : Type} (e : CacheServiceE X)
    : option (string * Duration) :=
  match e with
  | CacheService_SetConversation c =>
      Some (conversation_key (Conversation.ID c), 30 * Minute)
  | CacheService_SetMessages id _ => Some (messages_key id, 10 * Minute)
  | _ => None
  end.

(** The one operation that is a read of a single conversation. *)
Definition is_GetConversation {R : Type} (op : MessagingService R) : bool :=
  match op with
  | MessagingService_GetConversation _ _ => true
  | _ => false
  end.

(** ** A deployment to run the service on

    The rows are the sample data of the schema script, with one
    attachment added; the cache and the event sink are Redis-backed. *)

Module Sample.
Definition conversation1_id : string := "550e8400-e29b-41d4-a716-446655440001".
Definition conversation3_id : string := "550e8400-e29b-41d4-a716-446655440003".
Definition absent_id : string := "550e8400-e29b-41d4-a716-446655440009".
Definition message1_id : string := "660e8400-e29b-41d4-a716-446655440001".
Definition message2_id : string := "660e8400-e29b-41d4-a716-446655440002".
Definition attachment1_id : string := "770e8400-e29b-41d4-a716-446655440001".

Definition conversation1 : conversations.row :=
  conversations.mk conversation1_id "user123" "web" "active" 1700000000 1700000000.
Definition conversation3 : conversations.row :=
  conversations.mk conversation3_id "user456" "web" "closed" 1700000000 1700000000.

Definition message1 : messages.row :=
  messages.mk message1_id conversation1_id "user" "user123"
    "Hello, I need help with my account" "text" ∅ 1700000100.
Definition message2 : messages.row :=
  messages.mk message2_id conversation1_id "bot" "bot001"
    "Hi! What specific issue are you experiencing?" "text" ∅ 1700000200.

Definition attachment1 : attachments.row :=
  attachments.mk attachment1_id message2_id "/uploads/bot001/guide.png"
    "image" 2048 "guide.png" 1700000210.

Definition database : Database := {|
  conversations_rows := [conversation1; conversation3];
  messages_rows := [message1; message2];
  attachments_rows := [attachment1];
  db_faults := fun _ => None;
  db_now := fun n => 1700001000 + Z.of_nat n;
  db_statements := 0
|}.


Definition redis_empty : Redis := {|
  redis_keys := ∅;
  redis_faults := fun _ => None;
  redis_commands := 0
|}.

(** A cache that holds conversation 1 as the store has it, on a client
    whose second command cannot reach the server. *)
Definition redis_failing_second : Redis := {|
  redis_keys :=
    {[ conversation_key conversation1_id :=
         {| data := doc_Conversation (scan_conversation conversation1);
            expiration := redisCacheService_expiration |} ]};
  redis_faults := fun k => if decide (k = 1%nat) then Some "dial tcp: connection refused" else None;
  redis_commands := 0
|}.

(** A Redis server that cannot be reached at all. *)
Definition redis_down : Redis := {|
  redis_keys := ∅;
  redis_faults := fun _ => Some "dial tcp: connection refused";
  redis_commands := 0
|}.

Definition pubsub_up : PubSub := {|
  published := [];
  pubsub_faults := fun _ => None;
  pubsub_commands := 0
|}.

Definition pubsub_down : PubSub := {|
  published := [];
  pubsub_faults := fun _ => Some "dial tcp: connection refused";
  pubsub_commands := 0
|}.

Definition process : Runtime := {|
  uuids := fun n =>
    match n with
    | O => "880e8400-e29b-41d4-a716-446655440001"
    | _ => "880e8400-e29b-41d4-a716-446655440002"
    end;
  uuid_calls := 0;
  clock := fun n => 1700002000 + Z.of_nat n;
  clock_calls := 0;
  log := []
|}.

Definition world : World Database Redis PubSub :=
  mkWorld database redis_empty pubsub_up process.

Definition service : messagingService :=
  {| has_cacheService := true; has_eventPublisher := true |}.

Definition deployment : Handler (World Database Redis PubSub) :=
  collaborators postgres redisCacheService (redisEventPublisher "messaging.events").

(** A toy JWT manager: the bearer token is the user id itself. *)
Definition jwt : JWTManager := {|
  ExtractTokenFromHeader := fun header =>
    if String.prefix "Bearer " header
    then Ok (String.substring 7 (String.length header - 7) header)
    else Err "authorization header required";
  ValidateToken := fun token =>
    if decide (token = "") then Err "invalid token"
    else Ok {| Claims_UserID := token |}
|}.

Definition http : MessagingHandler :=
  {| handler_messagingService := service; handler_jwtManager := jwt |}.

Definition hello (conversation_id sender_id : string) : SendMessageRequest :=
  SendMessageRequest.mk conversation_id "user" sender_id "hello" "text" ∅.

(** The requests and the degraded deployments the examples use. *)

Definition get_as_user456 : Context :=
  {| Authorization := "Bearer user456";
     Param_id := conversation1_id;
     Body := Err "EOF" |}.

Definition hello_as_user456 : SendMessageRequest :=
  hello conversation1_id "user456".

Definition world_flaky_cache : World Database Redis PubSub :=
  mkWorld database redis_failing_second pubsub_up process.

Definition world_events_down : World Database Redis PubSub :=
  mkWorld database redis_empty pubsub_down process.

Definition hello_as_user123 : SendMessageRequest :=
  hello conversation1_id "user123".

Definition hello_message : Message :=
  Message.mk "880e8400-e29b-41d4-a716-446655440001" conversation1_id
    "user" "user123" "hello" "text" ∅ 1700002000 [].

Definition world_cache_down : World Database Redis PubSub :=
  mkWorld database redis_down pubsub_up process.


Definition first_page : PaginationParams :=
  PaginationParams.mk 50 0 "timestamp" "DESC".

Definition page : list Message :=
  [Message.set_Attachments (scan_message message2)
     [scan_attachment attachment1];
   scan_message message1].

Definition send (sender_in_body : string) : Context :=
  {| Authorization := "Bearer user123";
     Param_id := conversation1_id;
     Body := Ok (hello conversation3_id sender_in_body) |}.
End Sample.

(** ** Further cases to run the code on *)

Module Cases.
(** A machine whose paths are joined with a slash, whose MIME table
    knows a few extensions, and whose clock is formatted to a fixed text. *)
Definition platform : Platform := {|
  filepath_Join := fun a b => a +:+ "/" +:+ b;
  filepath_Base := fun path => path;
  strings_ToLower := fun s => s;
  mime_TypeByExtension := fun ext =>
    if decide (ext = ".png") then "image/png"
    else if decide (ext = ".mp4") then "video/mp4"
    else if decide (ext = ".mp3") then "audio/mpeg"
    else if decide (ext = ".pdf") then "application/pdf"
    else "";
  Time_Format := fun _ _ => "20231114_221320"
|}.

Definition storage : FileStorageConfig :=
  FileStorageConfig.mk "local" "messaging-attachments" "./uploads" (10 * 1024 * 1024).

Definition files : localFileService :=
  {| localFileService_config := storage; localFileService_platform := platform |}.

Definition disk : Disk := {|
  disk_files := ∅;
  disk_faults := fun _ => None;
  disk_calls := 0
|}.




End Cases.

(** * Properties *)

(** ** Running programs *)

Lemma run_bind {W A B : Type} (h : Handler W) (p : Prog A) (f : A -> Prog B) (w : W) :
  run h (p ≫= f) w =
  let o1 := run h p w in
  let o2 := run h (f (returned o1)) (final o1) in
  mkOutcome (returned o2) (final o2) (trace o1 ++ trace o2)%list.
Proof.
  unfold mbind, Prog_bind.
  revert w. induction p as [a | X c k IH]; intros w.
  - simpl. destruct (run h (f a) w); reflexivity.
  - simpl. rewrite IH. reflexivity.
Qed.

(** The operations that other operations call are unfolded on demand only. *)
Arguments GetConversation : simpl never.
Arguments GetMessage : simpl never.

(** Case analysis on everything a collaborator may answer along a run. *)
Ltac answers :=
  repeat (simpl;
    match goal with
    | |- context [decide ?P] => destruct (decide P)
    | |- context [match ?x with _ => _ end] => is_var x; destruct x
    | |- context [(?f ?X ?e ?st).1] => destruct (f X e st) as [? ?] eqn:?
    | |- context [(?f ?X ?e ?st).2] => destruct (f X e st) as [? ?] eqn:?
    end); simpl.

Lemma trace_bind {W A B : Type} (h : Handler W) (p : Prog A) (f : A -> Prog B) (w : W) :
  trace (run h (p ≫= f) w) =
  (trace (run h p w) ++ trace (run h (f (returned (run h p w))) (final (run h p w))))%list.
Proof. rewrite run_bind. reflexivity. Qed.

Lemma returned_bind {W A B : Type} (h : Handler W) (p : Prog A) (f : A -> Prog B) (w : W) :
  returned (run h (p ≫= f) w) =
  returned (run h (f (returned (run h p w))) (final (run h p w))).
Proof. rewrite run_bind. reflexivity. Qed.

Lemma final_bind {W A B : Type} (h : Handler W) (p : Prog A) (f : A -> Prog B) (w : W) :
  final (run h (p ≫= f) w) =
  final (run h (f (returned (run h p w))) (final (run h p w))).
Proof. rewrite run_bind. reflexivity. Qed.

(** ** Calls made by the service, whatever the collaborators answer *)

Lemma attachment_loads_load (id : string) (r : result (list Attachment)) (t : list Event) :
  attachment_loads (Ev (attachmentRepo (AttachmentRepository_GetByMessageID id)) r :: t) =
  (id, r) :: attachment_loads t.
Proof. reflexivity. Qed.

Lemma attachment_loads_runtime {X : Type} (e : RuntimeE X) (x : X) (t : list Event) :
  attachment_loads (Ev (runtime e) x :: t) = attachment_loads t.
Proof. reflexivity. Qed.

Section AnyHandler.
Context {W : Type}.
Variable h : Handler W.

(** [GetConversation] calls the cache ([GetConversation], then possibly
    [SetConversation]) and the conversation repository, nothing else. *)
Lemma GetConversation_calls (s : messagingService) (id userID : string) (w : W) :
  let t := trace (run h (GetConversation s id userID) w) in
  message_writes t = [] /\ publishes t = [] /\
  message_page_cache_calls t = [] /\ cache_deletes t = [] /\
  filter is_message_or_attachment_call t = [] /\
  attachment_loads t = [] /\ logged_errors t = [] /\ message_page_reads t = [].
Proof.
  unfold GetConversation.
  destruct (has_cacheService s); answers; unfold observe; simpl; auto 12.
Qed.

Lemma loadAttachments_no_page_cache (messages : list Message) (w : W) :
  message_page_cache_calls (trace (run h (loadAttachments messages) w)) = [].
Proof.
  revert w. induction messages as [|m rest IH]; intros w; [reflexivity|].
  cbn [loadAttachments]. rewrite trace_bind. simpl.
  destruct (h _ (attachmentRepo (AttachmentRepository_GetByMessageID (Message.ID m))) w)
    as [[atts|err] w1]; simpl; unfold observe; simpl;
    rewrite trace_bind; simpl; rewrite app_nil_r; apply IH.
Qed.

Lemma GetMessage_no_page_cache (s : messagingService) (messageID userID : string) (w : W) :
  message_page_cache_calls (trace (run h (GetMessage s messageID userID) w)) = [].
Proof.
  unfold GetMessage. simpl.
  destruct (h _ (messageRepo (MessageRepository_GetByID messageID)) w) as [[m|err] w1];
    simpl; [|reflexivity].
  unfold observe; simpl. rewrite trace_bind.
  unfold message_page_cache_calls at 1. rewrite omap_app.
  fold (message_page_cache_calls (trace (run h (GetConversation s (Message.ConversationID m) userID) w1))).
  destruct (GetConversation_calls s (Message.ConversationID m) userID w1)
    as (_ & _ & -> & _).
  destruct (returned (run h (GetConversation s (Message.ConversationID m) userID) w1));
    answers; unfold observe; reflexivity.
Qed.

(** No operation of the service ever calls [GetMessages], [SetMessages]
    or [DeleteMessages] of the cache. *)
Lemma dispatch_no_page_cache (s : messagingService) {R : Type}
    (op : MessagingService R) (w : W) :
  message_page_cache_calls (trace (run h (dispatch s op) w)) = [].
Proof.
  destruct op as [u c|id u|u f|id st u|req|id u p|id u|id req|id u]; cbn [dispatch].
  - unfold CreateConversation. answers; unfold observe; reflexivity.
  - apply GetConversation_calls.
  - unfold GetConversations. answers; unfold observe; reflexivity.
  - unfold UpdateConversationStatus. rewrite trace_bind.
    unfold message_page_cache_calls at 1. rewrite omap_app.
    destruct (GetConversation_calls s id u w) as (_ & _ & Hq & _).
    unfold message_page_cache_calls in Hq. rewrite Hq. clear Hq.
    destruct (returned (run h (GetConversation s id u) w));
      destruct (has_cacheService s); answers; unfold observe; reflexivity.
  - unfold SendMessage. rewrite trace_bind.
    unfold message_page_cache_calls at 1. rewrite omap_app.
    destruct (GetConversation_calls s (SendMessageRequest.ConversationID req)
                (SendMessageRequest.SenderID req) w) as (_ & _ & Hq & _).
    unfold message_page_cache_calls in Hq. rewrite Hq. clear Hq.
    destruct (returned (run h (GetConversation s _ _) w));
      destruct (has_eventPublisher s); answers; unfold observe; reflexivity.
  - unfold GetMessages. rewrite trace_bind.
    unfold message_page_cache_calls at 1. rewrite omap_app.
    destruct (GetConversation_calls s id u w) as (_ & _ & Hq & _).
    unfold message_page_cache_calls in Hq. rewrite Hq. clear Hq.
    destruct (returned (run h (GetConversation s id u) w)); [|reflexivity].
    simpl.
    destruct (h _ (messageRepo (MessageRepository_GetByConversationID id p)) _)
      as [[ms|err] w1]; simpl; unfold observe; simpl; [|reflexivity].
    rewrite trace_bind. simpl. rewrite app_nil_r.
    apply loadAttachments_no_page_cache.
  - apply GetMessage_no_page_cache.
  - unfold CreateAttachment. answers; unfold observe; reflexivity.
  - unfold GetAttachment. cbn.
    destruct (h _ (attachmentRepo (AttachmentRepository_GetByID id)) w) as [[a|err] w1];
      cbn; unfold observe; cbn; [|reflexivity].
    rewrite trace_bind.
    pose proof (GetMessage_no_page_cache s (Attachment.MessageID a) u w1) as Hq.
    unfold message_page_cache_calls in *. rewrite omap_app, Hq.
    destruct (returned (run h (GetMessage s (Attachment.MessageID a) u) w1)); reflexivity.
Qed.

(** The loop asks for the attachments of each message once, in order,
    and gives back each message with what the query answered. *)
Lemma loadAttachments_spec (messages : list Message) (w : W) :
  let o := run h (loadAttachments messages) w in
  (attachment_loads (trace o)).*1 = Message.ID <$> messages /\
  returned o = zip_with with_loaded messages (attachment_loads (trace o)).
Proof.
  revert w. induction messages as [|m rest IH]; intros w; [by cbn|].
  cbn [loadAttachments]. rewrite run_bind. cbn -[attachment_loads].
  destruct (h _ (attachmentRepo (AttachmentRepository_GetByMessageID (Message.ID m))) w)
    as [[atts|err] w1]; cbn -[attachment_loads]; unfold observe; cbn -[attachment_loads];
    rewrite run_bind; cbn -[attachment_loads]; rewrite app_nil_r;
    match goal with |- context [run h (loadAttachments rest) ?w'] =>
      destruct (IH w') as [IH1 IH2];
      set (loop := run h (loadAttachments rest) w') in *
    end;
    cbn zeta in IH1, IH2.
  - rewrite attachment_loads_load. cbn -[attachment_loads]. by rewrite IH1, <- IH2.
  - unfold observe. cbn -[attachment_loads].
    rewrite attachment_loads_load, attachment_loads_runtime.
    cbn -[attachment_loads]. by rewrite IH1, <- IH2.
Qed.

Lemma loadAttachments_no_page_reads (messages : list Message) (w : W) :
  message_page_reads (trace (run h (loadAttachments messages) w)) = [].
Proof.
  revert w. induction messages as [|m rest IH]; intros w; [reflexivity|].
  cbn [loadAttachments]. rewrite trace_bind. simpl.
  destruct (h _ (attachmentRepo (AttachmentRepository_GetByMessageID (Message.ID m))) w)
    as [[atts|err] w1]; simpl; unfold observe; simpl;
    rewrite trace_bind; simpl; rewrite app_nil_r; apply IH.
Qed.

(** A page that [GetMessages] returns was read from the store, by one
    query. *)
Lemma GetMessages_reads_store (s : messagingService) (conversationID userID : string)
    (pagination : PaginationParams) (w : W) (page : list Message) :
  returned (run h (GetMessages s conversationID userID pagination) w) = Ok page ->
  message_page_reads (trace (run h (GetMessages s conversationID userID pagination) w)) =
    [(conversationID, pagination)].
Proof.
  unfold GetMessages. rewrite run_bind. cbn [returned trace final].
  destruct (GetConversation_calls s conversationID userID w)
    as (_ & _ & _ & _ & _ & _ & _ & Hreads).
  unfold message_page_reads in *. rewrite omap_app, Hreads. clear Hreads.
  destruct (returned (run h (GetConversation s conversationID userID) w));
    [|discriminate].
  cbn.
  destruct (h _ (messageRepo (MessageRepository_GetByConversationID conversationID pagination)) _)
    as [[ms|err] w1]; cbn; unfold observe; cbn; [|discriminate].
  intros _. rewrite trace_bind. cbn. rewrite app_nil_r.
  pose proof (loadAttachments_no_page_reads ms w1) as Hl.
  unfold message_page_reads in Hl. by rewrite Hl.
Qed.

(** Sending a message asks the cache for no deletion. *)
Lemma SendMessage_no_invalidation (s : messagingService) (req : SendMessageRequest)
    (w : W) :
  cache_deletes (trace (run h (SendMessage s req) w)) = [].
Proof.
  unfold SendMessage. rewrite trace_bind.
  destruct (GetConversation_calls s (SendMessageRequest.ConversationID req)
              (SendMessageRequest.SenderID req) w) as (_ & _ & _ & Hdel & _).
  unfold cache_deletes in *. rewrite omap_app, Hdel. clear Hdel.
  destruct (returned (run h (GetConversation s _ _) w));
    destruct (has_eventPublisher s); answers; unfold observe; reflexivity.
Qed.



(** C5.  Whenever [SendMessage] got a message written to the store (the
    ownership check passed and [MessageRepository.Create] answered no
    error), it returns that message, built from the request; with an
    event publisher configured it has handed it exactly one
    message.received event carrying the message and its conversation
    id; and whatever the publisher answered, an error included, the
    result is the same, the error being logged only. *)
Theorem SendMessage_publish_best_effort (s : messagingService)
    (req : SendMessageRequest) (w : W) :
  let o := run h (SendMessage s req) w in
  forall m, message_writes (trace o) = [(m, None)] ->
    returned o = Ok m
    /\ Message.ConversationID m = SendMessageRequest.ConversationID req
    /\ Message.SenderID m = SendMessageRequest.SenderID req
    /\ Message.Content m = SendMessageRequest.Content req
    /\ Message.Attachments m = []
    /\ (has_eventPublisher s = true ->
          exists now answer,
            publishes (trace o) =
              [(MessageEvent.mk "message.received" (Message.ConversationID m) m now,
                answer)]
            /\ logged_errors (trace o) =
                 match answer with
                 | Some err => [("Failed to publish message event", err)]
                 | None => []
                 end)
    /\ (has_eventPublisher s = false -> publishes (trace o) = []).
Proof.
  intros o m. subst o. unfold SendMessage. rewrite run_bind. cbn [returned trace final].
  destruct (GetConversation_calls s (SendMessageRequest.ConversationID req)
              (SendMessageRequest.SenderID req) w)
    as (Hmw & Hpub & _ & _ & _ & _ & Hlog & _).
  set (o1 := run h (GetConversation s _ _) w) in *.
  unfold message_writes, publishes, logged_errors in *.
  rewrite !omap_app, Hmw, Hpub, Hlog. cbn [app].
  destruct (returned o1) as [c|e]; [|cbn; discriminate].
  destruct (has_eventPublisher s); answers; unfold observe; cbn;
    intros; simplify_eq;
    repeat split; try done; intros _; do 2 eexists; split; reflexivity.
Qed.
End AnyHandler.

Section Generic.
Context {S C P : Type}.
Variable repos : Repositories S.
Variable cacheImpl : Impl CacheServiceE C.
Variable publisherImpl : Impl EventPublisherE P.

Local Abbreviation handler := (collaborators repos cacheImpl publisherImpl).

(** *** The read path of [GetConversation] *)

(** The event sink and the runtime are not touched, and the database is
    either left alone or asked one [GetByID]. *)
Lemma GetConversation_frame (s : messagingService) (id userID : string)
    (w : World S C P) :
  let o := run handler (GetConversation s id userID) w in
  pubsub (final o) = pubsub w /\ rt (final o) = rt w /\
  (db (final o) = db w \/
   db (final o) = (conversationRepo_impl repos _ (ConversationRepository_GetByID id) (db w)).2).
Proof.
  unfold GetConversation.
  destruct (has_cacheService s); answers; unfold observe; simpl; auto 12.
Qed.

(** The result of [GetConversation] in terms of what the cache and the
    store answer for the id. *)
Lemma GetConversation_returned (s : messagingService) (id userID : string)
    (w : World S C P) :
  returned (run handler (GetConversation s id userID) w) =
  match cache_hit s cacheImpl (cache w) id with
  | Some cached =>
      if decide (Conversation.UserID cached = userID) then Ok cached
      else
        match store_read repos (db w) id with
        | Err err => Err (Errorf_w "failed to get conversation" err)
        | Ok c =>
            if decide (Conversation.UserID c = userID) then Ok c
            else Err "conversation not found or access denied"
        end
  | None =>
      match store_read repos (db w) id with
      | Err err => Err (Errorf_w "failed to get conversation" err)
      | Ok c =>
          if decide (Conversation.UserID c = userID) then Ok c
          else Err "conversation not found or access denied"
      end
  end.
Proof.
  unfold cache_hit, store_read, GetConversation.
  destruct (has_cacheService s); answers; unfold observe; simpl; congruence.
Qed.

(** Where a returned conversation comes from. *)
Lemma GetConversation_Ok_source (s : messagingService) (id userID : string)
    (w : World S C P) (c : Conversation) :
  returned (run handler (GetConversation s id userID) w) = Ok c ->
  Conversation.UserID c = userID /\
  (cache_hit s cacheImpl (cache w) id = Some c \/ store_read repos (db w) id = Ok c).
Proof.
  rewrite GetConversation_returned.
  repeat match goal with
         | |- context [match ?x with _ => _ end] => destruct x
         end; intros; simplify_eq; auto.
Qed.


(** C2.  [GetConversation] succeeds exactly when the cache or the store
    holds, under that id, a conversation whose [UserID] is the requester;
    what it returns is that record, so its [UserID] is the requester's; a
    cached record of another owner is never returned, the store is asked
    instead; and the only record ever written to the cache is the one
    just read from the store, owned by the requester. *)
Theorem GetConversation_owner_only (s : messagingService) (id userID : string)
    (w : World S C P) :
  let o := run handler (GetConversation s id userID) w in
  let cached := cache_hit s cacheImpl (cache w) id in
  let stored := store_read repos (db w) id in
  (is_Ok (returned o) <->
     (exists c, cached = Some c /\ Conversation.UserID c = userID) \/
     (exists c, stored = Ok c /\ Conversation.UserID c = userID))
  /\ (forall c, returned o = Ok c ->
        Conversation.UserID c = userID /\ (cached = Some c \/ stored = Ok c))
  /\ (forall c, cached = Some c -> Conversation.UserID c <> userID ->
        returned o <> Ok c /\ conversation_reads (trace o) = [id] /\
        forall c', returned o = Ok c' -> stored = Ok c')
  /\ (forall c, c ∈ cache_sets (trace o) ->
        stored = Ok c /\ Conversation.UserID c = userID /\ returned o = Ok c).
Proof.
  unfold cache_hit, store_read, GetConversation.
  destruct (has_cacheService s); answers; unfold observe; simpl;
    repeat split; intros; simplify_eq; try done;
    repeat match goal with
           | Hin : _ ∈ [] |- _ => by apply elem_of_nil in Hin
           | Hin : _ ∈ [_] |- _ => apply list_elem_of_singleton in Hin; subst
           | Hex : (exists _, _) \/ (exists _, _) |- _ => destruct Hex as [(? & ? & ?)|(? & ? & ?)]
           end; simplify_eq; try done; eauto 8; try congruence.
Qed.

(** The response of the HTTP handler when the service fails: one fixed
    404, whatever the error was. *)
Lemma MessagingHandler_GetConversation_not_found (hd : MessagingHandler)
    (c : Context) (w : World S C P) (err : error) :
  getUserIDFromContext hd c <> "" -> Param_id c <> "" ->
  returned (run handler (GetConversation (handler_messagingService hd)
                           (Param_id c) (getUserIDFromContext hd c)) w) = Err err ->
  returned (run handler (MessagingHandler_GetConversation hd c) w) =
    respondWithError StatusNotFound "NOT_FOUND" "Conversation not found".
Proof.
  intros Hu Hid Herr. unfold MessagingHandler_GetConversation.
  destruct (decide (getUserIDFromContext hd c = "")); [done|].
  destruct (decide (Param_id c = "")); [done|].
  rewrite returned_bind, Herr. reflexivity.
Qed.

(** C1 (as the code has it).  [GetConversation] fails when the store has
    no conversation under the id and when it has one owned by another
    user, but with two different errors: the store's own error, wrapped,
    in the first case, and a fixed not-found-or-denied error in the
    second.  The two cases are merged by the HTTP handler only, which
    answers both with the same 404 NOT_FOUND response. *)
Theorem GetConversation_failures_merged_by_handler (hd : MessagingHandler)
    (c : Context) (w : World S C P) :
  let s := handler_messagingService hd in
  let id := Param_id c in
  let userID := getUserIDFromContext hd c in
  userID <> "" -> id <> "" ->
  (forall cached, cache_hit s cacheImpl (cache w) id = Some cached ->
                  Conversation.UserID cached <> userID) ->
  let failure := respondWithError StatusNotFound "NOT_FOUND" "Conversation not found" in
  (forall err, store_read repos (db w) id = Err err ->
     returned (run handler (GetConversation s id userID) w) =
       Err (Errorf_w "failed to get conversation" err)
     /\ returned (run handler (MessagingHandler_GetConversation hd c) w) = failure)
  /\ (forall conversation, store_read repos (db w) id = Ok conversation ->
       Conversation.UserID conversation <> userID ->
       returned (run handler (GetConversation s id userID) w) =
         Err "conversation not found or access denied"
       /\ returned (run handler (MessagingHandler_GetConversation hd c) w) = failure).
Proof.
  intros s id userID Hu Hid Hcache failure.
  assert (Hret := GetConversation_returned s id userID w).
  split.
  - intros err Hstore. rewrite Hstore in Hret.
    assert (returned (run handler (GetConversation s id userID) w) =
            Err (Errorf_w "failed to get conversation" err)) as Hfail.
    { rewrite Hret. destruct (cache_hit s cacheImpl (cache w) id) as [cached|] eqn:Hc;
        [|reflexivity].
      destruct (decide (Conversation.UserID cached = userID)); [|reflexivity].
      exfalso. eapply Hcache; eauto. }
    split; [exact Hfail|].
    eapply MessagingHandler_GetConversation_not_found; eauto.
  - intros conversation Hstore Hother. rewrite Hstore in Hret.
    assert (returned (run handler (GetConversation s id userID) w) =
            Err "conversation not found or access denied") as Hfail.
    { rewrite Hret. destruct (decide (Conversation.UserID conversation = userID)); [done|].
      destruct (cache_hit s cacheImpl (cache w) id) as [cached|] eqn:Hc; [|reflexivity].
      destruct (decide (Conversation.UserID cached = userID)); [|reflexivity].
      exfalso. eapply Hcache; eauto. }
    split; [exact Hfail|].
    eapply MessagingHandler_GetConversation_not_found; eauto.
Qed.

(** C6 (as the code has it).  When the cache gives no usable record for
    the id (a miss, or any error), [GetConversation] and
    [UpdateConversationStatus] return what they return with the no-op
    cache and leave the database, the event sink and the log in the same
    state, whatever the cache then answers to [SetConversation] and
    [DeleteConversation]. *)
Theorem cache_failure_is_a_miss (s : messagingService) (id userID : string)
    (status : ConversationStatus) (w : World S C P) :
  cache_hit s cacheImpl (cache w) id = None ->
  let without := collaborators repos (@noOpCacheService C) publisherImpl in
  same_but_cache (run handler (GetConversation s id userID) w)
                 (run without (GetConversation s id userID) w)
  /\ same_but_cache (run handler (UpdateConversationStatus s id status userID) w)
                    (run without (UpdateConversationStatus s id status userID) w).
Proof.
  unfold same_but_cache, cache_hit, UpdateConversationStatus, GetConversation.
  destruct (has_cacheService s); answers; unfold observe; cbn;
    intros; simplify_eq; auto 8.
Qed.
End Generic.

(** ** The service over the PostgreSQL repositories *)

Lemma store_read_postgres (d : Database) (id : string) (c : Conversation) :
  store_read postgres d id = Ok c ->
  exists r, select_conversation d id = Some r /\ c = scan_conversation r.
Proof.
  unfold store_read. cbn. unfold postgresConversationRepository_GetByID.
  destruct (db_fault d); [discriminate|].
  destruct (select_conversation d id) as [r|]; [|discriminate].
  cbn. intros [= <-]. eauto.
Qed.


Lemma select_conversation_id (d : Database) (id : string) (r : conversations.row) :
  select_conversation d id = Some r -> conversations.id r = id.
Proof.
  unfold select_conversation. intros Hf. apply find_some in Hf as [_ Hb].
  by apply bool_decide_eq_true in Hb.
Qed.

Lemma GetByID_tables (d : Database) (id : string) :
  tables (postgresConversationRepository_GetByID id d).2 = tables d.
Proof.
  unfold postgresConversationRepository_GetByID.
  destruct (db_fault d); [reflexivity|].
  destruct (select_conversation d id); reflexivity.
Qed.



Section Postgres.
Context {C P : Type}.
Variable cacheImpl : Impl CacheServiceE C.
Variable publisherImpl : Impl EventPublisherE P.

Local Abbreviation handler := (collaborators postgres cacheImpl publisherImpl).

(** The read path changes no table. *)
Lemma GetConversation_tables (s : messagingService) (id userID : string)
    (w : World Database C P) :
  tables (db (final (run handler (GetConversation s id userID) w))) = tables (db w).
Proof.
  destruct (GetConversation_frame postgres cacheImpl publisherImpl s id userID w)
    as (_ & _ & [-> | ->]); [reflexivity|apply GetByID_tables].
Qed.

(** With a cache that agrees with the store, the ownership check passes
    only for the owner the store knows. *)
Lemma GetConversation_store_owner (s : messagingService) (id userID : string)
    (w : World Database C P) (c : Conversation) :
  cache_agrees s cacheImpl w ->
  returned (run handler (GetConversation s id userID) w) = Ok c ->
  Conversation.ID c = id /\ Conversation.UserID c = userID /\
  owner_in_store (db w) id userID.
Proof.
  intros Hagree Hret.
  destruct (GetConversation_Ok_source postgres cacheImpl publisherImpl s id userID w c Hret)
    as [Hu [Hcache | Hstore]].
  - destruct (Hagree id c Hcache) as [Hid Hown]. rewrite Hu in Hown. auto.
  - apply store_read_postgres in Hstore as (r & Hsel & ->).
    cbn in *. split; [eapply select_conversation_id; eauto|].
    split; [done|]. exists r. auto.
Qed.

(** C3.  When the sender does not own the target conversation in the
    store, or the store has no such conversation, [SendMessage] fails
    with the error of the ownership check, hands no message to the
    message repository and no event to the publisher, and leaves the
    tables and the event sink as they were. *)
Theorem SendMessage_rejected_changes_nothing (s : messagingService)
    (req : SendMessageRequest) (w : World Database C P) :
  cache_agrees s cacheImpl w ->
  ~ owner_in_store (db w) (SendMessageRequest.ConversationID req)
      (SendMessageRequest.SenderID req) ->
  let o := run handler (SendMessage s req) w in
  (exists err, returned o = Err err /\
     (err = "conversation not found or access denied" \/
      exists cause, err = Errorf_w "failed to get conversation" cause))
  /\ message_writes (trace o) = [] /\ publishes (trace o) = []
  /\ tables (db (final o)) = tables (db w) /\ pubsub (final o) = pubsub w.
Proof.
  intros Hagree Hnot o. subst o. unfold SendMessage. rewrite run_bind.
  cbn [returned trace final].
  pose proof (GetConversation_store_owner s (SendMessageRequest.ConversationID req)
                (SendMessageRequest.SenderID req) w) as Hown.
  pose proof (GetConversation_returned postgres cacheImpl publisherImpl s
                (SendMessageRequest.ConversationID req)
                (SendMessageRequest.SenderID req) w) as Hret.
  pose proof (GetConversation_tables s (SendMessageRequest.ConversationID req)
                (SendMessageRequest.SenderID req) w) as Htab.
  destruct (GetConversation_frame postgres cacheImpl publisherImpl s
              (SendMessageRequest.ConversationID req)
              (SendMessageRequest.SenderID req) w) as (Hpub & _).
  destruct (GetConversation_calls handler s (SendMessageRequest.ConversationID req)
              (SendMessageRequest.SenderID req) w) as (Hmw & Hpb & _).
  set (o1 := run handler (GetConversation s _ _) w) in *.
  destruct (returned o1) as [c|err] eqn:Hr.
  { exfalso. apply Hnot. eapply Hown; eauto. }
  cbn. rewrite !app_nil_r. repeat split; auto.
  exists err. split; [reflexivity|].
  repeat match type of Hret with
         | _ = match ?x with _ => _ end => destruct x
         | _ = if ?x then _ else _ => destruct x
         end; simplify_eq; eauto.
Qed.



End Postgres.

(** ** Status updates over PostgreSQL and the Redis cache *)

Lemma find_fmap_preserved {A : Type} (p : A -> bool) (f : A -> A) (l : list A) :
  (forall x, p (f x) = p x) ->
  List.find p (f <$> l) = f <$> List.find p l.
Proof.
  intros Hp. induction l as [|x l IH]; [reflexivity|].
  cbn. rewrite Hp. destruct (p x); [reflexivity|exact IH].
Qed.


Section PostgresRedis.
Context {P : Type}.
Variable publisherImpl : Impl EventPublisherE P.

Local Abbreviation handler := (collaborators postgres redisCacheService publisherImpl).



(** The keys of the message pages are out of reach of every call that
    is not one of the three message-page calls of the cache. *)
Lemma messages_key_frame {R : Type} (p : Prog R) (w : World Database Redis P)
    (conversationID : string) :
  message_page_cache_calls (trace (run handler p w)) = [] ->
  redis_keys (cache (final (run handler p w))) !! messages_key conversationID =
  redis_keys (cache w) !! messages_key conversationID.
Proof.
  revert w. induction p as [r|X c k IH]; intros w; [reflexivity|].
  cbn. unfold observe. cbn [trace final].
  destruct c as [X e|X e|X e|X e|X e|X e]; cbn; try (intros Hq; by rewrite IH).
  destruct e as [id|conv|id|id|id l|id]; cbn; try discriminate; intros Hq; rewrite IH by done; cbn.
  - unfold redisCacheService_GetConversation.
    destruct (redis_fault (cache w)); [reflexivity|].
    destruct (redis_keys (cache w) !! conversation_key id) as [[[?|?] ?]|]; reflexivity.
  - unfold redisCacheService_SetConversation.
    destruct (redis_fault (cache w)); [reflexivity|]. cbn.
    by rewrite lookup_insert_ne.
  - unfold redisCacheService_DeleteConversation.
    destruct (redis_fault (cache w)); [reflexivity|]. cbn.
    by rewrite lookup_delete_ne.
Qed.
End PostgresRedis.

(** C10.  No operation of the domain service, whatever its arguments and
    whatever the collaborators answer, calls [GetMessages], [SetMessages]
    or [DeleteMessages] of the cache; sending a message asks the cache for
    no deletion at all; a page of messages that is returned was read from
    the store; and over the Redis cache no operation changes what is
    stored under a message-page key. *)
Theorem message_pages_never_cached :
  (forall (W : Type) (h : Handler W) (s : messagingService) (R : Type)
          (op : MessagingService R) (w : W),
      message_page_cache_calls (trace (run h (dispatch s op) w)) = [])
  /\ (forall (W : Type) (h : Handler W) (s : messagingService)
             (req : SendMessageRequest) (w : W),
        cache_deletes (trace (run h (SendMessage s req) w)) = [])
  /\ (forall (W : Type) (h : Handler W) (s : messagingService)
             (conversationID userID : string) (pagination : PaginationParams)
             (w : W) (page : list Message),
        returned (run h (GetMessages s conversationID userID pagination) w) = Ok page ->
        message_page_reads (trace (run h (GetMessages s conversationID userID pagination) w)) =
          [(conversationID, pagination)])
  /\ (forall (P : Type) (publisherImpl : Impl EventPublisherE P) (s : messagingService)
             (R : Type) (op : MessagingService R) (w : World Database Redis P)
             (conversationID : string),
        redis_keys (cache (final (run (collaborators postgres redisCacheService publisherImpl)
                                     (dispatch s op) w)))
          !! messages_key conversationID =
        redis_keys (cache w) !! messages_key conversationID).
Proof.
  split; [|split; [|split]].
  - intros. apply dispatch_no_page_cache.
  - intros. apply SendMessage_no_invalidation.
  - intros. eapply GetMessages_reads_store; eauto.
  - intros. apply messages_key_frame, dispatch_no_page_cache.
Qed.

(** An empty cache agrees with any store. *)
Lemma cache_agrees_empty {P : Type} (s : messagingService) (w : World Database Redis P) :
  redis_keys (cache w) = ∅ -> cache_agrees s redisCacheService w.
Proof.
  intros Hempty id c. unfold cache_hit. destruct (has_cacheService s); [|discriminate].
  cbn. unfold redisCacheService_GetConversation.
  destruct (redis_fault (cache w)); [discriminate|].
  rewrite Hempty, lookup_empty. discriminate.
Qed.

(** ** The cache stays a subset of the store's truth

    The hypothesis [cache_agrees] of the theorems above holds in every
    state the service can bring an initially sound cache to (an empty one,
    for instance): no operation makes the cache and the store disagree on
    the identity or the owner of a conversation. *)

Lemma conversation_key_inj (a b : string) :
  conversation_key a = conversation_key b -> a = b.
Proof. unfold conversation_key. apply (inj (String.app _)). Qed.

Lemma conversation_key_not_messages_key (a b : string) :
  conversation_key a <> messages_key b.
Proof. unfold conversation_key, messages_key. cbn. discriminate. Qed.

Lemma find_app_Some {A : Type} (p : A -> bool) (l1 l2 : list A) (x : A) :
  List.find p l1 = Some x -> List.find p (l1 ++ l2) = Some x.
Proof.
  induction l1 as [|y l1 IH]; [discriminate|]. cbn.
  destruct (p y); [done|exact IH].
Qed.

Lemma owner_in_store_rows (d d' : Database) (id userID : string) :
  conversations_rows d' = conversations_rows d ->
  owner_in_store d id userID -> owner_in_store d' id userID.
Proof.
  intros Hrows (r & Hsel & Hu). exists r. split; [|done].
  unfold select_conversation in *. by rewrite Hrows.
Qed.

Section CacheSound.
Context {P : Type}.
Variable publisherImpl : Impl EventPublisherE P.

Local Abbreviation handler := (collaborators postgres redisCacheService publisherImpl).

Lemma cache_sound_agrees (s : messagingService) (w : World Database Redis P) :
  cache_sound w -> cache_agrees s redisCacheService w.
Proof.
  intros Hsound id c. unfold cache_hit. destruct (has_cacheService s); [|discriminate].
  cbn. unfold redisCacheService_GetConversation.
  destruct (redis_fault (cache w)); [discriminate|].
  destruct (redis_keys (cache w) !! conversation_key id) as [entry|] eqn:Hk; [|discriminate].
  destruct (data entry) as [c'|] eqn:Hd; [|discriminate].
  cbn. intros [= <-]. eauto.
Qed.

(** What the store says about ownership survives every call that
    respects it. *)
Lemma owner_in_store_step {X : Type} (c : Call X) (w : World Database Redis P)
    (id userID : string) :
  respects_ownership w c ->
  owner_in_store (db w) id userID ->
  owner_in_store (db (handler _ c w).2) id userID.
Proof.
  intros Hc Hown.
  destruct c as [X e|X e|X e|X e|X e|X e]; cbn; try exact Hown.
  - destruct e as [conv|id'|u f|conv]; cbn.
    + unfold postgresConversationRepository_Create.
      destruct (db_fault (db w)); [exact Hown|].
      destruct (select_conversation (db w) (Conversation.ID conv)); [exact Hown|].
      destruct (channel_check _ && status_check _); [|exact Hown].
      destruct Hown as (r & Hsel & Hu). exists r. split; [|done].
      unfold select_conversation in *. cbn. by apply find_app_Some.
    + unfold postgresConversationRepository_GetByID.
      destruct (db_fault (db w)); [exact Hown|].
      destruct (select_conversation (db w) id'); exact Hown.
    + unfold postgresConversationRepository_GetByUserID.
      destruct (db_fault (db w)); exact Hown.
    + cbn in Hc. unfold postgresConversationRepository_Update.
      destruct (db_fault (db w)); [exact Hown|].
      destruct (select_conversation (db w) (Conversation.ID conv)) as [r0|] eqn:Hsel0;
        [|exact Hown].
      destruct (channel_check _ && status_check _); [|exact Hown].
      destruct Hown as (r & Hsel & Hu). destruct Hc as (rc & Hselc & Huc).
      unfold owner_in_store, select_conversation in *. cbn.
      rewrite find_fmap_preserved, Hsel.
      * cbn. eexists. split; [reflexivity|].
        destruct (bool_decide (conversations.id r = Conversation.ID conv)) eqn:Hb; [|done].
        cbn. apply bool_decide_eq_true in Hb.
        apply find_some in Hsel as Hid. destruct Hid as [_ Hid].
        apply bool_decide_eq_true in Hid. rewrite Hb in Hid. rewrite <- Hid in Hsel.
        congruence.
      * intros x. destruct (bool_decide (conversations.id x = Conversation.ID conv)) eqn:Hx;
          cbn; rewrite ?Hx; reflexivity.
  - eapply owner_in_store_rows; [|exact Hown].
    destruct e as [m|id'|id' p]; cbn.
    + unfold postgresMessageRepository_Create.
      destruct (db_fault (db w)); [done|].
      destruct (select_message (db w) (Message.ID m)); [done|].
      destruct (select_conversation (db w) (Message.ConversationID m)); [|done].
      destruct (sender_type_check _ && content_type_check _); done.
    + unfold postgresMessageRepository_GetByID.
      destruct (db_fault (db w)); [done|].
      destruct (select_message (db w) id'); done.
    + unfold postgresMessageRepository_GetByConversationID.
      destruct (db_fault (db w)); done.
  - eapply owner_in_store_rows; [|exact Hown].
    destruct e as [a|id'|id']; cbn.
    + unfold postgresAttachmentRepository_Create.
      destruct (db_fault (db w)); [done|].
      destruct (select_attachment (db w) (Attachment.ID a)); [done|].
      destruct (select_message (db w) (Attachment.MessageID a)); [|done].
      destruct (attachment_type_check _); done.
    + unfold postgresAttachmentRepository_GetByID.
      destruct (db_fault (db w)); [done|].
      destruct (select_attachment (db w) id'); done.
    + unfold postgresAttachmentRepository_GetByMessageID.
      destruct (db_fault (db w)); done.
Qed.

(** A call that respects ownership keeps the cache sound. *)
Lemma cache_sound_step {X : Type} (c : Call X) (w : World Database Redis P) :
  respects_ownership w c -> cache_sound w -> cache_sound (handler _ c w).2.
Proof.
  intros Hc Hsound id entry conv Hk Hd.
  assert (Hkeep : forall entry',
            redis_keys (cache w) !! conversation_key id = Some entry' ->
            data entry' = doc_Conversation conv ->
            Conversation.ID conv = id /\
            owner_in_store (db (handler _ c w).2) id (Conversation.UserID conv)).
  { intros entry' Hk' Hd'. destruct (Hsound id entry' conv Hk' Hd') as [Hid Hown].
    split; [done|]. by apply owner_in_store_step. }
  destruct c as [X e|X e|X e|X e|X e|X e]; try (by eapply Hkeep).
  destruct e as [id'|conv'|id'|id'|id' l|id']; cbn in Hk.
  - unfold redisCacheService_GetConversation in Hk.
    destruct (redis_fault (cache w)); [by eapply Hkeep|].
    destruct (redis_keys (cache w) !! conversation_key id') as [[[?|?] ?]|];
      by eapply Hkeep.
  - unfold redisCacheService_SetConversation in Hk.
    destruct (redis_fault (cache w)); [by eapply Hkeep|]. cbn in Hk.
    destruct (decide (conversation_key (Conversation.ID conv') = conversation_key id))
      as [Heq|Hne].
    + rewrite Heq, lookup_insert_eq in Hk. injection Hk as <-. cbn in Hd.
      injection Hd as <-. apply conversation_key_inj in Heq. split; [done|].
      rewrite <- Heq. exact Hc.
    + rewrite lookup_insert_ne in Hk by done. by eapply Hkeep.
  - unfold redisCacheService_DeleteConversation in Hk.
    destruct (redis_fault (cache w)); [by eapply Hkeep|]. cbn in Hk.
    destruct (decide (conversation_key id' = conversation_key id)) as [Heq|Hne].
    + by rewrite Heq, lookup_delete_eq in Hk.
    + rewrite lookup_delete_ne in Hk by done. by eapply Hkeep.
  - unfold redisCacheService_GetMessages in Hk.
    destruct (redis_fault (cache w)); [by eapply Hkeep|].
    destruct (redis_keys (cache w) !! messages_key id') as [[[?|?] ?]|];
      by eapply Hkeep.
  - unfold redisCacheService_SetMessages in Hk.
    destruct (redis_fault (cache w)); [by eapply Hkeep|]. cbn in Hk.
    rewrite lookup_insert_ne in Hk; [by eapply Hkeep|].
    intros Heq. by eapply conversation_key_not_messages_key.
  - unfold redisCacheService_DeleteMessages in Hk.
    destruct (redis_fault (cache w)); [by eapply Hkeep|]. cbn in Hk.
    rewrite lookup_delete_ne in Hk; [by eapply Hkeep|].
    intros Heq. by eapply conversation_key_not_messages_key.
Qed.

Lemma cache_sound_run {R : Type} (p : Prog R) (w : World Database Redis P) :
  ownership_respected handler p w -> cache_sound w ->
  cache_sound (final (run handler p w)).
Proof.
  revert w. induction p as [r|X c k IH]; intros w; [done|].
  cbn. intros [Hc Hrest] Hsound. unfold observe. cbn.
  apply IH; [exact Hrest|]. by apply cache_sound_step.
Qed.

Lemma owner_in_store_run {R : Type} (p : Prog R) (w : World Database Redis P)
    (id userID : string) :
  ownership_respected handler p w -> owner_in_store (db w) id userID ->
  owner_in_store (db (final (run handler p w))) id userID.
Proof.
  revert w. induction p as [r|X c k IH]; intros w; [done|].
  cbn. intros [Hc Hrest] Hown. unfold observe. cbn.
  apply IH; [exact Hrest|]. by apply owner_in_store_step.
Qed.

Lemma ownership_respected_bind {A B : Type} (p : Prog A) (f : A -> Prog B)
    (w : World Database Redis P) :
  ownership_respected handler p w ->
  ownership_respected handler (f (returned (run handler p w))) (final (run handler p w)) ->
  ownership_respected handler (p ≫= f) w.
Proof.
  unfold mbind, Prog_bind.
  revert w. induction p as [a|X c k IH]; intros w; [cbn; auto|].
  cbn. intros [Hc Hrest] Hf. split; [done|]. apply IH; [done|exact Hf].
Qed.
End CacheSound.

Lemma GetByID_owner (d : Database) (id : string) (c : Conversation) :
  (postgresConversationRepository_GetByID id d).1 = Ok c ->
  owner_in_store (postgresConversationRepository_GetByID id d).2
    (Conversation.ID c) (Conversation.UserID c).
Proof.
  unfold postgresConversationRepository_GetByID.
  destruct (db_fault d); [discriminate|].
  destruct (select_conversation d id) as [r|] eqn:Hsel; [|discriminate].
  cbn. intros [= <-]. exists r. split; [|reflexivity].
  cbn. unfold select_conversation in *. cbn.
  by rewrite (select_conversation_id d id r Hsel).
Qed.

Section ServiceKeepsCacheSound.
Context {P : Type}.
Variable publisherImpl : Impl EventPublisherE P.

Local Abbreviation handler := (collaborators postgres redisCacheService publisherImpl).

Lemma GetConversation_respected (s : messagingService) (id userID : string)
    (w : World Database Redis P) :
  ownership_respected handler (GetConversation s id userID) w.
Proof.
  unfold GetConversation. destruct (has_cacheService s); cbn;
    unfold redisCacheService_GetConversation;
    repeat (first [case_match | case_decide]; cbn); simplify_eq;
    repeat split; try done; by apply GetByID_owner.
Qed.

Lemma loadAttachments_respected (messages : list Message) (w : World Database Redis P) :
  ownership_respected handler (loadAttachments messages) w.
Proof.
  revert w. induction messages as [|m rest IH]; intros w; [done|].
  cbn [loadAttachments]. apply ownership_respected_bind; [by cbn|].
  apply ownership_respected_bind.
  - destruct (returned _); by cbn.
  - apply ownership_respected_bind; [apply IH|done].
Qed.

Lemma GetMessage_respected (s : messagingService) (messageID userID : string)
    (w : World Database Redis P) :
  ownership_respected handler (GetMessage s messageID userID) w.
Proof.
  unfold GetMessage. apply ownership_respected_bind; [by cbn|].
  destruct (returned _); [|done].
  apply ownership_respected_bind; [apply GetConversation_respected|].
  destruct (returned _); [|done].
  apply ownership_respected_bind; [by cbn|].
  destruct (returned _); by cbn.
Qed.

(** Every operation of the service respects ownership when it starts
    from a sound cache. *)
Lemma dispatch_respected (s : messagingService) {R : Type} (op : MessagingService R)
    (w : World Database Redis P) :
  cache_sound w -> ownership_respected handler (dispatch s op) w.
Proof.
  intros Hsound.
  destruct op as [u c|id u|u f|id st u|req|id u p|id u|id req|id u]; cbn [dispatch].
  - unfold CreateConversation. cbn. repeat split; try done.
    repeat (case_match; cbn); done.
  - apply GetConversation_respected.
  - unfold GetConversations. cbn. split; [done|]. case_match; done.
  - unfold UpdateConversationStatus.
    apply ownership_respected_bind; [apply GetConversation_respected|].
    pose proof (GetConversation_store_owner redisCacheService publisherImpl s id u w) as Hown.
    pose proof (owner_in_store_run publisherImpl (GetConversation s id u) w id u
                  (GetConversation_respected s id u w)) as Hrun.
    destruct (returned (run handler (GetConversation s id u) w)) as [c|err]; [|done].
    destruct (Hown c (cache_sound_agrees s w Hsound) eq_refl) as (Hid & Hu & Ho).
    cbn. split; [done|]. split; [by rewrite Hid, Hu; apply Hrun|].
    repeat (case_match; cbn); done.
  - unfold SendMessage.
    apply ownership_respected_bind; [apply GetConversation_respected|].
    destruct (returned _); [|done].
    cbn. repeat split; try done. repeat (case_match; cbn); done.
  - unfold GetMessages.
    apply ownership_respected_bind; [apply GetConversation_respected|].
    destruct (returned _); [|done].
    apply ownership_respected_bind; [by cbn|].
    destruct (returned _); [|done].
    apply ownership_respected_bind; [apply loadAttachments_respected|done].
  - apply GetMessage_respected.
  - unfold CreateAttachment. cbn. repeat split; try done.
    repeat (case_match; cbn); done.
  - unfold GetAttachment. apply ownership_respected_bind; [by cbn|].
    destruct (returned _); [|done].
    apply ownership_respected_bind; [apply GetMessage_respected|].
    destruct (returned _); done.
Qed.

(** X21.  The invariant: whatever operation the service performs, with
    whatever arguments and whatever faults of the database and of Redis, a
    sound cache stays sound, so the cache keeps agreeing with the store. *)
Theorem cache_sound_preserved (s : messagingService) {R : Type} (op : MessagingService R)
    (w : World Database Redis P) :
  cache_sound w ->
  cache_sound (final (run handler (dispatch s op) w))
  /\ cache_agrees s redisCacheService (final (run handler (dispatch s op) w)).
Proof.
  intros Hsound.
  assert (cache_sound (final (run handler (dispatch s op) w))) as Hfinal.
  { apply cache_sound_run; [by apply dispatch_respected|done]. }
  split; [done|]. by apply cache_sound_agrees.
Qed.
End ServiceKeepsCacheSound.

(** A cache that holds nothing is sound. *)
Lemma cache_sound_empty {P : Type} (w : World Database Redis P) :
  redis_keys (cache w) = ∅ -> cache_sound w.
Proof. intros Hempty id entry c Hk. by rewrite Hempty, lookup_empty in Hk. Qed.

(** ** The service at work on the sample deployment *)

(** C1, counterexample.  For user456, the conversation that does not exist
    and the conversation of user123 fail with two different errors. *)
Lemma GetConversation_errors_distinguishable :
  let absent :=
    returned (run Sample.deployment
                (GetConversation Sample.service Sample.absent_id "user456")
                Sample.world) in
  let denied :=
    returned (run Sample.deployment
                (GetConversation Sample.service Sample.conversation1_id "user456")
                Sample.world) in
  absent = Err "failed to get conversation: conversation not found"
  /\ denied = Err "conversation not found or access denied"
  /\ absent <> denied.
Proof. vm_compute. repeat split; discriminate. Qed.

(** C1, witness: over HTTP, user456 asking for the conversation of user123
    gets the fixed 404. *)
Lemma GetConversation_failures_merged_by_handler_witness :
  returned (run Sample.deployment
              (MessagingHandler_GetConversation Sample.http Sample.get_as_user456)
              Sample.world) =
  respondWithError StatusNotFound "NOT_FOUND" "Conversation not found".
Proof.
  refine (proj2 (proj2 (GetConversation_failures_merged_by_handler
            postgres redisCacheService (redisEventPublisher "messaging.events")
            Sample.http Sample.get_as_user456 Sample.world _ _ _)
          (scan_conversation Sample.conversation1) _ _)).
  - vm_compute. discriminate.
  - vm_compute. discriminate.
  - intros cached Hc. vm_compute in Hc. discriminate.
  - vm_compute. reflexivity.
  - vm_compute. discriminate.
Defined.

(** C3, witness: user456 sending into the conversation of user123. *)
Lemma SendMessage_rejected_changes_nothing_witness :
  let o := run Sample.deployment (SendMessage Sample.service Sample.hello_as_user456)
             Sample.world in
  (exists err, returned o = Err err /\
     (err = "conversation not found or access denied" \/
      exists cause, err = Errorf_w "failed to get conversation" cause))
  /\ message_writes (trace o) = [] /\ publishes (trace o) = []
  /\ tables (db (final o)) = tables (db Sample.world)
  /\ pubsub (final o) = pubsub Sample.world.
Proof.
  apply (SendMessage_rejected_changes_nothing redisCacheService
           (redisEventPublisher "messaging.events") Sample.service
           Sample.hello_as_user456 Sample.world).
  - apply cache_agrees_empty. reflexivity.
  - intros (r & Hsel & Hu). vm_compute in Hsel. injection Hsel as <-.
    vm_compute in Hu. discriminate.
Defined.



(** C5, witness: the owner sends a message while the event sink cannot be
    reached; the message is returned and the failure is only logged. *)
Lemma SendMessage_publish_best_effort_witness :
  let o := run Sample.deployment (SendMessage Sample.service Sample.hello_as_user123)
             Sample.world_events_down in
  returned o = Ok Sample.hello_message
  /\ published (pubsub (final o)) = []
  /\ logged_errors (trace o) =
       [("Failed to publish message event", "dial tcp: connection refused")].
Proof.
  destruct (SendMessage_publish_best_effort Sample.deployment Sample.service
              Sample.hello_as_user123 Sample.world_events_down Sample.hello_message)
    as (Hret & _ & _ & _ & _ & Hpub & _).
  - vm_compute. reflexivity.
  - split; [exact Hret|]. split; [vm_compute; reflexivity|].
    destruct (Hpub eq_refl) as (now & answer & Hcall & Hlog).
    rewrite Hlog. vm_compute in Hcall. injection Hcall as _ <-. reflexivity.
Defined.

(** C6, counterexample.  In the state the update with the failed deletion
    leaves behind, the Redis cache serves the old record while the no-op
    cache lets the store answer: the returned data differ. *)
Lemma stale_cache_hit_differs_from_noOp :
  let w := final (run Sample.deployment
                    (UpdateConversationStatus Sample.service Sample.conversation1_id
                       "closed" "user123")
                    Sample.world_flaky_cache) in
  let cachedRun :=
    run Sample.deployment
      (GetConversation Sample.service Sample.conversation1_id "user123") w in
  let noOpRun :=
    run (collaborators postgres noOpCacheService (redisEventPublisher "messaging.events"))
      (GetConversation Sample.service Sample.conversation1_id "user123") w in
  Conversation.Status <$> (match returned cachedRun with Ok c => Some c | Err _ => None end)
    = Some "active"
  /\ Conversation.Status <$> (match returned noOpRun with Ok c => Some c | Err _ => None end)
    = Some "closed"
  /\ returned cachedRun <> returned noOpRun.
Proof. vm_compute. repeat split; discriminate. Qed.

(** C6, witness: with Redis unreachable, reads and status updates behave
    as with the no-op cache. *)
Lemma cache_failure_is_a_miss_witness :
  let without :=
    collaborators postgres (@noOpCacheService Redis) (redisEventPublisher "messaging.events") in
  returned (run Sample.deployment
              (UpdateConversationStatus Sample.service Sample.conversation1_id
                 "closed" "user123") Sample.world_cache_down) =
  returned (run without
              (UpdateConversationStatus Sample.service Sample.conversation1_id
                 "closed" "user123") Sample.world_cache_down).
Proof.
  refine (proj1 (proj2 (cache_failure_is_a_miss postgres redisCacheService
            (redisEventPublisher "messaging.events") Sample.service
            Sample.conversation1_id "user123" "closed" Sample.world_cache_down _))).
  vm_compute. reflexivity.
Defined.





(** The scenario of the specification: a conversation is created for u1
    on the web channel, u1 says hello, lists the messages, and u2 is
    refused the conversation. *)
Example scenario_create_send_list_deny :
  let created := run Sample.deployment (CreateConversation Sample.service "u1" "web")
                   Sample.world in
  let id := "880e8400-e29b-41d4-a716-446655440001" in
  let sent := run Sample.deployment
                (SendMessage Sample.service (Sample.hello id "u1")) (final created) in
  let listed := run Sample.deployment
                  (GetMessages Sample.service id "u1" Sample.first_page) (final sent) in
  let denied := run Sample.deployment (GetConversation Sample.service id "u2")
                  (final listed) in
  returned created =
    Ok (Conversation.mk id "u1" "web" "active" 1700002000 1700002001 [])
  /\ returned sent =
       Ok (Message.mk "880e8400-e29b-41d4-a716-446655440002" id "user" "u1" "hello"
             "text" ∅ 1700002002 [])
  /\ (Message.Content <$> match returned listed with Ok page => page | Err _ => [] end)
     = ["hello"]
  /\ (MessageEvent.Type_ ∘ snd <$> published (pubsub (final listed)))
     = ["message.received"]
  /\ returned denied = Err "conversation not found or access denied".
Proof. vm_compute. repeat split; reflexivity. Qed.

(** * Further properties of the code *)

(** ** The Redis cache as a map with faults *)

Lemma messages_key_inj (a b : string) : messages_key a = messages_key b -> a = b.
Proof. unfold messages_key. intros H. by simplify_eq/=. Qed.

(** X1. The Redis cache is a map from ids to conversations and from
    conversation ids to pages of messages.  A [Get] that reaches the server
    gives what the map holds for the id; a [Set] or [Delete] that reaches
    the server changes the entry of its own id and of its own kind only; a
    command that does not reach the server changes nothing; and a written
    document expires after thirty minutes (a conversation) or ten (a page). *)
Theorem redisCacheService_is_a_map {X : Type} (e : CacheServiceE X) (r : Redis)
    (id : string) :
  let r' := (redisCacheService X e r).2 in
  (redisCacheService_GetConversation id r).1.1 =
    match redis_fault r with Some _ => None | None => cached_conversation r id end
  /\ (redisCacheService_GetMessages id r).1.1 =
       match redis_fault r with Some _ => None | None => cached_messages r id end
  /\ cached_conversation r' id =
       match redis_fault r with
       | Some _ => cached_conversation r id
       | None => conversation_after e id (cached_conversation r id)
       end
  /\ cached_messages r' id =
       match redis_fault r with
       | Some _ => cached_messages r id
       | None => messages_after e id (cached_messages r id)
       end
  /\ (forall key ttl, redis_fault r = None -> written_expiration e = Some (key, ttl) ->
        expiration <$> redis_keys r' !! key = Some ttl).
Proof.
  pose proof conversation_key_inj as Hc. pose proof messages_key_inj as Hm.
  pose proof conversation_key_not_messages_key as Hcm.
  cbn. unfold redisCacheService_GetConversation, redisCacheService_GetMessages,
    cached_conversation, cached_messages.
  split; [|split].
  - destruct (redis_fault r); [done|].
    destruct (redis_keys r !! conversation_key id) as [[[]]|]; done.
  - destruct (redis_fault r); [done|].
    destruct (redis_keys r !! messages_key id) as [[[]]|]; done.
  - assert (Hcs : forall a b, a <> b -> conversation_key a <> conversation_key b)
      by (intros a b Hab Heq; by apply Hc in Heq).
    assert (Hms : forall a b, a <> b -> messages_key a <> messages_key b)
      by (intros a b Hab Heq; by apply Hm in Heq).
    assert (Hmc : forall a b, messages_key a <> conversation_key b)
      by (intros a b Heq; by apply (Hcm b a)).
    destruct e as [i|c|i|i|i l|i]; cbn;
      unfold redisCacheService_GetConversation, redisCacheService_SetConversation,
        redisCacheService_DeleteConversation, redisCacheService_GetMessages,
        redisCacheService_SetMessages, redisCacheService_DeleteMessages;
      destruct (redis_fault r) eqn:Hf; cbn; try done.
    + by destruct (redis_keys r !! conversation_key i) as [[[]]|].
    + split_and!; [| |by intros key ttl _ [= <- <-]; rewrite lookup_insert_eq].
      * case_decide; subst; [by rewrite lookup_insert_eq|].
        by rewrite lookup_insert_ne by (apply not_eq_sym; auto).
      * by rewrite lookup_insert_ne by auto.
    + split_and!; [|by rewrite lookup_delete_ne by auto|done].
      case_decide; subst; [by rewrite lookup_delete_eq|].
      by rewrite lookup_delete_ne by (apply not_eq_sym; auto).
    + by destruct (redis_keys r !! messages_key i) as [[[]]|].
    + split_and!; [| |by intros key ttl _ [= <- <-]; rewrite lookup_insert_eq].
      * by rewrite lookup_insert_ne by auto.
      * case_decide; subst; [by rewrite lookup_insert_eq|].
        by rewrite lookup_insert_ne by (apply not_eq_sym; auto).
    + split_and!; [by rewrite lookup_delete_ne by auto| |done].
      case_decide; subst; [by rewrite lookup_delete_eq|].
      by rewrite lookup_delete_ne by (apply not_eq_sym; auto).
Qed.

(** ** The service over the PostgreSQL repositories *)

Section MorePostgres.
Context {C P : Type}.
Variable cacheImpl : Impl CacheServiceE C.
Variable publisherImpl : Impl EventPublisherE P.

Local Abbreviation handler := (collaborators postgres cacheImpl publisherImpl).

(** X2.  [CreateConversation] touches neither the cache nor the event
    publisher, and no table but [conversations].  When it succeeds it has
    appended exactly one row, the returned conversation: active, owned by
    the caller, on a channel of the enumeration, under an id the table did
    not have.  When it fails the table is as before, and the error carries
    the prefix of the service on top of that of the repository. *)
Theorem CreateConversation_appends_one_row (s : messagingService) (userID : string)
    (channel : Channel) (w : World Database C P) :
  let o := run handler (CreateConversation s userID channel) w in
  filter is_cache_call (trace o) = [] /\ publishes (trace o) = []
  /\ cache (final o) = cache w /\ pubsub (final o) = pubsub w
  /\ messages_rows (db (final o)) = messages_rows (db w)
  /\ attachments_rows (db (final o)) = attachments_rows (db w)
  /\ match returned o with
     | Ok c =>
         Conversation.UserID c = userID /\ Conversation.Channel c = channel
         /\ Conversation.Status c = ConversationStatusActive
         /\ Conversation.ID c = uuids (rt w) (uuid_calls (rt w))
         /\ channel_check channel = true
         /\ select_conversation (db w) (Conversation.ID c) = None
         /\ exists r, scan_conversation r = c
              /\ conversations_rows (db (final o)) = (conversations_rows (db w) ++ [r])%list
     | Err err =>
         conversations_rows (db (final o)) = conversations_rows (db w)
         /\ exists cause,
              err = Errorf_w "failed to create conversation"
                      (Errorf_w "failed to create conversation" cause)
     end.
Proof.
  unfold CreateConversation. cbn. unfold observe. cbn.
  unfold postgresConversationRepository_Create. cbn.
  destruct (db_fault (db w)) as [err|] eqn:Hf; cbn; unfold observe; cbn.
  { split_and!; try done. eauto. }
  destruct (select_conversation (db w) _) eqn:Hsel; cbn; unfold observe; cbn.
  { split_and!; try done. eauto. }
  assert (Hact : status_check ConversationStatusActive = true) by reflexivity.
  destruct (channel_check channel) eqn:Hch; rewrite ?Hact; cbn; unfold observe; cbn.
  - split_and!; try done. by eexists (conversations.mk _ _ _ _ _ _).
  - split_and!; try done. eauto.
Qed.

End MorePostgres.



Section MorePostgresRedis.
Context {P : Type}.
Variable publisherImpl : Impl EventPublisherE P.

Local Abbreviation handler := (collaborators postgres redisCacheService publisherImpl).



End MorePostgresRedis.

Lemma tables_rows (d d' : Database) :
  tables d' = tables d ->
  conversations_rows d' = conversations_rows d
  /\ messages_rows d' = messages_rows d
  /\ attachments_rows d' = attachments_rows d.
Proof. unfold tables. intros [= -> -> ->]. done. Qed.

Section SendOverPostgres.
Context {C : Type}.
Variable cacheImpl : Impl CacheServiceE C.
Variable topic : string.

Local Abbreviation handler :=
  (collaborators postgres cacheImpl (redisEventPublisher topic)).

(** X4.  [SendMessage] is all or nothing on the store and at most once on
    the topic.  When it succeeds, the [messages] table has gained exactly
    one row, the returned message, under a fresh id, for a conversation
    that exists and with a sender type and a content type of the
    enumerations; the other tables are as before; and the topic has gained
    the one event of that message, or nothing when publishing is off or
    failed.  When it fails, the tables and the topic are as before. *)
Theorem SendMessage_all_or_nothing (s : messagingService) (req : SendMessageRequest)
    (w : World Database C PubSub) :
  let o := run handler (SendMessage s req) w in
  match returned o with
  | Ok m =>
      conversations_rows (db (final o)) = conversations_rows (db w)
      /\ attachments_rows (db (final o)) = attachments_rows (db w)
      /\ (exists r, scan_message r = m
            /\ messages_rows (db (final o)) = (messages_rows (db w) ++ [r])%list)
      /\ select_message (db w) (Message.ID m) = None
      /\ is_Some (select_conversation (db w) (Message.ConversationID m))
      /\ sender_type_check (Message.SenderType m) = true
      /\ content_type_check (Message.ContentType m) = true
      /\ (exists now,
            let event :=
              MessageEvent.mk "message.received" (Message.ConversationID m) m now in
            if has_eventPublisher s
            then match pubsub_faults (pubsub w) (pubsub_commands (pubsub w)) with
                 | None =>
                     published (pubsub (final o)) =
                       (published (pubsub w) ++ [(topic, event)])%list
                 | Some _ => published (pubsub (final o)) = published (pubsub w)
                 end
            else pubsub (final o) = pubsub w)
  | Err _ =>
      tables (db (final o)) = tables (db w)
      /\ published (pubsub (final o)) = published (pubsub w)
  end.
Proof.
  intros o. subst o. unfold SendMessage. rewrite run_bind. cbn [returned trace final].
  pose proof (GetConversation_tables cacheImpl (redisEventPublisher topic) s
                (SendMessageRequest.ConversationID req)
                (SendMessageRequest.SenderID req) w) as Htab.
  destruct (GetConversation_frame postgres cacheImpl (redisEventPublisher topic) s
              (SendMessageRequest.ConversationID req)
              (SendMessageRequest.SenderID req) w) as (Hpub & Hrt & _).
  set (o1 := run handler (GetConversation s _ _) w) in *.
  destruct (returned o1) as [c|err] eqn:Hr; cbn; [|by rewrite Hpub].
  destruct (tables_rows _ _ Htab) as (Hcs & Hms & Has).
  unfold observe; cbn. unfold postgresMessageRepository_Create; cbn.
  unfold select_message, select_conversation. rewrite Hcs, Hms, Has.
  destruct (db_fault (db (final o1))) as [err|] eqn:Hf; cbn; unfold observe; cbn.
  { by rewrite Hpub. }
  destruct (List.find _ (messages_rows (db w))) eqn:Hsel; cbn; unfold observe; cbn.
  { by rewrite Hpub. }
  destruct (List.find _ (conversations_rows (db w))) eqn:Hconv; cbn; unfold observe; cbn;
    [|by rewrite Hpub].
  destruct (sender_type_check _) eqn:Hst; cbn; unfold observe; cbn; [|by rewrite Hpub].
  destruct (content_type_check _) eqn:Hct; cbn; unfold observe; cbn; [|by rewrite Hpub].
  destruct (has_eventPublisher s); cbn; unfold observe; cbn.
  - rewrite Hpub. 
    destruct (pubsub_faults (pubsub w) (pubsub_commands (pubsub w))) eqn:Hpf;
      cbn; unfold observe; cbn.
    + split_and!; try done; [by eexists (messages.mk _ _ _ _ _ _ _ _)|].
      by exists 0.
    + split_and!; try done; [by eexists (messages.mk _ _ _ _ _ _ _ _)|].
      by eexists.
  - split_and!; try done; [by eexists (messages.mk _ _ _ _ _ _ _ _)|].
    by exists 0.
Qed.

End SendOverPostgres.

Lemma GetByID_read (d : Database) (id : string) :
  (postgresConversationRepository_GetByID id d).2 = db_read d.
Proof.
  unfold postgresConversationRepository_GetByID.
  destruct (db_fault d); [done|]. by destruct (select_conversation d id).
Qed.

Lemma find_None_not_in {A : Type} (f : A -> string) (l : list A) (id : string) :
  List.find (fun r => bool_decide (f r = id)) l = None -> id ∉ f <$> l.
Proof.
  induction l as [|a l IH]; cbn; [intros _; apply not_elem_of_nil|].
  case_bool_decide; [done|]. intros Hl. apply not_elem_of_cons. split; [done|auto].
Qed.

Lemma find_Some_in {A : Type} (f : A -> string) (l : list A) (id : string) (r : A) :
  List.find (fun r => bool_decide (f r = id)) l = Some r -> r ∈ l /\ f r = id.
Proof.
  induction l as [|a l IH]; cbn; [done|].
  case_bool_decide.
  - intros [= <-]. split; [left|done].
  - intros Hl. destruct (IH Hl). split; [by right|done].
Qed.


Section ReadBack.
Context {C P : Type}.
Variable cacheImpl : Impl CacheServiceE C.
Variable publisherImpl : Impl EventPublisherE P.

Local Abbreviation handler := (collaborators postgres cacheImpl publisherImpl).




End ReadBack.

Section ReadBackRedis.
Context {P : Type}.
Variable publisherImpl : Impl EventPublisherE P.

Local Abbreviation handler := (collaborators postgres redisCacheService publisherImpl).


End ReadBackRedis.

(** ** The list queries *)

Lemma limit_offset_sublist {A : Type} (limit offset : Z) (rows : list A) :
  limit_offset limit offset rows `sublist_of` rows.
Proof.
  unfold limit_offset.
  destruct (decide (0 < offset)), (decide (0 < limit)); try done.
  - etrans; [apply sublist_take|apply sublist_drop].
  - apply sublist_drop.
  - apply sublist_take.
Qed.

Lemma limit_offset_length {A : Type} (limit offset : Z) (rows : list A) :
  0 < limit -> Z.of_nat (length (limit_offset limit offset rows)) <= limit.
Proof.
  intros Hl. unfold limit_offset. rewrite decide_True by done.
  rewrite length_take. lia.
Qed.

Lemma limit_offset_all {A : Type} (limit offset : Z) (rows : list A) :
  limit <= 0 -> offset <= 0 -> limit_offset limit offset rows = rows.
Proof.
  intros Hl Ho. unfold limit_offset. by rewrite !decide_False by lia.
Qed.

Lemma sublist_Forall {A : Type} (Q : A -> Prop) (l k : list A) :
  l `sublist_of` k -> Forall Q k -> Forall Q l.
Proof. rewrite !Forall_forall. eauto using elem_of_sublist. Qed.

Lemma StronglySorted_sublist {A : Type} (R : relation A) (l k : list A) :
  l `sublist_of` k -> StronglySorted R k -> StronglySorted R l.
Proof.
  induction 1 as [|x l k Hs IH|x l k Hs IH]; intros Hk; [done| |].
  - apply StronglySorted_inv in Hk as [Hk Hx]. constructor; [auto|].
    eapply sublist_Forall; eauto.
  - apply StronglySorted_inv in Hk as [Hk _]. auto.
Qed.

#[local] Instance conversations_order_total : Total conversations_order.
Proof. intros a b. unfold conversations_order. lia. Qed.
#[local] Instance conversations_order_trans : Transitive conversations_order.
Proof. intros a b c. unfold conversations_order. lia. Qed.
#[local] Instance messages_order_total : Total messages_order.
Proof. intros a b. unfold messages_order. lia. Qed.
#[local] Instance messages_order_trans : Transitive messages_order.
Proof. intros a b c. unfold messages_order. lia. Qed.
#[local] Instance attachments_order_total : Total attachments_order.
Proof. intros a b. unfold attachments_order. lia. Qed.
#[local] Instance attachments_order_trans : Transitive attachments_order.
Proof. intros a b c. unfold attachments_order. lia. Qed.

(** What a page of a query holds: rows of the table that pass the
    condition, in the order asked for, no more than the limit. *)
Lemma page_of_query {A : Type} (R : relation A) `{!forall x y, Decision (R x y)}
    `{!Total R} `{!Transitive R} (keep : A -> bool) (limit offset : Z) (rows : list A) :
  let page := limit_offset limit offset (merge_sort R (List.filter keep rows)) in
  Forall (fun a => a ∈ rows /\ keep a = true) page
  /\ StronglySorted R page
  /\ (0 < limit -> Z.of_nat (length page) <= limit)
  /\ (limit <= 0 -> offset <= 0 -> forall a, a ∈ rows -> keep a = true -> a ∈ page).
Proof.
  intros page. subst page. split_and!.
  - eapply sublist_Forall; [apply limit_offset_sublist|].
    apply Forall_forall. intros a Ha.
    rewrite merge_sort_Permutation in Ha.
    apply list_elem_of_In, filter_In in Ha as [Ha Hk].
    by apply list_elem_of_In in Ha.
  - eapply StronglySorted_sublist; [apply limit_offset_sublist|].
    by apply StronglySorted_merge_sort.
  - apply limit_offset_length.
  - intros Hl Ho a Ha Hk. rewrite limit_offset_all by done.
    rewrite merge_sort_Permutation.
    apply list_elem_of_In, filter_In. by rewrite <- list_elem_of_In.
Qed.

Section Listings.
Context {C P : Type}.
Variable cacheImpl : Impl CacheServiceE C.
Variable publisherImpl : Impl EventPublisherE P.

Local Abbreviation handler := (collaborators postgres cacheImpl publisherImpl).

(** X6.  [GetConversations] asks the store once and nothing else: the
    cache is not consulted and nothing changes.  The list it returns holds
    only conversations of the caller that pass the channel and status
    filters (an empty filter passes everything), each as a row of the table
    has it, most recently updated first, and no more than a positive limit;
    without limit and offset it holds every such conversation. *)
Theorem GetConversations_own_filtered_sorted (s : messagingService) (userID : string)
    (filters : ConversationFilters) (w : World Database C P) :
  let o := run handler (GetConversations s userID filters) w in
  let passes (r : conversations.row) :=
    conversations.user_id r = userID
    /\ (ConversationFilters.Channel filters = ""
        \/ conversations.channel r = ConversationFilters.Channel filters)
    /\ (ConversationFilters.Status filters = ""
        \/ conversations.status r = ConversationFilters.Status filters) in
  (exists answer,
      trace o = [Ev (conversationRepo (ConversationRepository_GetByUserID userID filters))
                   answer])
  /\ tables (db (final o)) = tables (db w) /\ cache (final o) = cache w
  /\ forall l, returned o = Ok l ->
       Forall (fun c => exists r, r ∈ conversations_rows (db w) /\ passes r
                                  /\ c = scan_conversation r) l
       /\ StronglySorted (fun t t' => t' <= t) (Conversation.UpdatedAt <$> l)
       /\ (0 < ConversationFilters.Limit filters ->
             Z.of_nat (length l) <= ConversationFilters.Limit filters)
       /\ (ConversationFilters.Limit filters <= 0 ->
           ConversationFilters.Offset filters <= 0 ->
           forall r, r ∈ conversations_rows (db w) -> passes r -> scan_conversation r ∈ l).
Proof.
  intros o passes. subst o. unfold GetConversations. cbn. unfold observe. cbn.
  unfold postgresConversationRepository_GetByUserID.
  destruct (db_fault (db w)); cbn; unfold observe; cbn.
  { split_and!; eauto. done. }
  split_and!; eauto. intros l [= <-].
  match goal with |- context [limit_offset _ _ (merge_sort _ (List.filter ?keep ?rows))] =>
    destruct (page_of_query conversations_order keep (ConversationFilters.Limit filters)
                (ConversationFilters.Offset filters) rows) as (Hin & Hsort & Hlen & Hall);
    assert (Hkeep : forall r, keep r = true <-> passes r)
  end.
  { intros r. unfold passes. rewrite !andb_true_iff, !orb_true_iff, !bool_decide_eq_true.
    tauto. }
  split_and!.
  - apply Forall_fmap. eapply Forall_impl; [exact Hin|].
    intros r [Hr Hk]. exists r. by rewrite <- Hkeep.
  - rewrite <- list_fmap_compose.
    eapply (StronglySorted_fmap _ conversations_order); [|exact Hsort]. done.
  - rewrite length_fmap. exact Hlen.
  - intros Hl Ho r Hr Hp. apply list_elem_of_fmap_2, Hall; try done. by apply Hkeep.
Qed.


(** Every answer of the store to a query for the attachments of a message
    holds attachments of that message only, first created first. *)
Lemma GetByMessageID_own (messageID : string) (d : Database) (l : list Attachment) :
  (postgresAttachmentRepository_GetByMessageID messageID d).1 = Ok l ->
  Forall (fun a => Attachment.MessageID a = messageID) l
  /\ StronglySorted (fun t t' => t <= t') (Attachment.CreatedAt <$> l).
Proof.
  unfold postgresAttachmentRepository_GetByMessageID.
  destruct (db_fault d); [done|]. cbn. intros [= <-]. split.
  - apply Forall_fmap, Forall_forall. intros a Ha.
    rewrite merge_sort_Permutation in Ha.
    apply list_elem_of_In, filter_In in Ha as [_ Ha]. cbn.
    by apply bool_decide_eq_true_1 in Ha.
  - rewrite <- list_fmap_compose.
    eapply (StronglySorted_fmap _ attachments_order); [intros x y Hxy; exact Hxy|].
    apply (StronglySorted_merge_sort attachments_order).
Qed.

Lemma attachment_loads_own {R : Type} (p : Prog R) (w : World Database C P) :
  Forall (fun load =>
            forall l, load.2 = Ok l ->
              Forall (fun a => Attachment.MessageID a = load.1) l
              /\ StronglySorted (fun t t' => t <= t') (Attachment.CreatedAt <$> l))
    (attachment_loads (trace (run handler p w))).
Proof.
  revert w. induction p as [r|X c k IH]; intros w; [by constructor|].
  cbn. unfold observe. cbn [trace].
  destruct c as [X e|X e|X e|X e|X e|X e]; try apply IH.
  destruct e; try apply IH.
  rewrite attachment_loads_load. constructor; [|apply IH].
  cbn. apply GetByMessageID_own.
Qed.

Lemma fmap_zip_with_loaded {B : Type} (f : Message -> B) (selected : list Message)
    (loads : list (string * result (list Attachment))) :
  (forall m load, f (with_loaded m load) = f m) ->
  length loads = length selected ->
  f <$> zip_with with_loaded selected loads = f <$> selected.
Proof.
  intros Hf. revert loads.
  induction selected as [|m l IH]; intros [|load loads] Hlen; try done.
  cbn. rewrite Hf. f_equal. apply IH. by injection Hlen.
Qed.

(** X7.  A page of [GetMessages] is given to the owner of the
    conversation only.  It holds messages of that conversation, each as a
    row of the table has it but for its attachments, newest first and no
    more than a positive limit; and the attachments a message carries are
    attachments of that message, first created first. *)
Theorem GetMessages_page_of_conversation (s : messagingService)
    (conversationID userID : string) (pagination : PaginationParams)
    (w : World Database C P) :
  let o := run handler (GetMessages s conversationID userID pagination) w in
  forall page, returned o = Ok page ->
    is_Ok (returned (run handler (GetConversation s conversationID userID) w))
    /\ Forall (fun m =>
                 Message.ConversationID m = conversationID
                 /\ (exists r, r ∈ messages_rows (db w)
                               /\ Message.set_Attachments m [] = scan_message r)
                 /\ Forall (fun a => Attachment.MessageID a = Message.ID m)
                      (Message.Attachments m)
                 /\ StronglySorted (fun t t' => t <= t')
                      (Attachment.CreatedAt <$> Message.Attachments m))
         page
    /\ StronglySorted (fun t t' => t' <= t) (Message.Timestamp <$> page)
    /\ (0 < PaginationParams.Limit pagination ->
          Z.of_nat (length page) <= PaginationParams.Limit pagination).
Proof.
  intros o page. pose proof (attachment_loads_own _ w : Forall _ (attachment_loads (trace o)))
    as Hown.
  revert Hown. subst o. unfold GetMessages. rewrite run_bind.
  cbn [returned trace final].
  pose proof (GetConversation_tables cacheImpl publisherImpl s conversationID userID w)
    as Htab.
  destruct (GetConversation_calls handler s conversationID userID w)
    as (_ & _ & _ & _ & _ & Hloads & _).
  set (check := run handler (GetConversation s conversationID userID) w) in *.
  destruct (returned check) as [c|err]; [|discriminate].
  cbn. unfold observe. cbn.
  unfold postgresMessageRepository_GetByConversationID.
  destruct (db_fault (db (final check))); cbn; [discriminate|].
  destruct (tables_rows _ _ Htab) as (_ & -> & _).
  rewrite run_bind. cbn. rewrite app_nil_r.
  match goal with |- context [run handler (loadAttachments ?sel) ?w'] =>
    destruct (loadAttachments_spec handler sel w') as [Hids Hpage];
    set (selected := sel) in *;
    set (loop := run handler (loadAttachments selected) w') in *
  end.
  cbn zeta in Hids, Hpage.
  assert (Hl : attachment_loads (trace check ++
                 Ev (messageRepo (MessageRepository_GetByConversationID conversationID pagination))
                    (Ok selected) :: trace loop) = attachment_loads (trace loop)).
  { unfold attachment_loads in *. rewrite omap_app, Hloads. reflexivity. }
  rewrite Hl. intros Hown [= <-]. rewrite Hpage.
  assert (Hlen : length (attachment_loads (trace loop)) = length selected).
  { by rewrite <- (length_fmap fst), Hids, length_fmap. }
  match goal with selected := scan_message <$> limit_offset _ _ (merge_sort _ (List.filter ?keep ?rows)) |- _ =>
    destruct (page_of_query messages_order keep (PaginationParams.Limit pagination)
                (PaginationParams.Offset pagination) rows) as (Hin & Hsort & Hlim & _)
  end.
  split; [done|]. split_and!.
  - apply Forall_lookup. intros i m Hm.
    apply lookup_zip_with_Some in Hm as (m0 & load & -> & Hm0 & Hload).
    assert (Hid : load.1 = Message.ID m0).
    { apply (f_equal (fun l => l !! i)) in Hids.
      rewrite !list_lookup_fmap, Hm0, Hload in Hids. by injection Hids. }
    unfold selected in Hm0. rewrite list_lookup_fmap in Hm0.
    destruct (limit_offset _ _ _ !! i) as [r|] eqn:Hr; [|done].
    injection Hm0 as <-.
    rewrite Forall_lookup in Hin. destruct (Hin i r Hr) as [Hrow Hk].
    apply bool_decide_eq_true_1 in Hk.
    rewrite Forall_lookup in Hown. specialize (Hown i load Hload).
    unfold with_loaded. destruct (load.2) as [atts|err] eqn:Hans; cbn.
    + destruct (Hown atts eq_refl) as [Ho1 Ho2]. rewrite Hid in Ho1. cbn in Ho1.
      split_and!; eauto. 
    + split_and!; eauto; constructor.
  - rewrite fmap_zip_with_loaded; [|by intros m [? []]|done].
    unfold selected. rewrite <- list_fmap_compose.
    eapply (StronglySorted_fmap _ messages_order); [|exact Hsort]. done.
  - intros Hpos. rewrite length_zip_with, Hlen, Nat.min_id. unfold selected.
    rewrite length_fmap. by apply Hlim.
Qed.

End Listings.

(** ** Reading through the cache *)

Section ReadThrough.
Context {P : Type}.
Variable publisherImpl : Impl EventPublisherE P.

Local Abbreviation handler := (collaborators postgres redisCacheService publisherImpl).




End ReadThrough.

(** ** Updating a status *)

Section UpdateOverPostgres.
Context {C P : Type}.
Variable cacheImpl : Impl CacheServiceE C.
Variable publisherImpl : Impl EventPublisherE P.

Local Abbreviation handler := (collaborators postgres cacheImpl publisherImpl).

(** X9.  [UpdateConversationStatus] never takes a status outside the
    enumeration of the schema: such a call fails.  A call that fails has
    changed no table and invalidated nothing in the cache.  A call that
    succeeds has left the messages, the attachments and every conversation
    but the one of the id as they were, and has neither added nor removed
    a conversation. *)
Theorem UpdateConversationStatus_touches_one_row (s : messagingService) (id : string)
    (status : ConversationStatus) (userID : string) (w : World Database C P) :
  cache_agrees s cacheImpl w ->
  let o := run handler (UpdateConversationStatus s id status userID) w in
  (status_check status = false -> returned o <> None)
  /\ (returned o <> None ->
        tables (db (final o)) = tables (db w) /\ cache_deletes (trace o) = [])
  /\ (returned o = None ->
        messages_rows (db (final o)) = messages_rows (db w)
        /\ attachments_rows (db (final o)) = attachments_rows (db w)
        /\ conversations.id <$> conversations_rows (db (final o)) =
             conversations.id <$> conversations_rows (db w)
        /\ forall r, conversations.id r <> id ->
             r ∈ conversations_rows (db (final o)) <-> r ∈ conversations_rows (db w)).
Proof.
  intros Hagree o. subst o. unfold UpdateConversationStatus. rewrite run_bind.
  cbn [returned trace final].
  pose proof (GetConversation_tables cacheImpl publisherImpl s id userID w) as Htab.
  pose proof (GetConversation_store_owner cacheImpl publisherImpl s id userID w) as Hown.
  destruct (GetConversation_calls handler s id userID w) as (_ & _ & _ & Hdel & _).
  set (check := run handler (GetConversation s id userID) w) in *.
  destruct (returned check) as [c|err] eqn:Hr; cbn.
  2: { rewrite app_nil_r. split_and!; try done. }
  destruct (Hown c Hagree eq_refl) as (Hid & _ & _).
  destruct (tables_rows _ _ Htab) as (Hcs & Hms & Has).
  unfold observe; cbn. unfold postgresConversationRepository_Update; cbn.
  unfold select_conversation. rewrite Hcs, Hms, Has, Hid.
  assert (Hdel' : forall t, cache_deletes t = [] ->
            cache_deletes (trace check ++ t) = []).
  { intros t Ht. unfold cache_deletes in *. by rewrite omap_app, Hdel, Ht. }
  destruct (db_fault (db (final check))); cbn; unfold observe; cbn.
  { split_and!; try done. intros _. split; [done|]. by apply Hdel'. }
  destruct (List.find _ (conversations_rows (db w))) eqn:Hsel; cbn; unfold observe; cbn.
  2: { split_and!; try done. intros _. split; [done|]. by apply Hdel'. }
  destruct (channel_check (Conversation.Channel c)); cbn; unfold observe; cbn.
  2: { split_and!; try done. intros _. split; [done|]. by apply Hdel'. }
  destruct (status_check status); cbn; unfold observe; cbn.
  2: { split_and!; try done. intros _. split; [done|]. by apply Hdel'. }
  split; [done|]. split.
  { destruct (has_cacheService s); cbn; unfold observe; cbn; done. }
  intros _.
  assert (Hfinal : forall o2 : Outcome (option error) (World Database C P),
            db (final o2) = db_after (db (final check))
              ((fun r : conversations.row =>
                  if bool_decide (conversations.id r = id)
                  then conversations.mk (conversations.id r) (Conversation.UserID c)
                         (Conversation.Channel c) status (conversations.created_at r)
                         (db_NOW (db (final check)))
                  else r) <$> conversations_rows (db w))
              (messages_rows (db w)) (attachments_rows (db w)) ->
            messages_rows (db (final o2)) = messages_rows (db w)
            /\ attachments_rows (db (final o2)) = attachments_rows (db w)
            /\ conversations.id <$> conversations_rows (db (final o2)) =
                 conversations.id <$> conversations_rows (db w)
            /\ forall r, conversations.id r <> id ->
                 r ∈ conversations_rows (db (final o2)) <-> r ∈ conversations_rows (db w)).
  { intros o2 ->. cbn. split_and!; try done.
    - rewrite <- list_fmap_compose. apply list_fmap_ext. intros i r1 _. cbn.
      by case_bool_decide.
    - intros row Hne. rewrite list_elem_of_fmap. split.
      + intros (r0 & -> & Hr0). revert Hne. case_bool_decide; cbn; [done|]. done.
      + intros Hin. exists row. by rewrite bool_decide_eq_false_2. }
  apply Hfinal. destruct (has_cacheService s); cbn; unfold observe; cbn; [|done].
  done.
Qed.

End UpdateOverPostgres.

(** ** The constraints of the schema as an invariant *)

Lemma db_consistent_rows (d d' : Database) :
  tables d' = tables d -> db_consistent d -> db_consistent d'.
Proof.
  intros (Hc & Hm & Ha)%tables_rows [].
  split; by rewrite ?Hc, ?Hm, ?Ha.
Qed.

Lemma db_consistent_read (d : Database) : db_consistent d -> db_consistent (db_read d).
Proof. by apply db_consistent_rows. Qed.

Lemma NoDup_snoc_fresh (ids : list string) (id : string) :
  NoDup ids -> id ∉ ids -> NoDup (ids ++ [id])%list.
Proof.
  intros Hn Hid. apply NoDup_app. split_and!; [done| |apply NoDup_singleton].
  intros x Hx ->%list_elem_of_singleton. done.
Qed.

Lemma Forall_elem_of_snoc (ids : list string) (id : string) {A : Type}
    (f : A -> string) (l : list A) :
  Forall (fun a => f a ∈ ids) l -> Forall (fun a => f a ∈ (ids ++ [id])%list) l.
Proof. intros H. eapply Forall_impl; [exact H|]. intros a Ha. apply elem_of_app. by left. Qed.

Lemma NoDup_fmap_filter {A : Type} (f : A -> string) (keep : A -> bool) (l : list A) :
  NoDup (f <$> l) -> NoDup (f <$> List.filter keep l).
Proof.
  induction l as [|a l IH]; [done|]. cbn. intros [Ha Hl]%NoDup_cons.
  destruct (keep a); [|auto]. cbn. apply NoDup_cons. split; [|auto].
  intros (b & Hb & Hin)%list_elem_of_fmap. apply Ha.
  apply list_elem_of_fmap. exists b. split; [done|].
  by apply list_elem_of_In, filter_In in Hin as [?%list_elem_of_In _].
Qed.

Lemma Forall_List_filter {A : Type} (Q : A -> Prop) (keep : A -> bool) (l : list A) :
  Forall Q l -> Forall Q (List.filter keep l).
Proof.
  rewrite !Forall_forall. intros H a Ha. apply H.
  by apply list_elem_of_In, filter_In in Ha as [?%list_elem_of_In _].
Qed.

Lemma elem_of_List_filter {A : Type} (keep : A -> bool) (l : list A) (a : A) :
  a ∈ List.filter keep l <-> a ∈ l /\ keep a = true.
Proof. by rewrite !list_elem_of_In, filter_In. Qed.

Lemma conversation_Create_consistent (c : Conversation) (d : Database) :
  db_consistent d -> db_consistent (postgresConversationRepository_Create c d).2.
Proof.
  intros Hd. unfold postgresConversationRepository_Create.
  destruct (db_fault d); [by apply db_consistent_read|].
  destruct (select_conversation d _) eqn:Hsel; [by apply db_consistent_read|].
  destruct (channel_check _) eqn:Hch; [|by apply db_consistent_read].
  destruct (status_check _) eqn:Hst; [|by apply db_consistent_read].
  destruct Hd as [Hpc Hpm Hpa Hcc Hmc Hac Hfm Hfa]. split; cbn; try done.
  - rewrite fmap_app. apply NoDup_snoc_fresh; [done|]. by apply find_None_not_in.
  - apply Forall_app. split; [done|]. by repeat constructor.
  - rewrite fmap_app. by apply Forall_elem_of_snoc.
Qed.

Lemma conversation_Update_consistent (c : Conversation) (d : Database) :
  db_consistent d -> db_consistent (postgresConversationRepository_Update c d).2.
Proof.
  intros Hd. unfold postgresConversationRepository_Update.
  destruct (db_fault d); [by apply db_consistent_read|].
  destruct (select_conversation d _) eqn:Hsel; [|by apply db_consistent_read].
  destruct (channel_check _) eqn:Hch; [|by apply db_consistent_read].
  destruct (status_check _) eqn:Hst; [|by apply db_consistent_read].
  cbn.
  match goal with |- context [?f <$> conversations_rows d] =>
    assert (Hids : conversations.id <$> (f <$> conversations_rows d) =
                   conversations.id <$> conversations_rows d)
  end.
  { rewrite <- list_fmap_compose. apply list_fmap_ext. intros i row _. cbn.
    by case_bool_decide. }
  destruct Hd as [Hpc Hpm Hpa Hcc Hmc Hac Hfm Hfa]. split; cbn; rewrite ?Hids; try done.
  apply Forall_fmap. eapply Forall_impl; [exact Hcc|].
  intros row Hrow. cbn. by case_bool_decide.
Qed.

Lemma conversation_Delete_consistent (id : string) (d : Database) :
  db_consistent d -> db_consistent (postgresConversationRepository_Delete id d).2.
Proof.
  intros Hd. unfold postgresConversationRepository_Delete.
  destruct (db_fault d); [by apply db_consistent_read|].
  destruct (select_conversation d _) eqn:Hsel; [|by apply db_consistent_read].
  destruct Hd as [Hpc Hpm Hpa Hcc Hmc Hac Hfm Hfa]. split; cbn;
    try (by apply NoDup_fmap_filter); try (by apply Forall_List_filter).
  - apply Forall_forall. intros m [Hm Hk]%elem_of_List_filter.
    apply negb_true_iff, bool_decide_eq_false in Hk.
    rewrite Forall_forall in Hfm.
    apply Hfm in Hm as (row & Hrow & Hin)%list_elem_of_fmap.
    apply list_elem_of_fmap. exists row. split; [done|].
    apply elem_of_List_filter. split; [done|].
    apply negb_true_iff, bool_decide_eq_false. congruence.
  - apply Forall_forall. intros a [Ha Hk]%elem_of_List_filter.
    apply negb_true_iff, bool_decide_eq_false in Hk.
    rewrite Forall_forall in Hfa.
    apply Hfa in Ha as (msg & Hmsg & Hin)%list_elem_of_fmap.
    apply list_elem_of_fmap. exists msg. split; [done|].
    apply elem_of_List_filter. split; [done|].
    apply negb_true_iff, bool_decide_eq_false. intros Hgone. apply Hk.
    apply list_elem_of_fmap. exists msg. split; [done|].
    apply elem_of_List_filter. split; [done|]. by apply bool_decide_eq_true.
Qed.

Lemma message_Create_consistent (m : Message) (d : Database) :
  db_consistent d -> db_consistent (postgresMessageRepository_Create m d).2.
Proof.
  intros Hd. unfold postgresMessageRepository_Create.
  destruct (db_fault d); [by apply db_consistent_read|].
  destruct (select_message d _) eqn:Hsel; [by apply db_consistent_read|].
  destruct (select_conversation d _) eqn:Hconv; [|by apply db_consistent_read].
  destruct (sender_type_check _) eqn:Hst; [|by apply db_consistent_read].
  destruct (content_type_check _) eqn:Hct; [|by apply db_consistent_read].
  destruct Hd as [Hpc Hpm Hpa Hcc Hmc Hac Hfm Hfa]. split; cbn; try done.
  - rewrite fmap_app. apply NoDup_snoc_fresh; [done|]. by apply find_None_not_in.
  - apply Forall_app. split; [done|]. by repeat constructor.
  - apply Forall_app. split; [done|]. repeat constructor. cbn.
    apply find_Some_in in Hconv as [Hin <-]. by apply list_elem_of_fmap_2.
  - rewrite fmap_app. by apply Forall_elem_of_snoc.
Qed.

Lemma message_Update_consistent (m : Message) (d : Database) :
  db_consistent d -> db_consistent (postgresMessageRepository_Update m d).2.
Proof.
  intros Hd. unfold postgresMessageRepository_Update.
  destruct (db_fault d); [by apply db_consistent_read|].
  destruct (select_message d _) eqn:Hsel; [|by apply db_consistent_read].
  destruct (sender_type_check _) eqn:Hst; [|by apply db_consistent_read].
  destruct (content_type_check _) eqn:Hct; [|by apply db_consistent_read].
  destruct (select_conversation d _) eqn:Hconv; [|by apply db_consistent_read].
  cbn.
  match goal with |- context [?f <$> messages_rows d] =>
    assert (Hids : messages.id <$> (f <$> messages_rows d) =
                   messages.id <$> messages_rows d)
  end.
  { rewrite <- list_fmap_compose. apply list_fmap_ext. intros i row _. cbn.
    by case_bool_decide. }
  destruct Hd as [Hpc Hpm Hpa Hcc Hmc Hac Hfm Hfa]. split; cbn; rewrite ?Hids; try done.
  - apply Forall_fmap. eapply Forall_impl; [exact Hmc|].
    intros row Hrow. cbn. by case_bool_decide.
  - apply Forall_fmap. rewrite Forall_forall in *. intros row Hrow. cbn.
    case_bool_decide; cbn; [|auto].
    apply find_Some_in in Hconv as [Hin <-]. by apply list_elem_of_fmap_2.
Qed.

Lemma message_Delete_consistent (id : string) (d : Database) :
  db_consistent d -> db_consistent (postgresMessageRepository_Delete id d).2.
Proof.
  intros Hd. unfold postgresMessageRepository_Delete.
  destruct (db_fault d); [by apply db_consistent_read|].
  destruct (select_message d _) eqn:Hsel; [|by apply db_consistent_read].
  destruct Hd as [Hpc Hpm Hpa Hcc Hmc Hac Hfm Hfa]. split; cbn;
    try done; try (by apply NoDup_fmap_filter); try (by apply Forall_List_filter).
  apply Forall_forall. intros a [Ha Hk]%elem_of_List_filter.
  apply negb_true_iff, bool_decide_eq_false in Hk.
  rewrite Forall_forall in Hfa.
  apply Hfa in Ha as (msg & Hmsg & Hin)%list_elem_of_fmap.
  apply list_elem_of_fmap. exists msg. split; [done|].
  apply elem_of_List_filter. split; [done|].
  apply negb_true_iff, bool_decide_eq_false. congruence.
Qed.

Lemma attachment_Create_consistent (a : Attachment) (d : Database) :
  db_consistent d -> db_consistent (postgresAttachmentRepository_Create a d).2.
Proof.
  intros Hd. unfold postgresAttachmentRepository_Create.
  destruct (db_fault d); [by apply db_consistent_read|].
  destruct (select_attachment d _) eqn:Hsel; [by apply db_consistent_read|].
  destruct (select_message d _) eqn:Hmsg; [|by apply db_consistent_read].
  destruct (attachment_type_check _) eqn:Hty; [|by apply db_consistent_read].
  destruct Hd as [Hpc Hpm Hpa Hcc Hmc Hac Hfm Hfa]. split; cbn; try done.
  - rewrite fmap_app. apply NoDup_snoc_fresh; [done|]. by apply find_None_not_in.
  - apply Forall_app. split; [done|]. by repeat constructor.
  - apply Forall_app. split; [done|]. repeat constructor. cbn.
    apply find_Some_in in Hmsg as [Hin <-]. by apply list_elem_of_fmap_2.
Qed.

Lemma attachment_Delete_consistent (id : string) (d : Database) :
  db_consistent d -> db_consistent (postgresAttachmentRepository_Delete id d).2.
Proof.
  intros Hd. unfold postgresAttachmentRepository_Delete.
  destruct (db_fault d); [by apply db_consistent_read|].
  destruct (select_attachment d _) eqn:Hsel; [|by apply db_consistent_read].
  destruct Hd as [Hpc Hpm Hpa Hcc Hmc Hac Hfm Hfa]. split; cbn;
    try done; try (by apply NoDup_fmap_filter); try (by apply Forall_List_filter).
Qed.

Lemma execute_consistent (st : Statement) (d : Database) :
  db_consistent d -> db_consistent (execute st d).
Proof.
  intros Hd. destruct st as [X e|X e|X e|id|m|id|id]; cbn.
  - destruct e; cbn.
    + by apply conversation_Create_consistent.
    + rewrite GetByID_read. by apply db_consistent_read.
    + unfold postgresConversationRepository_GetByUserID.
      destruct (db_fault d); by apply db_consistent_read.
    + by apply conversation_Update_consistent.
  - destruct e; cbn.
    + by apply message_Create_consistent.
    + unfold postgresMessageRepository_GetByID.
      destruct (db_fault d); [|destruct (select_message d id)]; by apply db_consistent_read.
    + unfold postgresMessageRepository_GetByConversationID.
      destruct (db_fault d); by apply db_consistent_read.
  - destruct e; cbn.
    + by apply attachment_Create_consistent.
    + unfold postgresAttachmentRepository_GetByID.
      destruct (db_fault d); [|destruct (select_attachment d id)];
        by apply db_consistent_read.
    + unfold postgresAttachmentRepository_GetByMessageID.
      destruct (db_fault d); by apply db_consistent_read.
  - by apply conversation_Delete_consistent.
  - by apply message_Update_consistent.
  - by apply message_Delete_consistent.
  - by apply attachment_Delete_consistent.
Qed.

Lemma run_consistent {C P R : Type} (cacheImpl : Impl CacheServiceE C)
    (publisherImpl : Impl EventPublisherE P) (p : Prog R) (w : World Database C P) :
  db_consistent (db w) ->
  db_consistent (db (final (run (collaborators postgres cacheImpl publisherImpl) p w))).
Proof.
  revert w. induction p as [r|X c k IH]; intros w Hd; [done|].
  cbn. unfold observe. cbn [final]. apply IH.
  destruct c as [X e|X e|X e|X e|X e|X e]; cbn; try done.
  - apply (execute_consistent (through_conversationRepo e) _ Hd).
  - apply (execute_consistent (through_messageRepo e) _ Hd).
  - apply (execute_consistent (through_attachmentRepo e) _ Hd).
Qed.

(** X10.  The constraints of the schema (unique primary keys, the
    enumerations of the CHECKs, a parent row for every message and every
    attachment) hold after every statement the PostgreSQL repositories can
    send, the deletions with their cascade included, and so after every
    operation of the service, whatever the cache and the publisher do. *)
Theorem schema_constraints_preserved (d : Database) :
  db_consistent d ->
  (forall st, db_consistent (execute st d))
  /\ (forall (C P : Type) (cacheImpl : Impl CacheServiceE C)
             (publisherImpl : Impl EventPublisherE P) (s : messagingService)
             (R : Type) (op : MessagingService R) (w : World Database C P),
        db w = d ->
        db_consistent
          (db (final (run (collaborators postgres cacheImpl publisherImpl)
                        (dispatch s op) w)))).
Proof.
  intros Hd. split.
  - intros st. by apply execute_consistent.
  - intros C P cacheImpl publisherImpl s R op w <-. by apply run_consistent.
Qed.

Lemma NoDup_fmap_same {A : Type} (f : A -> string) (l : list A) (a b : A) :
  NoDup (f <$> l) -> a ∈ l -> b ∈ l -> f a = f b -> a = b.
Proof.
  induction l as [|x l IH]; [by intros _ ?%elem_of_nil|].
  cbn. intros [Hx Hl]%NoDup_cons [->|Ha]%elem_of_cons [->|Hb]%elem_of_cons Hab; auto.
  - exfalso. apply Hx. rewrite Hab. by apply list_elem_of_fmap_2.
  - exfalso. apply Hx. rewrite <- Hab. by apply list_elem_of_fmap_2.
Qed.

(** X11.  Deleting a conversation takes its messages and their
    attachments with it and nothing else: afterwards the id is not found,
    the remaining conversations and messages are those of the other ids,
    and the remaining attachments are those whose message remains.  A
    deletion of an id the table does not hold fails and changes nothing. *)
Theorem ConversationRepository_Delete_cascades (id : string) (d : Database) :
  db_consistent d -> db_fault d = None ->
  let answer := (postgresConversationRepository_Delete id d).1 in
  let d' := (postgresConversationRepository_Delete id d).2 in
  (select_conversation d id = None ->
     answer = Some "conversation not found" /\ tables d' = tables d)
  /\ (is_Some (select_conversation d id) ->
        answer = None
        /\ select_conversation d' id = None
        /\ (forall r, r ∈ conversations_rows d' <->
                      r ∈ conversations_rows d /\ conversations.id r <> id)
        /\ (forall m, m ∈ messages_rows d' <->
                      m ∈ messages_rows d /\ messages.conversation_id m <> id)
        /\ (forall a, a ∈ attachments_rows d' <->
                      a ∈ attachments_rows d
                      /\ attachments.message_id a ∈ messages.id <$> messages_rows d')).
Proof.
  intros Hd Hf answer d'. subst answer d'. unfold postgresConversationRepository_Delete.
  rewrite Hf. destruct (select_conversation d id) as [row|] eqn:Hsel; cbn.
  { split; [done|]. intros _. split; [done|]. split_and!.
    - unfold select_conversation. cbn.
      destruct (List.find _ _) as [r0|] eqn:Hfind; [|done].
      apply find_Some_in in Hfind as [[_ Hk]%elem_of_List_filter Hid].
      apply negb_true_iff, bool_decide_eq_false in Hk. done.
    - intros r0. rewrite elem_of_List_filter, negb_true_iff, bool_decide_eq_false. done.
    - intros m. rewrite elem_of_List_filter, negb_true_iff, bool_decide_eq_false. done.
    - intros a. rewrite elem_of_List_filter, negb_true_iff, bool_decide_eq_false.
      split; intros [Ha Hk]; (split; [done|]).
      + pose proof (attachments_message_id_fkey _ Hd) as Hfk.
        rewrite Forall_forall in Hfk.
        apply Hfk in Ha as (msg & Hmsg & Hin)%list_elem_of_fmap.
        apply list_elem_of_fmap. exists msg. split; [done|].
        apply elem_of_List_filter. split; [done|].
        apply negb_true_iff, bool_decide_eq_false. intros Hgone. apply Hk.
        apply list_elem_of_fmap. exists msg. split; [done|].
        apply elem_of_List_filter. split; [done|]. by apply bool_decide_eq_true.
      + intros (m1 & Hm1 & [Hin1 Hk1%bool_decide_eq_true_1]%elem_of_List_filter)%list_elem_of_fmap.
        apply list_elem_of_fmap in Hk as (m2 & Hm2 & [Hin2 Hk2]%elem_of_List_filter).
        apply negb_true_iff, bool_decide_eq_false in Hk2.
        assert (m1 = m2); [|congruence].
        pose proof (messages_pkey _ Hd) as Hnd.
        eapply (NoDup_fmap_same messages.id); eauto. congruence. }
  split; [done|]. by intros [? [=]].
Qed.

(** ** Running without a database *)

Section WithoutDatabase.
Context {S C P : Type}.
Variable cacheImpl : Impl CacheServiceE C.
Variable publisherImpl : Impl EventPublisherE P.

Local Abbreviation handler := (collaborators (@noOpRepositories S) cacheImpl publisherImpl).

Lemma noOp_GetConversation (s : messagingService) (id userID : string) (w : World S C P)
    (c : Conversation) :
  returned (run handler (GetConversation s id userID) w) = Ok c <->
  cache_hit s cacheImpl (cache w) id = Some c /\ Conversation.UserID c = userID.
Proof.
  rewrite (GetConversation_returned noOpRepositories cacheImpl publisherImpl).
  unfold store_read. cbn.
  destruct (cache_hit s cacheImpl (cache w) id) as [cached|]; [|by split; [|intros []]].
  destruct (decide (Conversation.UserID cached = userID)) as [Hu|Hu].
  - split; [by intros [= <-]|by intros [[= <-] _]].
  - split; [done|]. intros [[= <-] ?]. done.
Qed.

Lemma noOp_db {R : Type} (p : Prog R) (w : World S C P) :
  db (final (run handler p w)) = db w.
Proof.
  revert w. induction p as [r|X c k IH]; intros w; [done|].
  cbn. unfold observe. cbn [final]. rewrite IH.
  destruct c as [X e|X e|X e|X e|X e|X e]; cbn; try done; by destruct e.
Qed.

Lemma noOp_failed (s : messagingService) {R : Type} (op : MessagingService R)
    (w : World S C P) :
  is_GetConversation op = false ->
  let o := run handler (dispatch s op) w in
  failed op (returned o) /\ publishes (trace o) = [].
Proof.
  destruct op as [u ch|id u|u f|id st u|req|id u pg|id u|id req|id u]; cbn; try done;
    intros _.
  - unfold observe. cbn. split; [tauto|done].
  - unfold observe. cbn. split; [tauto|done].
  - unfold UpdateConversationStatus. rewrite run_bind. cbn [returned trace].
    destruct (GetConversation_calls handler s id u w) as (_ & Hpb & _).
    assert (Hp : forall t, publishes t = [] ->
              publishes (trace (run handler (GetConversation s id u) w) ++ t) = []).
    { intros t Ht. unfold publishes in *. by rewrite omap_app, Hpb, Ht. }
    destruct (returned (run handler (GetConversation s id u) w)); cbn;
      unfold observe; cbn; (split; [done|by apply Hp]).
  - unfold SendMessage. rewrite run_bind. cbn [returned trace].
    destruct (GetConversation_calls handler s (SendMessageRequest.ConversationID req)
                (SendMessageRequest.SenderID req) w) as (_ & Hpb & _).
    set (check := run handler (GetConversation s _ _) w) in *.
    assert (Hp : forall t, publishes t = [] -> publishes (trace check ++ t) = []).
    { intros t Ht. unfold publishes in *. by rewrite omap_app, Hpb, Ht. }
    destruct (returned check); cbn; unfold observe; cbn; (split; [tauto|by apply Hp]).
  - unfold GetMessages. rewrite run_bind. cbn [returned trace].
    destruct (GetConversation_calls handler s id u w) as (_ & Hpb & _).
    set (check := run handler (GetConversation s _ _) w) in *.
    assert (Hp : forall t, publishes t = [] -> publishes (trace check ++ t) = []).
    { intros t Ht. unfold publishes in *. by rewrite omap_app, Hpb, Ht. }
    destruct (returned check); cbn; unfold observe; cbn; (split; [tauto|by apply Hp]).
  - unfold GetMessage. cbn. unfold observe. cbn. split; [tauto|done].
  - unfold observe. cbn. split; [tauto|done].
  - unfold observe. cbn. split; [tauto|done].
Qed.

(** X12.  Over the no-op repositories, which [main] installs when no
    database is configured or reachable, every operation of the service
    fails, but for one: [GetConversation] still answers, from the cache,
    exactly the conversations the cache holds for the caller.  Nothing is
    published and the repositories' state is not touched. *)
Theorem without_database_only_cached_reads (s : messagingService) {R : Type}
    (op : MessagingService R) (w : World S C P) :
  let o := run handler (dispatch s op) w in
  db (final o) = db w
  /\ (is_GetConversation op = false -> failed op (returned o) /\ publishes (trace o) = [])
  /\ forall id userID c,
       returned (run handler (GetConversation s id userID) w) = Ok c <->
       cache_hit s cacheImpl (cache w) id = Some c /\ Conversation.UserID c = userID.
Proof.
  split; [apply noOp_db|]. split; [apply noOp_failed|]. intros. apply noOp_GetConversation.
Qed.

End WithoutDatabase.

(** ** From the environment to the collaborators *)

Lemma getEnv_nonempty (env : Environ) (key defaultValue : string) :
  defaultValue <> "" -> getEnv env key defaultValue <> "".
Proof. intros Hd. unfold getEnv. by case_decide. Qed.

Lemma getEnv_empty_default (env : Environ) (key : string) : getEnv env key "" = env key.
Proof.
  unfold getEnv. case_decide as H; [done|].
  destruct (decide (env key = "")); [done|tauto].
Qed.

(** X13.  What [main] builds the service over, as a function of the
    environment.  The database is used exactly when [DB_PASSWORD] is set and
    the database answered at startup: the host cannot be emptied, an empty
    [DB_HOST] falling back to [localhost].  Redis is used exactly when it
    answered at startup and [REDIS_ENABLED] is not one of the spellings of
    false, an unset or unreadable value counting as true.  Events go to
    Redis exactly when Redis is used and [EVENTS_PROVIDER] is unset or
    [redis].  Without [DB_PASSWORD] creating a conversation fails for
    everybody with the error of the no-op repository. *)
Theorem main_wiring_from_environment (env : Environ) (up : Startup) :
  let cfg := Load env in
  (main_db cfg up = true <->
     env "DB_PASSWORD" <> "" /\ database_reachable up = true)
  /\ (main_redisClient cfg up = true <->
        redis_reachable up = true
        /\ env "REDIS_ENABLED" ∉ ["0"; "f"; "F"; "FALSE"; "false"; "False"])
  /\ (main_redisClient cfg up
      && bool_decide (EventsConfig.Provider (Config.Events cfg) = "redis") = true <->
        main_redisClient cfg up = true
        /\ (env "EVENTS_PROVIDER" = "" \/ env "EVENTS_PROVIDER" = "redis"))
  /\ (env "DB_PASSWORD" = "" ->
        forall (s : messagingService) (userID : string) (channel : Channel)
               (w : World Database Redis PubSub),
          returned (run (main_collaborators cfg up) (CreateConversation s userID channel) w)
          = Err "failed to create conversation: database not available").
Proof.
  intros cfg. split_and!.
  - unfold main_db. subst cfg. cbn.
    rewrite getEnv_empty_default.
    pose proof (getEnv_nonempty env "DB_HOST" "localhost") as Hh.
    case_decide; [tauto|]. split; [done|]. intros [? ?]. exfalso. auto.
  - unfold main_redisClient. subst cfg. cbn. unfold getEnvAsBool.
    destruct (decide (env "REDIS_ENABLED" <> "")) as [He|He].
    + unfold strconv_ParseBool.
      case_bool_decide as Ht.
      * split; [|tauto]. intros Hr. split; [done|].
        intros Hf. clear -Ht Hf.
        repeat (apply elem_of_cons in Ht as [Ht|Ht]; [rewrite Ht in Hf; by vm_compute in Hf; repeat (apply elem_of_cons in Hf as [Hf|Hf]; [discriminate|]); by apply elem_of_nil in Hf|]).
        by apply elem_of_nil in Ht.
      * case_bool_decide as Hf; [split; [done|tauto]|tauto].
    + assert (env "REDIS_ENABLED" = "") as -> by (destruct (decide (env "REDIS_ENABLED" = "")); tauto).
      split; [|tauto]. intros Hr. split; [done|].
      intros Hf. repeat (apply elem_of_cons in Hf as [Hf|Hf]; [discriminate|]).
      by apply elem_of_nil in Hf.
  - rewrite andb_true_iff, bool_decide_eq_true. subst cfg. cbn. unfold getEnv.
    destruct (decide (env "EVENTS_PROVIDER" <> "")) as [He|He]; [tauto|].
    assert (env "EVENTS_PROVIDER" = "") by (destruct (decide (env "EVENTS_PROVIDER" = "")); tauto).
    tauto.
  - intros Hp s userID channel w. unfold main_collaborators, main_repositories, main_db.
    subst cfg. cbn. rewrite getEnv_empty_default, Hp.
    rewrite decide_False by tauto.
    unfold CreateConversation. cbn. unfold observe. cbn. done.
Qed.

(** ** The HTTP routes *)

Section Routes.
Context {W : Type}.
Variable hd : Handler W.

(** X14.  On every route of the messaging handler that reaches the
    service: the answer is 401 exactly when the token gives no user; an
    answer of 401 or 400 is given before anything is called, so that the
    request has had no effect and has not even been logged, and it carries
    no data; and the status is one of 200, 201, 400, 401, 404 and 500. *)
Theorem serve_rejects_before_calling (h : MessagingHandler) {D : Type}
    (route : Route D) (r : Request) (w : W) :
  let o := run hd (serve h route r) w in
  (typed.statusCode (returned o) = StatusUnauthorized <->
     getUserIDFromContext h (context r) = "")
  /\ (typed.statusCode (returned o) = StatusUnauthorized
      \/ typed.statusCode (returned o) = StatusBadRequest ->
        trace o = [] /\ final o = w /\ typed.Data (returned o) = None)
  /\ typed.statusCode (returned o) ∈
       [StatusOK; StatusCreated; StatusBadRequest; StatusUnauthorized;
        StatusNotFound; StatusInternalServerError].
Proof.
  assert (Hin : forall z : Z, bool_decide (z ∈ [StatusOK; StatusCreated; StatusBadRequest;
                  StatusUnauthorized; StatusNotFound; StatusInternalServerError]) = true ->
                z ∈ [StatusOK; StatusCreated; StatusBadRequest; StatusUnauthorized;
                     StatusNotFound; StatusInternalServerError])
    by (intros z; apply bool_decide_eq_true_1).
  destruct route; cbn;
    [unfold MessagingHandler_GetConversations
    |unfold MessagingHandler_CreateConversation
    |unfold MessagingHandler_UpdateConversation
    |unfold MessagingHandler_GetMessages
    |unfold MessagingHandler_GetMessage
    |unfold MessagingHandler_GetAttachment];
    (destruct (decide (getUserIDFromContext h (context r) = "")) as [Hu|Hu];
       [cbn; split_and!; [done|done|by apply Hin]|]);
    try (destruct (decide (Param_id (context r) = "")) as [Hp|Hp];
           [cbn; split_and!; [done|done|by apply Hin]|]);
    try (destruct (ShouldBindJSON_CreateConversationRequest r) as [req|err];
           [|cbn; split_and!; [done|done|by apply Hin]]);
    try (destruct (ShouldBindJSON_UpdateConversationRequest r) as [req|err];
           [|cbn; split_and!; [done|done|by apply Hin]]);
    rewrite !returned_bind;
    match goal with |- context [returned (run hd ?p w)] =>
      destruct (returned (run hd p w))
    end; cbn; unfold observe; cbn;
    (split_and!; [done|by intros [|]|by apply Hin]).
Qed.

End Routes.

Lemma parseIntQuery_default (r : Request) (key : string) (defaultValue : Z) :
  parseIntQuery r key defaultValue = default defaultValue (strconv_Atoi (Query r key)).
Proof.
  unfold parseIntQuery. case_decide as Hq; [by destruct (strconv_Atoi _)|].
  assert (Query r key = "") as -> by (destruct (decide (Query r key = "")); tauto).
  done.
Qed.

Section PageSizes.
Context {C P : Type}.
Variable cacheImpl : Impl CacheServiceE C.
Variable publisherImpl : Impl EventPublisherE P.

Local Abbreviation handler := (collaborators postgres cacheImpl publisherImpl).

Lemma GetConversations_length (s : messagingService) (userID : string)
    (filters : ConversationFilters) (w : World Database C P) (l : list Conversation) :
  returned (run handler (GetConversations s userID filters) w) = Ok l ->
  0 < ConversationFilters.Limit filters ->
  Z.of_nat (length l) <= ConversationFilters.Limit filters.
Proof.
  unfold GetConversations. cbn. unfold observe. cbn.
  unfold postgresConversationRepository_GetByUserID.
  destruct (db_fault (db w)); cbn; [done|]. intros [= <-] Hl.
  rewrite length_fmap. by apply limit_offset_length.
Qed.

Lemma GetMessages_length (s : messagingService) (conversationID userID : string)
    (pagination : PaginationParams) (w : World Database C P) (page : list Message) :
  returned (run handler (GetMessages s conversationID userID pagination) w) = Ok page ->
  0 < PaginationParams.Limit pagination ->
  Z.of_nat (length page) <= PaginationParams.Limit pagination.
Proof.
  unfold GetMessages. rewrite run_bind. cbn [returned].
  set (check := run handler (GetConversation s conversationID userID) w) in *.
  destruct (returned check) as [c|err]; [|discriminate].
  cbn. unfold observe. cbn.
  unfold postgresMessageRepository_GetByConversationID.
  destruct (db_fault (db (final check))); cbn; [discriminate|].
  rewrite run_bind. cbn.
  match goal with |- context [run handler (loadAttachments ?sel) ?w'] =>
    destruct (loadAttachments_spec handler sel w') as [_ ->]
  end.
  intros [= <-] Hl. rewrite length_zip_with, length_fmap.
  pose proof (limit_offset_length (PaginationParams.Limit pagination)
                (PaginationParams.Offset pagination)
                (merge_sort messages_order
                   (List.filter
                      (fun r => bool_decide (messages.conversation_id r = conversationID))
                      (messages_rows (db (final check))))) Hl).
  lia.
Qed.

(** X15.  The size of a page over HTTP.  The [limit] of the query is
    read as a decimal integer; absent, empty or unreadable it is 20 for
    the list of conversations and 50 for the messages of a conversation.
    When it is positive, a list that is returned has no more entries than
    that. *)
Theorem listings_page_size (h : MessagingHandler) (r : Request) (w : World Database C P) :
  let limit (d : Z) := default d (strconv_Atoi (Query r "limit")) in
  (forall l,
      typed.Data (returned (run handler (MessagingHandler_GetConversations h r) w)) = Some l ->
      0 < limit 20 -> Z.of_nat (length l) <= limit 20)
  /\ (forall l,
        typed.Data (returned (run handler (MessagingHandler_GetMessages h r) w)) = Some l ->
        0 < limit 50 -> Z.of_nat (length l) <= limit 50)
  /\ (strconv_Atoi (Query r "limit") = None -> limit 20 = 20 /\ limit 50 = 50)
  /\ strconv_Atoi "" = None.
Proof.
  intros limit. subst limit. cbn beta. split_and!.
  - intros l. unfold MessagingHandler_GetConversations.
    destruct (decide (getUserIDFromContext h (context r) = "")); [done|].
    rewrite returned_bind.
    match goal with |- context [returned (run handler (GetConversations ?s ?u ?f) w)] =>
      pose proof (GetConversations_length s u f w) as Hlen;
      destruct (returned (run handler (GetConversations s u f) w)) as [l0|err]
    end; cbn; unfold observe; cbn; [|done].
    intros [= <-]. cbn in Hlen. rewrite parseIntQuery_default in Hlen. by apply Hlen.
  - intros l. unfold MessagingHandler_GetMessages.
    destruct (decide (getUserIDFromContext h (context r) = "")); [done|].
    destruct (decide (Param_id (context r) = "")); [done|].
    rewrite returned_bind.
    match goal with |- context [returned (run handler (GetMessages ?s ?i ?u ?p) w)] =>
      pose proof (GetMessages_length s i u p w) as Hlen;
      destruct (returned (run handler (GetMessages s i u p) w)) as [l0|err]
    end; cbn; unfold observe; cbn; [|done].
    intros [= <-]. cbn in Hlen. rewrite parseIntQuery_default in Hlen. by apply Hlen.
  - by intros ->.
  - done.
Qed.

End PageSizes.

(** ** The file service *)

Lemma determineFileType_valid (s : localFileService) (filename : string) :
  attachment_type_check (determineFileType s filename) = true.
Proof.
  unfold determineFileType.
  repeat match goal with |- context [if ?b then _ else _] => destruct b end; reflexivity.
Qed.

Section AnyMachine.
Context {W : Type}.
Variable fh : forall X : Type, FileCall X -> W -> X * W.

(** X16.  [UploadFile] on any machine.  A file declared larger than the
    configured maximum is refused before the disk or anything else is
    touched.  When the upload succeeds, exactly one file was written, under
    the directory of the user and a name made of a fresh identifier, the
    time and the extension of the original name; the URL names that user
    and that file; the reported size is the number of bytes written, the
    file name is the original one, and the type is one the [attachments]
    table accepts; nothing was removed.  When it fails after the copy has
    started, the partial file is removed. *)
Theorem UploadFile_outcome (s : localFileService) (req : UploadFileRequest) (w : W) :
  let o := file_run fh (localFileService_UploadFile s req) w in
  let config := localFileService_config s in
  let Join := filepath_Join (localFileService_platform s) in
  match file_returned o with
  | Ok resp =>
      UploadFileRequest.Size req <= FileStorageConfig.MaxFileSize config
      /\ UploadFileResponse.Filename resp = UploadFileRequest.Filename req
      /\ attachment_type_check (UploadFileResponse.Type_ resp) = true
      /\ removals (file_trace o) = []
      /\ exists id time,
           let unique :=
             id +:+ "_" +:+ time +:+ filepath_Ext (UploadFileRequest.Filename req) in
           UploadFileResponse.URL resp =
             "/uploads/" +:+ UploadFileRequest.UserID req +:+ "/" +:+ unique
           /\ copies (file_trace o) =
                [(Join (Join (FileStorageConfig.LocalPath config)
                          (UploadFileRequest.UserID req)) unique,
                  (UploadFileResponse.Size resp, None))]
  | Err err =>
      (UploadFileRequest.Size req > FileStorageConfig.MaxFileSize config ->
         file_trace o = [] /\ file_final o = w)
      /\ (forall path answer, (path, answer) ∈ copies (file_trace o) ->
            removals (file_trace o) = [path])
  end.
Proof.
  intros o config Join. subst o config Join. unfold localFileService_UploadFile.
  destruct (decide (_ > _)) as [Hbig|Hok]; cbn.
  { split; [done|]. by intros path answer ?%elem_of_nil. }
  unfold file_observe; cbn.
  destruct (fh _ (process uuid_New) w) as [id w1]; cbn.
  destruct (fh _ (process time_Now) w1) as [now w2]; cbn.
  destruct (fh _ (os (os_MkdirAll _ _)) w2) as [[err|] w3]; cbn; unfold file_observe; cbn.
  { split; [lia|]. by intros path answer ?%elem_of_nil. }
  destruct (fh _ (os (os_Create _)) w3) as [[err|] w4]; cbn; unfold file_observe; cbn.
  { split; [lia|]. by intros path answer ?%elem_of_nil. }
  destruct (fh _ (os (io_Copy _ _)) w4) as [[written [err|]] w5]; cbn;
    unfold file_observe; cbn.
  - split; [lia|]. intros path answer Hin. cbn in Hin.
    apply list_elem_of_singleton in Hin as [= -> ->]. reflexivity.
  - split_and!; [lia|done|apply determineFileType_valid|done|].
    by exists id, (Time_Format (localFileService_platform s) now "20060102_150405").
Qed.

End AnyMachine.








Lemma file_run_bind {W A B : Type} (fh : forall X : Type, FileCall X -> W -> X * W)
    (p : FileProg A) (f : A -> FileProg B) (w : W) :
  file_run fh (p ≫= f) w =
  let o1 := file_run fh p w in
  let o2 := file_run fh (f (file_returned o1)) (file_final o1) in
  mkFileOutcome (file_returned o2) (file_final o2) (file_trace o1 ++ file_trace o2)%list.
Proof.
  unfold mbind, FileProg_bind.
  revert w. induction p as [a | X c k IH]; intros w.
  - simpl. destruct (file_run fh (f a) w); reflexivity.
  - simpl. rewrite IH. reflexivity.
Qed.

Section UploadRoute.
Context {W : Type}.
Variable fh : forall X : Type, FileCall X -> W -> X * W.

Lemma UploadFile_writes_under_user (s : localFileService) (req : UploadFileRequest)
    (w : W) :
  let o := file_run fh (localFileService_UploadFile s req) w in
  let Join := filepath_Join (localFileService_platform s) in
  (forall path answer, (path, answer) ∈ copies (file_trace o) ->
     exists name,
       path = Join (Join (FileStorageConfig.LocalPath (localFileService_config s))
                      (UploadFileRequest.UserID req)) name)
  /\ forall resp, file_returned o = Ok resp ->
       UploadFileResponse.Filename resp = UploadFileRequest.Filename req
       /\ attachment_type_check (UploadFileResponse.Type_ resp) = true
       /\ exists name,
            UploadFileResponse.URL resp =
              "/uploads/" +:+ UploadFileRequest.UserID req +:+ "/" +:+ name.
Proof.
  intros o Join. subst o Join. unfold localFileService_UploadFile.
  destruct (decide (_ > _)) as [Hbig|Hok]; cbn.
  { split; [|done]. by intros path answer ?%elem_of_nil. }
  unfold file_observe; cbn.
  destruct (fh _ (process uuid_New) w) as [id w1]; cbn.
  destruct (fh _ (process time_Now) w1) as [now w2]; cbn.
  destruct (fh _ (os (os_MkdirAll _ _)) w2) as [[err|] w3]; cbn; unfold file_observe; cbn.
  { split; [|done]. by intros path answer ?%elem_of_nil. }
  destruct (fh _ (os (os_Create _)) w3) as [[err|] w4]; cbn; unfold file_observe; cbn.
  { split; [|done]. by intros path answer ?%elem_of_nil. }
  destruct (fh _ (os (io_Copy _ _)) w4) as [[written [err|]] w5]; cbn;
    unfold file_observe; cbn.
  - split; [|done]. intros path answer Hin. cbn in Hin.
    apply list_elem_of_singleton in Hin as [= -> ->]. by eexists.
  - split.
    + intros path answer Hin. cbn in Hin.
      apply list_elem_of_singleton in Hin as [= -> ->]. by eexists.
    + intros resp [= <-]. cbn. split_and!; [done|apply determineFileType_valid|by eexists].
Qed.

(** X18.  The upload route.  It answers 401 or 400 without touching the
    disk.  Whatever is written to disk is written under the directory of
    the user of the token, and the URL of a successful answer names that
    user; the answer carries the file name of the form and a type the
    [attachments] table accepts.  Over the no-op file service the route
    never answers 200. *)
Theorem UploadAttachment_under_token_user (h : MessagingHandler)
    (config : FileStorageConfig) (platform : Platform) (r : Request) (w : W) :
  let o := file_run fh (MessagingHandler_UploadAttachment h
                          (NewLocalFileService config platform) r) w in
  let disabled := file_run fh (MessagingHandler_UploadAttachment h NewNoOpFileService r) w in
  let userID := getUserIDFromContext h (context r) in
  (typed.statusCode (file_returned o) = StatusUnauthorized <-> userID = "")
  /\ (typed.statusCode (file_returned o) = StatusUnauthorized
      \/ typed.statusCode (file_returned o) = StatusBadRequest -> file_trace o = [])
  /\ (forall path answer, (path, answer) ∈ copies (file_trace o) ->
        exists name,
          path = filepath_Join platform
                   (filepath_Join platform (FileStorageConfig.LocalPath config) userID) name)
  /\ (forall u, typed.Data (file_returned o) = Some u ->
        typed.statusCode (file_returned o) = StatusOK
        /\ attachment_type_check (UploadResponse.Type_ u) = true
        /\ (exists name, UploadResponse.URL u = "/uploads/" +:+ userID +:+ "/" +:+ name)
        /\ exists file header,
             FormFile r = Ok (file, header)
             /\ UploadResponse.Filename u = FileHeader.Filename header)
  /\ typed.statusCode (file_returned disabled) <> StatusOK
  /\ copies (file_trace disabled) = [].
Proof.
  intros o disabled userID. subst o disabled.
  unfold MessagingHandler_UploadAttachment. fold userID.
  destruct (decide (userID = "")) as [Hu|Hu].
  { cbn. split_and!; try done; by intros path answer ?%elem_of_nil. }
  destruct (FormFile r) as [[file header]|err] eqn:Hform.
  2: { cbn. split_and!; try done. by intros path answer ?%elem_of_nil. }
  cbn [UploadFile NewLocalFileService NewNoOpFileService].
  rewrite file_run_bind. cbn [file_returned file_trace file_final].
  match goal with |- context [file_run fh (localFileService_UploadFile ?s ?req) w] =>
    destruct (UploadFile_writes_under_user s req w) as [Hcopies Hresp];
    set (up := file_run fh (localFileService_UploadFile s req) w) in *
  end.
  cbn in Hcopies, Hresp.
  assert (Hc : forall t, copies t = [] -> copies (file_trace up ++ t) = copies (file_trace up)).
  { intros t Ht. unfold copies in *. by rewrite omap_app, Ht, app_nil_r. }
  destruct (file_returned up) as [resp|err]; cbn; unfold file_observe; cbn.
  - destruct (Hresp resp eq_refl) as (Hname & Hty & name & Hurl).
    split_and!; try done.
    + by intros [|].
    + intros path answer. rewrite Hc by done. apply Hcopies.
    + intros u [= <-]. cbn. split_and!; eauto.
  - split_and!; try done.
    + by intros [|].
    + intros path answer. rewrite Hc by done. apply Hcopies.
Qed.

End UploadRoute.

(** ** Attachments and required fields *)

Section AttachmentsOverPostgres.
Context {C P : Type}.
Variable cacheImpl : Impl CacheServiceE C.
Variable publisherImpl : Impl EventPublisherE P.

Local Abbreviation handler := (collaborators postgres cacheImpl publisherImpl).


End AttachmentsOverPostgres.

Section RequiredFields.
Context {W : Type}.
Variable h : Handler W.

Lemma SendMessage_writes_request (s : messagingService) (req : SendMessageRequest)
    (w : W) (m : Message) (answer : option error) :
  (m, answer) ∈ message_writes (trace (run h (SendMessage s req) w)) ->
  Message.SenderType m = SendMessageRequest.SenderType req
  /\ Message.Content m = SendMessageRequest.Content req
  /\ Message.ContentType m = SendMessageRequest.ContentType req
  /\ Message.Metadata m = SendMessageRequest.Metadata req
  /\ Message.Attachments m = [].
Proof.
  unfold SendMessage. rewrite trace_bind.
  destruct (GetConversation_calls h s (SendMessageRequest.ConversationID req)
              (SendMessageRequest.SenderID req) w) as (Hmw & _).
  unfold message_writes in *. rewrite omap_app, Hmw. clear Hmw.
  destruct (returned (run h (GetConversation s _ _) w));
    destruct (has_eventPublisher s); answers; unfold observe; cbn;
    intros Hin; try (by apply elem_of_nil in Hin);
    apply list_elem_of_singleton in Hin; by simplify_eq.
Qed.

(** X20.  A message that the HTTP route hands to the store has passed the
    binding of the body: its sender type, content and content type are
    those of the body and none of them is empty, its metadata is that of
    the body, and it carries no attachments. *)
Theorem MessagingHandler_SendMessage_required_fields (hd : MessagingHandler)
    (c : Context) (w : W) (m : Message) (answer : option error) :
  (m, answer) ∈ message_writes (trace (run h (MessagingHandler_SendMessage hd c) w)) ->
  exists body,
    Body c = Ok body
    /\ Message.SenderType m = SendMessageRequest.SenderType body
    /\ Message.Content m = SendMessageRequest.Content body
    /\ Message.ContentType m = SendMessageRequest.ContentType body
    /\ Message.Metadata m = SendMessageRequest.Metadata body
    /\ Message.Attachments m = []
    /\ Message.SenderType m <> "" /\ Message.Content m <> ""
    /\ Message.ContentType m <> "".
Proof.
  unfold MessagingHandler_SendMessage.
  destruct (decide (getUserIDFromContext hd c = "")) as [|Hu];
    [intros Hin; by apply elem_of_nil in Hin|].
  destruct (decide (Param_id c = ""));
    [intros Hin; by apply elem_of_nil in Hin|].
  unfold ShouldBindJSON.
  destruct (Body c) as [body|err]; [|intros Hin; by apply elem_of_nil in Hin].
  unfold SendMessageRequest_required. cbn [List.filter snd fst].
  destruct (decide (SendMessageRequest.SenderType body = "")) as [He|Hst];
    [rewrite He, (bool_decide_eq_true_2 ("" = "") eq_refl); cbn;
     repeat match goal with |- context [bool_decide ?Q] => destruct (bool_decide Q) end;
     intros Hin; by apply elem_of_nil in Hin|].
  destruct (decide (SendMessageRequest.Content body = "")) as [He|Hct];
    [rewrite He, (bool_decide_eq_true_2 ("" = "") eq_refl); cbn;
     repeat match goal with |- context [bool_decide ?Q] => destruct (bool_decide Q) end;
     intros Hin; by apply elem_of_nil in Hin|].
  destruct (decide (SendMessageRequest.ContentType body = "")) as [He|Hcy];
    [rewrite He, (bool_decide_eq_true_2 ("" = "") eq_refl); cbn;
     repeat match goal with |- context [bool_decide ?Q] => destruct (bool_decide Q) end;
     intros Hin; by apply elem_of_nil in Hin|].
  rewrite (bool_decide_eq_false_2 _ Hst), (bool_decide_eq_false_2 _ Hct),
    (bool_decide_eq_false_2 _ Hcy).
  repeat match goal with |- context [bool_decide ?Q] => destruct (bool_decide Q) end;
    try (intros Hin; by apply elem_of_nil in Hin).
  rewrite trace_bind. unfold message_writes. rewrite omap_app.
  match goal with |- context [run h (SendMessage ?s ?r) w] =>
    pose proof (SendMessage_writes_request s r w m answer) as Hw;
    destruct (returned (run h (SendMessage s r) w))
  end; cbn; rewrite app_nil_r; intros Hin;
    destruct (Hw Hin) as (H1 & H2 & H3 & H4 & H5); cbn in *;
    exists body; rewrite H1, H2, H3; split_and!; done.
Qed.

End RequiredFields.

Section DefaultLimit.
Context {W : Type}.
Variable fh : forall X : Type, FileCall X -> W -> X * W.

(** X22.  The upload limit of a default installation.  When
    [FILE_STORAGE_MAX_SIZE] is unset, empty or not a decimal integer, the
    file service built from the loaded configuration refuses every file
    declared larger than 10485760 bytes (ten mebibytes), with an error
    that names that number and before touching the disk, and refuses no
    file for its size below that. *)
Theorem default_upload_limit (env : Environ) (platform : Platform)
    (req : UploadFileRequest) (w : W) :
  strconv_ParseInt (env "FILE_STORAGE_MAX_SIZE") = None ->
  let service := NewLocalFileService (Config.FileStorage (Load env)) platform in
  let o := file_run fh (UploadFile service req) w in
  (UploadFileRequest.Size req > 10485760 ->
     file_returned o = Err "file size exceeds maximum allowed size of 10485760 bytes"
     /\ file_trace o = [] /\ file_final o = w)
  /\ (UploadFileRequest.Size req <= 10485760 ->
        exists id, head (file_trace o) = Some (FileEv (process uuid_New) id)).
Proof.
  intros Hunset service o. subst service o.
  cbn [UploadFile NewLocalFileService]. unfold localFileService_UploadFile.
  cbn [localFileService_config Config.FileStorage Load FileStorageConfig.MaxFileSize].
  assert (Hmax : getEnvAsInt64 env "FILE_STORAGE_MAX_SIZE" (10 * 1024 * 1024) = 10485760).
  { unfold getEnvAsInt64. rewrite Hunset. by case_decide. }
  rewrite Hmax. split; intros Hsize.
  - rewrite decide_True by done. done.
  - rewrite decide_False by lia. cbn. unfold file_observe. cbn. by eexists.
Qed.

End DefaultLimit.

Section OpaqueFailures.
Context {W : Type}.
Variable hd : Handler W.


End OpaqueFailures.

(** ** The further properties at work *)

Lemma Sample_database_consistent : db_consistent Sample.database.
Proof.
  split; refine (bool_decide_unpack _ _); vm_compute; exact I.
Qed.



(** X7, witness: the first page of conversation 1 for its owner. *)
Lemma GetMessages_page_of_conversation_witness :
  StronglySorted (fun t t' => t' <= t) (Message.Timestamp <$> Sample.page)
  /\ Forall (fun m => Message.ConversationID m = Sample.conversation1_id) Sample.page.
Proof.
  destruct (GetMessages_page_of_conversation redisCacheService
              (redisEventPublisher "messaging.events") Sample.service
              Sample.conversation1_id "user123" Sample.first_page Sample.world Sample.page)
    as (_ & Hpage & Hsorted & _).
  - vm_compute. reflexivity.
  - split; [exact Hsorted|]. eapply Forall_impl; [exact Hpage|]. by intros m [? _].
Defined.


(** X9, witness: no conversation can be given the status [deleted]. *)
Lemma UpdateConversationStatus_touches_one_row_witness :
  returned (run Sample.deployment
              (UpdateConversationStatus Sample.service Sample.conversation1_id
                 "deleted" "user123")
              Sample.world) <> None.
Proof.
  refine (proj1 (UpdateConversationStatus_touches_one_row redisCacheService
                   (redisEventPublisher "messaging.events") Sample.service
                   Sample.conversation1_id "deleted" "user123" Sample.world _) _).
  - apply cache_agrees_empty. reflexivity.
  - vm_compute. reflexivity.
Defined.

(** X10, witness: the sample data meet the constraints, and still do
    after conversation 1 is deleted. *)
Lemma schema_constraints_preserved_witness :
  db_consistent
    (execute (ConversationRepository_Delete Sample.conversation1_id) Sample.database).
Proof.
  exact (proj1 (schema_constraints_preserved Sample.database Sample_database_consistent)
           (ConversationRepository_Delete Sample.conversation1_id)).
Defined.

(** X11, witness: deleting conversation 1 leaves no message and no
    attachment, all of them being its own. *)
Lemma ConversationRepository_Delete_cascades_witness :
  let d' := (postgresConversationRepository_Delete Sample.conversation1_id
               Sample.database).2 in
  select_conversation d' Sample.conversation1_id = None
  /\ forall m, m ∈ messages_rows d' <->
               m ∈ messages_rows Sample.database
               /\ messages.conversation_id m <> Sample.conversation1_id.
Proof.
  destruct (ConversationRepository_Delete_cascades Sample.conversation1_id Sample.database)
    as (_ & Hdel).
  - exact Sample_database_consistent.
  - reflexivity.
  - destruct Hdel as (_ & Hgone & _ & Hmsgs & _).
    + vm_compute. eauto.
    + split; [exact Hgone|exact Hmsgs].
Defined.



(** X20, witness: the message of a request whose body names another
    conversation and another sender. *)
Lemma MessagingHandler_SendMessage_required_fields_witness :
  Message.Content Sample.hello_message <> "".
Proof.
  destruct (MessagingHandler_SendMessage_required_fields Sample.deployment Sample.http
              (Sample.send "user456") Sample.world Sample.hello_message None)
    as (body & _ & _ & _ & _ & _ & _ & _ & Hcontent & _).
  - vm_compute. left.
  - exact Hcontent.
Defined.

(** The cache stays a subset of the store's truth; witness: on the sample
    deployment, after a message was sent. *)
Lemma cache_sound_preserved_witness :
  cache_sound
    (final (run Sample.deployment
              (dispatch Sample.service (MessagingService_SendMessage Sample.hello_as_user123))
              Sample.world)).
Proof.
  refine (proj1 (cache_sound_preserved (redisEventPublisher "messaging.events")
                   Sample.service (MessagingService_SendMessage Sample.hello_as_user123)
                   Sample.world _)).
  apply cache_sound_empty. reflexivity.
Defined.

(** X22, witness: with an empty environment, a file of ten mebibytes and
    one byte is refused. *)
Lemma default_upload_limit_witness :
  file_returned
    (file_run machine
       (UploadFile (NewLocalFileService (Config.FileStorage (Load (fun _ => "")))
                      Cases.platform)
          (UploadFileRequest.mk "" "big.bin" 10485761 "user123"))
       (Cases.disk, Sample.process))
  = Err "file size exceeds maximum allowed size of 10485760 bytes".
Proof.
  refine (proj1 (proj1 (default_upload_limit machine (fun _ => "") Cases.platform
                          (UploadFileRequest.mk "" "big.bin" 10485761 "user123")
                          (Cases.disk, Sample.process) _) _)).
  - reflexivity.
  - reflexivity.
Defined.
